(** * Kronos Web UI launcher (webui/run.py): model and verified properties

    The launcher is a sequential Python script whose behaviour is entirely
    made of interactions with its surroundings: imports, sockets, the file
    system, the console, a pip subprocess and the loaded Flask application.
    It is embedded here as a state-and-exception monad over a process state
    that records every interaction in an event log.  The surroundings are a
    [World] record of oracles, one per external operation. *)

From Stdlib Require Import String Ascii List ZArith Bool Lia DecimalString.
Import ListNotations.
Open Scope string_scope.
Open Scope Z_scope.

(** ** Python values and exceptions *)

(** The values the launcher's functions return. *)
Inductive pyval : Type :=
| PNone
| PBool (b : bool)
| PStr (s : string)
| PList (l : list string).   (* a list of str *)

(** Python truth value, as used by [if x] and [not x]. *)
Definition truthy (v : pyval) : bool :=
  match v with
  | PNone => false
  | PBool b => b
  | PStr s => negb (String.eqb s "")
  | PList l => match l with [] => false | _ => true end
  end.

(** The part of Python's exception hierarchy the launcher can meet. *)
Inductive exn_class : Type :=
| BaseException
| KeyboardInterrupt
| SystemExit
| Exception
| ImportError
| ModuleNotFoundError
| OSError
| FileNotFoundError
| PermissionError
| TimeoutError
| SocketGaierror
| SubprocessError
| CalledProcessError
| EOFError
| AttributeError
| TypeError
| ValueError
| OverflowError
| RuntimeError
| SyntaxError.

(** Direct base class. *)
Definition base_of (c : exn_class) : option exn_class :=
  match c with
  | BaseException => None
  | KeyboardInterrupt | SystemExit | Exception => Some BaseException
  | ImportError | OSError | SubprocessError | EOFError | AttributeError
  | TypeError | ValueError | OverflowError | RuntimeError | SyntaxError =>
      Some Exception
  | ModuleNotFoundError => Some ImportError
  | FileNotFoundError | PermissionError | TimeoutError | SocketGaierror =>
      Some OSError
  | CalledProcessError => Some SubprocessError
  end.

Definition exn_class_eqb (a b : exn_class) : bool :=
  match a, b with
  | BaseException, BaseException | KeyboardInterrupt, KeyboardInterrupt
  | SystemExit, SystemExit | Exception, Exception
  | ImportError, ImportError | ModuleNotFoundError, ModuleNotFoundError
  | OSError, OSError | FileNotFoundError, FileNotFoundError
  | PermissionError, PermissionError | TimeoutError, TimeoutError
  | SocketGaierror, SocketGaierror | SubprocessError, SubprocessError
  | CalledProcessError, CalledProcessError | EOFError, EOFError
  | AttributeError, AttributeError | TypeError, TypeError
  | ValueError, ValueError | OverflowError, OverflowError
  | RuntimeError, RuntimeError | SyntaxError, SyntaxError => true
  | _, _ => false
  end.

(** [issubclass c d], walking up the base classes (the hierarchy above has
    depth four). *)
Fixpoint issubclass_fuel (fuel : nat) (c d : exn_class) : bool :=
  exn_class_eqb c d ||
  match fuel with
  | O => false
  | S k => match base_of c with
           | Some b => issubclass_fuel k b d
           | None => false
           end
  end.

Definition issubclass : exn_class -> exn_class -> bool := issubclass_fuel 4.

(** A raised exception: its class and its [str()]. *)
Record exn : Type := mkExn { exn_cls : exn_class; exn_str : string }.

Definition isinstance (e : exn) (c : exn_class) : bool :=
  issubclass (exn_cls e) c.

(** ** Paths (pathlib.Path, POSIX flavour) *)

Record Path : Type := mkPath { anchor : string; parts : list string }.

(** [p.parent] *)
Definition parent (p : Path) : Path :=
  mkPath (anchor p) (removelast (parts p)).

(** [p / name] for a single relative component. *)
Definition path_div (p : Path) (name : string) : Path :=
  mkPath (anchor p) (parts p ++ [name]).

Fixpoint join (sep : string) (l : list string) : string :=
  match l with
  | [] => ""
  | [x] => x
  | x :: rest => x ++ sep ++ join sep rest
  end.

(** [str(p)] *)
Definition path_str (p : Path) : string :=
  match anchor p, parts p with
  | EmptyString, [] => "."
  | a, ps => a ++ join "/" ps
  end.

(** ** Strings *)

Definition nl : string := String (ascii_of_nat 10) EmptyString.

Definition lower_ascii (c : ascii) : ascii :=
  let n := nat_of_ascii c in
  if (Nat.leb 65 n && Nat.leb n 90)%bool then ascii_of_nat (n + 32) else c.

(** [s.lower()] (on the ASCII letters; other bytes are kept). *)
Fixpoint lower (s : string) : string :=
  match s with
  | EmptyString => EmptyString
  | String c r => String (lower_ascii c) (lower r)
  end.

(** [str(n)] for an int, as an f-string formats it. *)
Definition str_of_int (z : Z) : string := NilZero.string_of_int (Z.to_int z).

(** ** Events and process state *)

(** Every interaction of the launcher with its surroundings. *)
Inductive event : Type :=
| EvPrint (text : string)                     (* text written to stdout *)
| EvInput                                      (* input() *)
| EvImport (name : string)                     (* __import__(name) *)
| EvSysPathInsert (dir : string)               (* sys.path.insert(0, dir) *)
| EvImportModel                                (* from model import ... *)
| EvSocket                                     (* socket.socket(AF_INET, SOCK_STREAM) *)
| EvConnectEx (host : string) (port : Z)       (* sock.connect_ex((host, port)) *)
| EvSockClose                                  (* sock.close() *)
| EvExists (p : Path)                          (* p.exists() *)
| EvCheckCall (argv : list string)             (* subprocess.check_call(argv) *)
| EvSetEnv (key value : string)                (* os.environ[key] = value *)
| EvChdir (dir : Path)                         (* os.chdir(dir) *)
| EvSpecFromFile (name file : string)          (* importlib.util.spec_from_file_location *)
| EvModuleFromSpec                             (* importlib.util.module_from_spec *)
| EvExecModule (file : string) (cwd_seen : Path) (* spec.loader.exec_module *)
| EvGetattrApp                                 (* getattr(app_module, 'app', None) *)
| EvThreadStart (url : string)                 (* daemon thread running open_browser *)
| EvAppRun (debug : bool) (host : string) (port : Z) (use_reloader : bool).

Record pstate : Type := mkState {
  cwd : Path;                          (* current working directory *)
  environ : list (string * string);    (* os.environ, latest binding first *)
  sys_path : list string;              (* sys.path *)
  log : list event                     (* interactions so far, oldest first *)
}.

(** ** The monad: statements with early return and exceptions *)

Inductive res (A : Type) : Type :=
| Norm (a : A)        (* the statement completed *)
| Retn (v : pyval)    (* a [return v] was executed *)
| Exn (e : exn).      (* an exception is propagating *)
Arguments Norm {A} a.
Arguments Retn {A} v.
Arguments Exn {A} e.

Definition M (A : Type) : Type := pstate -> res A * pstate.

Definition ret {A} (a : A) : M A := fun s => (Norm a, s).

Definition bind {A B} (m : M A) (k : A -> M B) : M B :=
  fun s => match m s with
           | (Norm a, s') => k a s'
           | (Retn v, s') => (Retn v, s')
           | (Exn e, s') => (Exn e, s')
           end.

Declare Scope py_scope.
Delimit Scope py_scope with py.
Notation "x <- m ;; k" := (bind m (fun x => k))
  (at level 100, m at next level, right associativity) : py_scope.
Notation "m ;; k" := (bind m (fun _ => k))
  (at level 100, right associativity) : py_scope.
Open Scope py_scope.

(** [return v] *)
Definition return_ {A} (v : pyval) : M A := fun s => (Retn v, s).

(** [raise e] *)
Definition raise {A} (e : exn) : M A := fun s => (Exn e, s).

(** Calling a function whose body is [body]: a [return v] inside becomes the
    call's value, falling off the end gives [None]. *)
Definition call (body : M unit) : M pyval :=
  fun s => match body s with
           | (Norm _, s') => (Norm PNone, s')
           | (Retn v, s') => (Norm v, s')
           | (Exn e, s') => (Exn e, s')
           end.

(** [try: body  except C1 as e: h1 e  except C2 as e: h2 e ...]: the first
    clause whose class the exception is an instance of handles it. *)
Fixpoint select_handler {A} (hs : list (exn_class * (exn -> M A))) (e : exn)
  : option (M A) :=
  match hs with
  | [] => None
  | (c, h) :: rest => if isinstance e c then Some (h e) else select_handler rest e
  end.

Definition try_except {A} (body : M A) (hs : list (exn_class * (exn -> M A)))
  : M A :=
  fun s => match body s with
           | (Exn e, s') => match select_handler hs e with
                            | Some h => h s'
                            | None => (Exn e, s')
                            end
           | r => r
           end.

(** The state after the interactions [evs] were appended to the log. *)
Definition add_log (s : pstate) (evs : list event) : pstate :=
  mkState (cwd s) (environ s) (sys_path s) (log s ++ evs).

Definition emit (ev : event) : M unit :=
  fun s => (Norm tt, add_log s [ev]).

(** Lifting the answer of an oracle: a value or a raised exception. *)
Definition lift {A} (r : exn + A) : M A :=
  match r with
  | inl e => raise e
  | inr a => ret a
  end.

(** [print(text)] and [print(text, end=e)] *)
Definition print_end (text e : string) : M unit := emit (EvPrint (text ++ e)).
Definition print (text : string) : M unit := print_end text nl.

(** Loop control after one iteration of a [for] body. *)
Inductive ctl : Type := Continue | Break.

(** [for x in xs: body  else: orelse], threading the local variables [L]
    the body assigns. The [else] suite runs when the loop was not left by
    [break]. *)
Fixpoint for_else {X L} (xs : list X) (body : X -> L -> M (ctl * L))
  (orelse : L -> M L) (l : L) : M L :=
  match xs with
  | [] => orelse l
  | x :: rest =>
      r <- body x l ;;
      match r with
      | (Break, l') => ret l'
      | (Continue, l') => for_else rest body orelse l'
      end
  end.

(** [for x in xs: body] without [break]. *)
Fixpoint for_each {X L} (xs : list X) (body : X -> L -> M L) (l : L) : M L :=
  match xs with
  | [] => ret l
  | x :: rest => l' <- body x l ;; for_each rest body l'
  end.

(** ** The surroundings *)

(** What the socket module raises: every one of these derives from
    [Exception]. *)
Inductive sock_error : Type :=
| SockOSError (msg : string)
| SockGaierror (msg : string)
| SockTimeout (msg : string)
| SockOverflowError (msg : string)
| SockTypeError (msg : string).

Definition exn_of_sock_error (e : sock_error) : exn :=
  match e with
  | SockOSError m => mkExn OSError m
  | SockGaierror m => mkExn SocketGaierror m
  | SockTimeout m => mkExn TimeoutError m
  | SockOverflowError m => mkExn OverflowError m
  | SockTypeError m => mkExn TypeError m
  end.

(** The server object of the loaded application: [app_run debug host port
    use_reloader] is what its blocking [run] call ends with, [None] for a
    normal return. *)
Record App : Type := mkApp {
  app_run : bool -> string -> Z -> bool -> option exn
}.

(** One oracle per external operation. [option exn] answers are [None] on
    success. *)
Record World : Type := mkWorld {
  w_file : Path;                                (* Path(__file__) *)
  w_executable : string;                        (* sys.executable *)
  w_import : string -> option exn;              (* __import__(name) *)
  w_input : exn + string;                       (* input() *)
  w_exists : Path -> bool;                      (* Path.exists() *)
  w_check_call : list string -> option exn;     (* subprocess.check_call *)
  w_import_model : option exn;                  (* from model import ... *)
  w_socket : option sock_error;                 (* socket.socket(...) *)
  w_connect_ex : string -> Z -> sock_error + Z; (* sock.connect_ex *)
  w_sock_close : option sock_error;             (* sock.close() *)
  w_chdir : Path -> option exn;                 (* os.chdir *)
  w_exec_module : string -> Path -> option exn; (* exec_module, given the cwd *)
  w_module_app : option App                     (* getattr(module, 'app', None) *)
}.

Definition unit_result (o : option exn) : exn + unit :=
  match o with
  | Some e => inl e
  | None => inr tt
  end.

Definition sock_result {A} (r : sock_error + A) : exn + A :=
  match r with
  | inl e => inl (exn_of_sock_error e)
  | inr a => inr a
  end.

Definition as_str (v : pyval) : string :=
  match v with
  | PStr s => s
  | _ => ""
  end.

Section WithWorld.

Variable w : World.

(** *** External operations: log the attempt, then answer from the world *)

Definition py_import (name : string) : M unit :=
  emit (EvImport name) ;; lift (unit_result (w_import w name)).

Definition py_input : M string :=
  emit EvInput ;; lift (w_input w).

Definition path_exists (p : Path) : M bool :=
  emit (EvExists p) ;; ret (w_exists w p).

Definition check_call (argv : list string) : M unit :=
  emit (EvCheckCall argv) ;; lift (unit_result (w_check_call w argv)).

Definition sys_path_insert (dir : string) : M unit :=
  fun s => (Norm tt, add_log (mkState (cwd s) (environ s) (dir :: sys_path s)
                                      (log s))
                             [EvSysPathInsert dir]).

Definition import_model : M unit :=
  emit EvImportModel ;; lift (unit_result (w_import_model w)).

Definition socket_socket : M unit :=
  emit EvSocket ;;
  lift (sock_result (match w_socket w with Some e => inl e | None => inr tt end)).

Definition connect_ex (host : string) (port : Z) : M Z :=
  emit (EvConnectEx host port) ;; lift (sock_result (w_connect_ex w host port)).

Definition sock_close : M unit :=
  emit EvSockClose ;;
  lift (sock_result (match w_sock_close w with Some e => inl e | None => inr tt end)).

Definition setenv (key value : string) : M unit :=
  fun s => (Norm tt, add_log (mkState (cwd s) ((key, value) :: environ s)
                                      (sys_path s) (log s))
                             [EvSetEnv key value]).

(** [os.chdir(dir)]: the working directory changes only when the call
    succeeds. *)
Definition chdir (dir : Path) : M unit :=
  fun s => match w_chdir w dir with
           | Some e => (Exn e, add_log s [EvChdir dir])
           | None => (Norm tt, add_log (mkState dir (environ s) (sys_path s)
                                                (log s))
                                       [EvChdir dir])
           end.

Definition spec_from_file_location (name file : string) : M unit :=
  emit (EvSpecFromFile name file).

Definition module_from_spec : M unit := emit EvModuleFromSpec.

(** The module's top-level code runs in the process as it is now: it sees
    the current working directory. *)
Definition exec_module (file : string) : M unit :=
  fun s => (emit (EvExecModule file (cwd s)) ;;
            lift (unit_result (w_exec_module w file (cwd s)))) s.

Definition getattr_app : M (option App) :=
  emit EvGetattrApp ;; ret (w_module_app w).

(** [threading.Thread(target=open_browser)], [daemon = True], [start()]:
    the thread's own actions run concurrently and are not part of the
    launcher's sequence. *)
Definition thread_start_open_browser (url : string) : M unit :=
  emit (EvThreadStart url).

Definition run_app (app : App) (debug : bool) (host : string) (port : Z)
  (use_reloader : bool) : M unit :=
  emit (EvAppRun debug host port use_reloader) ;;
  lift (unit_result (app_run app debug host port use_reloader)).

(** *** run.py *)

(** [def check_port_availability(host='localhost', port=7070)] *)
Definition check_port_availability (host : string) (port : Z) : M unit :=
  try_except
    (socket_socket ;;
     result <- connect_ex host port ;;
     sock_close ;;
     return_ (PBool (negb (result =? 0))))
    [(Exception, fun _ => return_ (PBool false))].

Definition required_packages : list string :=
  ["flask"; "flask_cors"; "pandas"; "numpy"; "plotly"].

(** The body of [for package in required_packages]. *)
Definition check_one (package : string) (missing_packages : list string)
  : M (list string) :=
  try_except
    (py_import package ;; ret missing_packages)
    [(ImportError, fun _ => ret (missing_packages ++ [package])%list)].

(** [def check_dependencies()] *)
Definition check_dependencies : M unit :=
  missing_packages <- for_each required_packages check_one [] ;;
  if truthy (PList missing_packages) then
    print ("❌ 缺少依赖: " ++ join ", " missing_packages) ;;
    print "请运行: pip install -r requirements.txt" ;;
    return_ (PBool false)
  else
    print "✅ 所有依赖已安装" ;;
    return_ (PBool true).

Definition requirements_path : Path :=
  path_div (parent (w_file w)) "requirements.txt".

(** [def install_dependencies()] *)
Definition install_dependencies : M unit :=
  print "正在安装依赖..." ;;
  try_except
    (ex <- path_exists requirements_path ;;
     (if negb ex then
        print "❌ 未找到 requirements.txt" ;;
        return_ (PBool false)
      else ret tt) ;;
     check_call [w_executable w; "-m"; "pip"; "install"; "-r";
                 path_str requirements_path] ;;
     print "✅ 依赖安装完成" ;;
     return_ (PBool true))
    [(CalledProcessError,
      fun e => print ("❌ 依赖安装失败: " ++ exn_str e) ;; return_ (PBool false));
     (Exception,
      fun e => print ("❌ 安装错误: " ++ exn_str e) ;; return_ (PBool false))].

Definition possible_paths : list Path :=
  [path_div (parent (w_file w)) "app.py";
   path_div (parent (w_file w)) "application.py";
   path_div (parent (w_file w)) "main.py"].

(** [def find_app_file()] *)
Definition find_app_file : M unit :=
  for_each possible_paths
    (fun path (_ : unit) =>
       ex <- path_exists path ;;
       if ex then return_ (PStr (path_str path)) else ret tt) tt ;;
  return_ PNone.

(** ["=" * 50] *)
Fixpoint str_repeat (s : string) (n : nat) : string :=
  match n with
  | O => ""
  | S k => s ++ str_repeat s k
  end.

(** [main], lines 89-97 (检查依赖): verify the dependencies, offer to install
    them. *)
Definition main_dependencies : M unit :=
  ok <- call check_dependencies ;;
  if negb (truthy ok) then
    print_end (nl ++ "自动安装依赖? (y/n): ") "" ;;
    answer <- py_input ;;
    if String.eqb (lower answer) "y" then
      installed <- call install_dependencies ;;
      if negb (truthy installed) then return_ PNone else ret tt
    else
      print "请手动安装依赖后重试" ;;
      return_ PNone
  else ret tt.

(** [main], lines 99-109 (检查模型可用性): the value is [model_available]. *)
Definition main_model (current_dir : Path) : M bool :=
  try_except
    (let project_root := parent current_dir in
     sys_path_insert (path_str project_root) ;;
     import_model ;;
     print "✅ Kronos 模型库可用" ;;
     ret true)
    [(ImportError,
      fun e => print ("⚠️  Kronos 模型库不可用: " ++ exn_str e) ;;
               print "将使用模拟预测模式" ;;
               ret false)].

(** [main], lines 111-117 (查找应用文件): the value is [app_file]. *)
Definition main_app_file : M string :=
  app_file <- call find_app_file ;;
  if negb (truthy app_file) then
    print "❌ 无法找到 Flask 应用文件 (app.py, application.py, 或 main.py)" ;;
    return_ PNone
  else
    print ("找到应用文件: " ++ as_str app_file) ;;
    ret (as_str app_file).

(** The body of [for alt_port in [7071, 7072, 7073]]; the local it assigns
    is [port]. *)
Definition try_alt_port (alt_port : Z) (port : Z) : M (ctl * Z) :=
  available <- call (check_port_availability "localhost" alt_port) ;;
  if truthy available then
    let port := alt_port in
    print ("使用备用端口: " ++ str_of_int port) ;;
    ret (Break, port)
  else ret (Continue, port).

(** [main], lines 119-132 (检查端口可用性): the value is [port]. *)
Definition main_port : M Z :=
  let port := 7070 in
  available <- call (check_port_availability "localhost" port) ;;
  if negb (truthy available) then
    print ("❌ 端口 " ++ str_of_int port ++ " 已被占用") ;;
    print "请停止使用此端口的进程或选择其他端口" ;;
    for_else [7071; 7072; 7073] try_alt_port
      (fun _ => print "在 7070-7073 范围内未找到可用端口" ;; return_ PNone)
      port
  else ret port.

(** [main], lines 134-186 (启动 Flask 应用). *)
Definition main_launch (current_dir : Path) (app_file : string) (port : Z)
  : M unit :=
  print (nl ++ "🌐 正在端口 " ++ str_of_int port ++ " 上启动 Web 服务器...") ;;
  setenv "FLASK_APP" app_file ;;
  setenv "FLASK_ENV" "development" ;;
  try_except
    (chdir current_dir ;;
     spec_from_file_location "app" app_file ;;
     module_from_spec ;;
     exec_module app_file ;;
     app <- getattr_app ;;
     match app with
     | None =>
         print "❌ 在应用文件中找不到 'app' 对象" ;;
         return_ PNone
     | Some app =>
         print "✅ Web 服务器启动成功!" ;;
         print ("🌐 访问地址: http://localhost:" ++ str_of_int port) ;;
         print "💡 提示: 按 Ctrl+C 停止服务器" ;;
         thread_start_open_browser ("http://localhost:" ++ str_of_int port) ;;
         run_app app true "0.0.0.0" port false
     end)
    [(KeyboardInterrupt,
      fun _ => print (nl ++ "🛑 服务器已被用户停止"));
     (Exception,
      fun e => print ("❌ 启动失败: " ++ exn_str e) ;;
               print "故障排除提示:" ;;
               print "1. 检查端口是否被其他进程占用" ;;
               print "2. 验证所有依赖是否已安装" ;;
               print "3. 确保应用文件存在且有效" ;;
               print "4. 检查控制台输出以获取更详细的错误信息")].

(** [def main()] *)
Definition main : M unit :=
  print "🚀 正在启动 Kronos Web UI..." ;;
  print (str_repeat "=" 50) ;;
  let current_dir := parent (w_file w) in
  print ("工作目录: " ++ path_str current_dir) ;;
  main_dependencies ;;
  model_available <- main_model current_dir ;;
  app_file <- main_app_file ;;
  port <- main_port ;;
  main_launch current_dir app_file port.

(** The script as run: the module-level assignment of line 4, then
    [if __name__ == "__main__": main()]. *)
Definition run_py : M pyval :=
  setenv "HF_ENDPOINT" "https://hf-mirror.com" ;;
  call main.

End WithWorld.

(** ** Observing a run *)

(** How a computation started in [s] ends, and the interactions it added to
    the log. *)
Definition outcome {A} (m : M A) (s : pstate) : res A := fst (m s).

Definition trace {A} (m : M A) (s : pstate) : list event :=
  skipn (length (log s)) (log (snd (m s))).

(** What one availability probe observes, read off the socket oracles: the
    port counts as available only when the socket could be created, the
    connection attempt returned a nonzero error code and the socket could be
    closed. *)
Definition observed_available (w : World) (host : string) (port : Z) : bool :=
  match w_socket w with
  | Some _ => false
  | None =>
      match w_connect_ex w host port with
      | inl _ => false
      | inr rc =>
          match w_sock_close w with
          | Some _ => false
          | None => negb (rc =? 0)
          end
      end
  end.

(** The interactions of one availability probe. *)
Definition probe_events (w : World) (host : string) (port : Z) : list event :=
  match w_socket w with
  | Some _ => [EvSocket]
  | None =>
      match w_connect_ex w host port with
      | inl _ => [EvSocket; EvConnectEx host port]
      | inr _ => [EvSocket; EvConnectEx host port; EvSockClose]
      end
  end.


(** Error codes of a refused and of a timed-out connection attempt. *)
Definition ECONNREFUSED : Z := 111.
Definition ETIMEDOUT : Z := 110.

(** A name is unresolved when importing it raises. *)
Definition unresolved (w : World) (names : list string) : list string :=
  filter (fun n => match w_import w n with Some _ => true | None => false end)
         names.

(** Every import of [names] either succeeds or raises an [ImportError]
    (which [ModuleNotFoundError], the error of an absent package, is). *)
Definition imports_present_or_missing (w : World) (names : list string) : bool :=
  forallb (fun n => match w_import w n with
                    | Some e => isinstance e ImportError
                    | None => true
                    end) names.

(** The candidates looked at by a first-match search: everything up to and
    including the first hit. *)
Fixpoint consulted {X} (f : X -> bool) (l : list X) : list X :=
  match l with
  | [] => []
  | x :: rest => if f x then [x] else x :: consulted f rest
  end.

Definition is_launch_event (ev : event) : bool :=
  match ev with
  | EvSetEnv _ _ | EvChdir _ | EvSpecFromFile _ _ | EvModuleFromSpec
  | EvExecModule _ _ | EvGetattrApp | EvThreadStart _ | EvAppRun _ _ _ _ => true
  | _ => false
  end.

Definition is_socket_event (ev : event) : bool :=
  match ev with
  | EvSocket | EvConnectEx _ _ | EvSockClose => true
  | _ => false
  end.

Definition is_check_call (ev : event) : bool :=
  match ev with
  | EvCheckCall _ => true
  | _ => false
  end.

Definition is_app_run (ev : event) : bool :=
  match ev with
  | EvAppRun _ _ _ _ => true
  | _ => false
  end.

(** ** Sample surroundings *)

Definition run_py_file : Path := mkPath "/" ["srv"; "kronos"; "webui"; "run.py"].

(** A Flask application that serves until the operator presses Ctrl+C. *)
Definition flask_app : App :=
  mkApp (fun _ _ _ _ => Some (mkExn KeyboardInterrupt "")).

(** Everything installed, [app.py] and [requirements.txt] in place, no port
    in use. *)
Definition healthy_world : World :=
  {| w_file := run_py_file;
     w_executable := "/usr/bin/python3";
     w_import := fun _ => None;
     w_input := inr "n";
     w_exists := fun p =>
       String.eqb (path_str p) "/srv/kronos/webui/app.py" ||
       String.eqb (path_str p) "/srv/kronos/webui/requirements.txt";
     w_check_call := fun _ => None;
     w_import_model := None;
     w_socket := None;
     w_connect_ex := fun _ _ => inr ECONNREFUSED;
     w_sock_close := None;
     w_chdir := fun _ => None;
     w_exec_module := fun _ _ => None;
     w_module_app := Some flask_app |}.

Definition with_import (f : string -> option exn) (w : World) : World :=
  mkWorld (w_file w) (w_executable w) f (w_input w) (w_exists w)
    (w_check_call w) (w_import_model w) (w_socket w) (w_connect_ex w)
    (w_sock_close w) (w_chdir w) (w_exec_module w) (w_module_app w).

Definition with_exists (f : Path -> bool) (w : World) : World :=
  mkWorld (w_file w) (w_executable w) (w_import w) (w_input w) f
    (w_check_call w) (w_import_model w) (w_socket w) (w_connect_ex w)
    (w_sock_close w) (w_chdir w) (w_exec_module w) (w_module_app w).

Definition with_import_model (r : option exn) (w : World) : World :=
  mkWorld (w_file w) (w_executable w) (w_import w) (w_input w) (w_exists w)
    (w_check_call w) r (w_socket w) (w_connect_ex w)
    (w_sock_close w) (w_chdir w) (w_exec_module w) (w_module_app w).

Definition with_connect_ex (f : string -> Z -> sock_error + Z) (w : World)
  : World :=
  mkWorld (w_file w) (w_executable w) (w_import w) (w_input w) (w_exists w)
    (w_check_call w) (w_import_model w) (w_socket w) f
    (w_sock_close w) (w_chdir w) (w_exec_module w) (w_module_app w).

Definition with_module_app (a : option App) (w : World) : World :=
  mkWorld (w_file w) (w_executable w) (w_import w) (w_input w) (w_exists w)
    (w_check_call w) (w_import_model w) (w_socket w) (w_connect_ex w)
    (w_sock_close w) (w_chdir w) (w_exec_module w) a.

(** The package [name] is not installed. *)
Definition missing (names : list string) (n : string) : option exn :=
  if existsb (String.eqb n) names
  then Some (mkExn ModuleNotFoundError ("No module named '" ++ n ++ "'"))
  else None.

(** Something listens on each of [ports]. *)
Definition listening (ports : list Z) (host : string) (port : Z)
  : sock_error + Z :=
  if existsb (Z.eqb port) ports then inr 0 else inr ECONNREFUSED.

(** The process as the interpreter starts [main]: line 4 has set
    [HF_ENDPOINT]. *)
Definition state0 : pstate :=
  mkState (mkPath "/" ["home"; "operator"])
          [("HF_ENDPOINT", "https://hf-mirror.com")]
          ["/srv/kronos/webui"] [].


(** No [requirements.txt] next to the launcher. *)
Definition world_without_manifest : World :=
  with_exists (fun p => String.eqb (path_str p) "/srv/kronos/webui/app.py")
              healthy_world.

(** ** Specifications of runs *)

(** From any state, [m] appends some interactions [evs] to the log and ends
    in [r], with [P r evs]. *)
Definition runs {A} (m : M A) (P : res A -> list event -> Prop) : Prop :=
  forall s, exists evs,
    log (snd (m s)) = (log s ++ evs)%list /\ P (fst (m s)) evs.

(** [m] only performs interactions accepted by [Q], however it ends. *)
Definition emits {A} (Q : event -> bool) (m : M A) : Prop :=
  runs m (fun _ evs => forallb Q evs = true).

(** The outcome of a call, from the outcome of the body. *)
Definition returned (r : res unit) : res pyval :=
  match r with
  | Norm _ => Norm PNone
  | Retn v => Norm v
  | Exn e => Exn e
  end.

(** The console line reporting that the loaded module has no [app]. *)
Definition app_missing_line : string :=
  "❌ 在应用文件中找不到 'app' 对象" ++ nl.

(** Interactions of the dependency phase (checking and installing): console
    lines other than the one above, input, imports, file checks, pip. *)
Definition is_dependency_event (ev : event) : bool :=
  match ev with
  | EvPrint t => negb (String.eqb t app_missing_line)
  | EvInput | EvImport _ | EvExists _ | EvCheckCall _ => true
  | _ => false
  end.

(** Interactions of everything before port negotiation. *)
Definition is_preparation_event (ev : event) : bool :=
  match ev with
  | EvPrint t => negb (String.eqb t app_missing_line)
  | EvInput | EvImport _ | EvExists _ | EvCheckCall _
  | EvSysPathInsert _ | EvImportModel => true
  | _ => false
  end.

(** Interactions of port negotiation. *)
Definition is_negotiation_event (ev : event) : bool :=
  match ev with
  | EvPrint t => negb (String.eqb t app_missing_line)
  | _ => is_socket_event ev
  end.

Definition is_app_missing_line (ev : event) : bool :=
  match ev with
  | EvPrint t => String.eqb t app_missing_line
  | _ => false
  end.

(** ** Parts of [main] *)

(** The statements of [main] before the capability probe (lines 82-97). *)
Definition main_until_dependencies (w : World) : M unit :=
  print "🚀 正在启动 Kronos Web UI..." ;;
  print (str_repeat "=" 50) ;;
  print ("工作目录: " ++ path_str (parent (w_file w))) ;;
  main_dependencies w.

(** The statements of [main] before port negotiation (lines 82-117); the
    value is [app_file]. *)
Definition main_preparation (w : World) : M string :=
  main_until_dependencies w ;;
  model_available <- main_model w (parent (w_file w)) ;;
  main_app_file w.

(** What port negotiation prints after the last probe. *)
Definition negotiation_verdict (selected : option Z) : event :=
  match selected with
  | Some p => EvPrint ("使用备用端口: " ++ str_of_int p ++ nl)
  | None => EvPrint ("在 7070-7073 范围内未找到可用端口" ++ nl)
  end.

(** Every port from 7070 to 7073 is in use. *)
Definition world_all_ports_busy : World :=
  with_connect_ex (listening [7070; 7071; 7072; 7073]) healthy_world.

(** Ports 7070 and 7071 are in use, 7072 is free. *)
Definition world_two_ports_busy : World :=
  with_connect_ex (listening [7070; 7071]) healthy_world.

(** ** The launch, read off the oracles *)

(** What the [try] suite of the launch does before any handler runs: how it
    ends and which interactions it performs. *)
Definition launch_attempt (w : World) (current_dir : Path) (app_file : string)
  (port : Z) : res unit * list event :=
  match w_chdir w current_dir with
  | Some e => (Exn e, [EvChdir current_dir])
  | None =>
      let loaded := [EvChdir current_dir; EvSpecFromFile "app" app_file;
                     EvModuleFromSpec; EvExecModule app_file current_dir] in
      match w_exec_module w app_file current_dir with
      | Some e => (Exn e, loaded)
      | None =>
          match w_module_app w with
          | None =>
              (Retn PNone,
               loaded ++ [EvGetattrApp; EvPrint app_missing_line])%list
          | Some app =>
              (match app_run app true "0.0.0.0" port false with
               | Some e => Exn e
               | None => Norm tt
               end,
               loaded ++
               [EvGetattrApp;
                EvPrint ("✅ Web 服务器启动成功!" ++ nl);
                EvPrint ("🌐 访问地址: http://localhost:" ++ str_of_int port ++ nl);
                EvPrint ("💡 提示: 按 Ctrl+C 停止服务器" ++ nl);
                EvThreadStart ("http://localhost:" ++ str_of_int port);
                EvAppRun true "0.0.0.0" port false])%list
          end
      end
  end.

(** What the [except] clauses of the launch make of the outcome of the
    [try] suite. *)
Definition launch_handled (r : res unit) : res unit * list event :=
  match r with
  | Exn e =>
      if isinstance e KeyboardInterrupt then
        (Norm tt, [EvPrint (nl ++ "🛑 服务器已被用户停止" ++ nl)])
      else if isinstance e Exception then
        (Norm tt,
         [EvPrint ("❌ 启动失败: " ++ exn_str e ++ nl);
          EvPrint ("故障排除提示:" ++ nl);
          EvPrint ("1. 检查端口是否被其他进程占用" ++ nl);
          EvPrint ("2. 验证所有依赖是否已安装" ++ nl);
          EvPrint ("3. 确保应用文件存在且有效" ++ nl);
          EvPrint ("4. 检查控制台输出以获取更详细的错误信息" ++ nl)])
      else (Exn e, [])
  | _ => (r, [])
  end.

(** The interactions of the whole launch. *)
Definition launch_events (w : World) (current_dir : Path) (app_file : string)
  (port : Z) : list event :=
  ([EvPrint (nl ++ "🌐 正在端口 " ++ str_of_int port ++ " 上启动 Web 服务器..." ++ nl);
    EvSetEnv "FLASK_APP" app_file;
    EvSetEnv "FLASK_ENV" "development"] ++
   snd (launch_attempt w current_dir app_file port) ++
   snd (launch_handled (fst (launch_attempt w current_dir app_file port))))%list.

(** The process state after the launch. *)
Definition launched_state (w : World) (current_dir : Path) (app_file : string)
  (port : Z) (s : pstate) : pstate :=
  mkState (match w_chdir w current_dir with
           | Some _ => cwd s
           | None => current_dir
           end)
          (("FLASK_ENV", "development") :: ("FLASK_APP", app_file) :: environ s)
          (sys_path s)
          (log s ++ launch_events w current_dir app_file port).

(** ** Port negotiation, read off the oracles *)

(** The port negotiation settles on: the preferred one when it is observed
    available, else the first available fallback, else none. *)
Definition selected_port (w : World) : option Z :=
  if observed_available w "localhost" 7070 then Some 7070
  else find (observed_available w "localhost") [7071; 7072; 7073].

(** The interactions of port negotiation. *)
Definition negotiation_events (w : World) : list event :=
  if observed_available w "localhost" 7070
  then probe_events w "localhost" 7070
  else
    (probe_events w "localhost" 7070 ++
     [EvPrint ("❌ 端口 7070 已被占用" ++ nl);
      EvPrint ("请停止使用此端口的进程或选择其他端口" ++ nl)] ++
     flat_map (probe_events w "localhost")
       (consulted (observed_available w "localhost") [7071; 7072; 7073]) ++
     [negotiation_verdict
        (find (observed_available w "localhost") [7071; 7072; 7073])])%list.

(** ** The three ways a run of [main] can go *)

Inductive main_shape (w : World) (s : pstate) : Prop :=
| main_stops_preparing (evs0 : list event) :
    forallb is_preparation_event evs0 = true ->
    trace (main w) s = evs0 ->
    (forall a, outcome (main w) s <> Norm a) ->
    main_shape w s
| main_stops_negotiating (evs0 : list event) :
    forallb is_preparation_event evs0 = true ->
    selected_port w = None ->
    trace (main w) s = (evs0 ++ negotiation_events w)%list ->
    outcome (main w) s = Retn PNone ->
    main_shape w s
| main_launches (evs0 : list event) (app_file : string) (port : Z) :
    forallb is_preparation_event evs0 = true ->
    selected_port w = Some port ->
    trace (main w) s =
      (evs0 ++ negotiation_events w ++
       launch_events w (parent (w_file w)) app_file port)%list ->
    outcome (main w) s =
      fst (launch_handled
             (fst (launch_attempt w (parent (w_file w)) app_file port))) ->
    (w_chdir w (parent (w_file w)) = None ->
     cwd (snd (main w s)) = parent (w_file w)) ->
    main_shape w s.

(** The loaded application module has no [app] object. *)
Definition world_without_app_object : World :=
  with_module_app None healthy_world.

Definition is_chdir (ev : event) : bool :=
  match ev with
  | EvChdir _ => true
  | _ => false
  end.

(** flask and pandas are not installed, there is no [requirements.txt], and
    the operator answers "n". *)
Definition world_declined_install : World :=
  with_import (missing ["flask"; "pandas"]) world_without_manifest.

Definition is_print (ev : event) : bool :=
  match ev with
  | EvPrint _ => true
  | _ => false
  end.

(** The model package is there, but loading it fails in a shared library
    of one of its dependencies: the import raises [OSError]. *)
Definition world_model_load_fails : World :=
  with_import_model
    (Some (mkExn OSError
             "libcudart.so.12: cannot open shared object file: No such file or directory"))
    healthy_world.

(** The model package is absent: the import raises [ModuleNotFoundError]. *)
Definition world_without_model : World :=
  with_import_model
    (Some (mkExn ModuleNotFoundError "No module named 'model'"))
    healthy_world.

(** The model package is absent and ports 7070 and 7071 are in use. *)
Definition world_degraded_two_ports_busy : World :=
  with_connect_ex (listening [7070; 7071]) world_without_model.

(** ** The installer, read off the oracles *)

(** The command line the installer hands to [subprocess.check_call]. *)
Definition pip_argv (w : World) : list string :=
  [w_executable w; "-m"; "pip"; "install"; "-r";
   path_str (requirements_path w)].

(** How [install_dependencies] ends and what it does. *)
Definition install_result (w : World) : res unit * list event :=
  let started := [EvPrint ("正在安装依赖..." ++ nl);
                  EvExists (requirements_path w)] in
  if negb (w_exists w (requirements_path w)) then
    (Retn (PBool false),
     started ++ [EvPrint ("❌ 未找到 requirements.txt" ++ nl)])%list
  else
    match w_check_call w (pip_argv w) with
    | None =>
        (Retn (PBool true),
         started ++ [EvCheckCall (pip_argv w);
                     EvPrint ("✅ 依赖安装完成" ++ nl)])%list
    | Some e =>
        if isinstance e CalledProcessError then
          (Retn (PBool false),
           started ++ [EvCheckCall (pip_argv w);
                       EvPrint ("❌ 依赖安装失败: " ++ exn_str e ++ nl)])%list
        else if isinstance e Exception then
          (Retn (PBool false),
           started ++ [EvCheckCall (pip_argv w);
                       EvPrint ("❌ 安装错误: " ++ exn_str e ++ nl)])%list
        else (Exn e, started ++ [EvCheckCall (pip_argv w)])%list
    end.

(** pip exits with a nonzero status. *)
Definition world_pip_fails : World :=
  mkWorld run_py_file "/usr/bin/python3" (missing ["plotly"]) (inr "Y")
    (w_exists healthy_world)
    (fun _ => Some (mkExn CalledProcessError
                      "Command '[...]' returned non-zero exit status 1."))
    None None (fun _ _ => inr ECONNREFUSED) None (fun _ => None)
    (fun _ _ => None) (Some flask_app).

(** plotly is missing, the operator answers "y", pip succeeds. *)
Definition world_install_accepted : World :=
  mkWorld run_py_file "/usr/bin/python3" (missing ["plotly"]) (inr "y")
    (w_exists healthy_world) (fun _ => None)
    None None (fun _ _ => inr ECONNREFUSED) None (fun _ => None)
    (fun _ _ => None) (Some flask_app).

(** pandas is installed but was built against another numpy: importing it
    raises [ValueError]. *)
Definition world_pandas_broken : World :=
  with_import
    (fun n => if String.eqb n "pandas"
              then Some (mkExn ValueError
                           "numpy.dtype size changed, may indicate binary incompatibility")
              else None)
    healthy_world.

(** The name "localhost" cannot be resolved. *)
Definition world_unresolvable_host : World :=
  with_connect_ex
    (fun _ _ => inl (SockGaierror "[Errno -2] Name or service not known"))
    healthy_world.

Definition is_import (ev : event) : bool :=
  match ev with
  | EvImport _ => true
  | _ => false
  end.

(** What [main] makes of the installer's outcome (lines 93-94). *)
Definition after_install (r : res unit) : res unit :=
  match r with
  | Retn (PBool true) => Norm tt
  | Exn e => Exn e
  | _ => Retn PNone
  end.

(** The statements of [main] from the capability probe on (lines 99-186). *)
Definition main_from_model (w : World) : M unit :=
  model_available <- main_model w (parent (w_file w)) ;;
  app_file <- main_app_file w ;;
  port <- main_port w ;;
  main_launch w (parent (w_file w)) app_file port.

(** Interactions that belong to the dependency phase only: imports of the
    required packages, the question to the operator, pip. *)
Definition is_dependency_only (ev : event) : bool :=
  match ev with
  | EvImport _ | EvInput | EvCheckCall _ => true
  | _ => false
  end.

(** ** The dependency phase, read off the oracles *)

(** The verifier's loop over [names] with [acc] collected so far: how it
    ends and which imports it attempts. *)
Fixpoint scan_imports (w : World) (names : list string) (acc : list string)
  : res (list string) * list event :=
  match names with
  | [] => (Norm acc, [])
  | n :: rest =>
      match w_import w n with
      | None =>
          (fst (scan_imports w rest acc),
           EvImport n :: snd (scan_imports w rest acc))
      | Some e =>
          if isinstance e ImportError then
            (fst (scan_imports w rest (acc ++ [n])%list),
             EvImport n :: snd (scan_imports w rest (acc ++ [n])%list))
          else (Exn e, [EvImport n])
      end
  end.

(** How [check_dependencies] ends and what it does. *)
Definition verifier_result (w : World) : res unit * list event :=
  match fst (scan_imports w required_packages []) with
  | Norm [] =>
      (Retn (PBool true),
       snd (scan_imports w required_packages []) ++
       [EvPrint ("✅ 所有依赖已安装" ++ nl)])%list
  | Norm missing_packages =>
      (Retn (PBool false),
       snd (scan_imports w required_packages []) ++
       [EvPrint ("❌ 缺少依赖: " ++ join ", " missing_packages ++ nl);
        EvPrint ("请运行: pip install -r requirements.txt" ++ nl)])%list
  | Retn v => (Retn v, snd (scan_imports w required_packages []))
  | Exn e => (Exn e, snd (scan_imports w required_packages []))
  end.

(** How the dependency phase of [main] (lines 89-97) ends and what it
    does. *)
Definition dependencies_result (w : World) : res unit * list event :=
  match returned (fst (verifier_result w)) with
  | Norm ok =>
      if negb (truthy ok) then
        let asked := (snd (verifier_result w) ++
                      [EvPrint (nl ++ "自动安装依赖? (y/n): "); EvInput])%list in
        match w_input w with
        | inl e => (Exn e, asked)
        | inr answer =>
            if String.eqb (lower answer) "y" then
              (after_install (fst (install_result w)),
               asked ++ snd (install_result w))%list
            else
              (Retn PNone,
               asked ++ [EvPrint ("请手动安装依赖后重试" ++ nl)])%list
        end
      else (Norm tt, snd (verifier_result w))
  | Retn v => (Retn v, snd (verifier_result w))
  | Exn e => (Exn e, snd (verifier_result w))
  end.

(** ** Process state across a run *)

(** The working directory and the environment are the same in [s'] as in
    [s]. *)
Definition same_process (s s' : pstate) : Prop :=
  cwd s' = cwd s /\ environ s' = environ s.

(** [m] changes neither the working directory nor the environment. *)
Definition keeps_process {A} (m : M A) : Prop :=
  forall s, same_process s (snd (m s)).

(** [os.environ.get(key)] *)
Fixpoint getenv (key : string) (env : list (string * string)) : option string :=
  match env with
  | [] => None
  | (k, v) :: rest => if String.eqb k key then Some v else getenv key rest
  end.

(** No candidate entry-point file exists. *)
Definition world_without_entry_point : World :=
  with_exists (fun _ => false) healthy_world.

(** Only [main.py] exists next to the launcher. *)
Definition world_main_py_only : World :=
  with_exists (fun p => String.eqb (path_str p) "/srv/kronos/webui/main.py")
              healthy_world.

(** Loading or running the application, as opposed to preparing for it. *)
Definition is_load_or_run (ev : event) : bool :=
  match ev with
  | EvSpecFromFile _ _ | EvModuleFromSpec | EvExecModule _ _ | EvGetattrApp
  | EvThreadStart _ | EvAppRun _ _ _ _ => true
  | _ => false
  end.

(** The launcher's directory cannot be entered. *)
Definition world_chdir_denied : World :=
  mkWorld run_py_file "/usr/bin/python3" (fun _ => None) (inr "n")
    (w_exists healthy_world) (fun _ => None) None None
    (fun _ _ => inr ECONNREFUSED) None
    (fun _ => Some (mkExn PermissionError
                      "[Errno 13] Permission denied: '/srv/kronos/webui'"))
    (fun _ _ => None) (Some flask_app).

(** The server cannot bind its port (taken between the probe and the
    bind). *)
Definition world_bind_fails : World :=
  with_module_app
    (Some (mkApp (fun _ _ _ _ =>
                    Some (mkExn OSError "[Errno 98] Address already in use"))))
    healthy_world.



(** Interactions of the launch: its own steps and console lines. *)
Definition is_launch_phase_event (ev : event) : bool :=
  is_launch_event ev || is_print ev.

(** numpy is missing and the script runs without a terminal: [input()]
    raises [EOFError]. *)
Definition world_no_terminal : World :=
  mkWorld run_py_file "/usr/bin/python3" (missing ["numpy"])
    (inl (mkExn EOFError "EOF when reading a line"))
    (w_exists healthy_world) (fun _ => None) None None
    (fun _ _ => inr ECONNREFUSED) None (fun _ => None)
    (fun _ _ => None) (Some flask_app).

(** The process has run out of file descriptors: no socket can be
    created. *)
Definition world_no_sockets : World :=
  mkWorld run_py_file "/usr/bin/python3" (fun _ => None) (inr "n")
    (w_exists healthy_world) (fun _ => None) None
    (Some (SockOSError "[Errno 24] Too many open files"))
    (fun _ _ => inr ECONNREFUSED) None (fun _ => None)
    (fun _ _ => None) (Some flask_app).

(** * Properties *)

Open Scope list_scope.

(** ** Logs and traces *)

Lemma add_log_nil (s : pstate) : add_log s [] = s.
Proof. destruct s; unfold add_log; cbn. now rewrite app_nil_r. Qed.

Lemma add_log_app (s : pstate) (a b : list event) :
  add_log (add_log s a) b = add_log s (a ++ b).
Proof. unfold add_log; cbn. now rewrite app_assoc. Qed.

Lemma skipn_length_app {X} (l r : list X) : skipn (length l) (l ++ r) = r.
Proof. induction l as [|x l IH]; [reflexivity | exact IH]. Qed.

Lemma trace_of_log {A} (m : M A) (s : pstate) (evs : list event) :
  log (snd (m s)) = log s ++ evs -> trace m s = evs.
Proof. intros H. unfold trace. rewrite H. apply skipn_length_app. Qed.

Lemma trace_of_run {A} (m : M A) (s : pstate) (r : res A) (evs : list event) :
  m s = (r, add_log s evs) -> trace m s = evs /\ outcome m s = r.
Proof.
  intros H. split.
  - apply trace_of_log. now rewrite H.
  - unfold outcome. now rewrite H.
Qed.

Lemma call_run (body : M unit) (s s' : pstate) (v : pyval) :
  body s = (Retn v, s') -> call body s = (Norm v, s').
Proof. intros H. unfold call. now rewrite H. Qed.

Lemma trace_call (body : M unit) (s : pstate) :
  trace (call body) s = trace body s.
Proof.
  unfold trace, call. destruct (body s) as [[a|v|e] s']; reflexivity.
Qed.

(** ** The availability probe *)

Lemma sock_error_is_Exception (e : sock_error) :
  isinstance (exn_of_sock_error e) Exception = true.
Proof. destruct e; reflexivity. Qed.

(** One probe, whatever the socket layer does: it ends in a [return] of the
    observation; no exception leaves it. *)
Lemma check_port_availability_run (w : World) (host : string) (port : Z)
  (s : pstate) :
  check_port_availability w host port s =
    (Retn (PBool (observed_available w host port)),
     add_log s (probe_events w host port)).
Proof.
  unfold check_port_availability, try_except, bind, socket_socket, connect_ex,
    sock_close, emit, lift, sock_result, raise, ret, return_,
    observed_available, probe_events; cbn.
  destruct (w_socket w) as [e1|]; cbn.
  { now destruct e1. }
  destruct (w_connect_ex w host port) as [e2|rc]; cbn.
  { destruct e2; cbn; now rewrite add_log_app. }
  destruct (w_sock_close w) as [e3|]; cbn.
  { destruct e3; cbn; now rewrite !add_log_app. }
  now rewrite !add_log_app.
Qed.

Lemma check_port_availability_call (w : World) (host : string) (port : Z)
  (s : pstate) :
  call (check_port_availability w host port) s =
    (Norm (PBool (observed_available w host port)),
     add_log s (probe_events w host port)).
Proof. apply call_run, check_port_availability_run. Qed.

(** C7: the probe decides by one TCP connection attempt to (host, port).
    When the socket is created and closed normally and [connect_ex] answers
    with code [rc], the probe performs exactly socket / connect_ex(host,
    port) / close and returns [rc != 0]: a successful connection (code 0)
    gives False (occupied), a refused or timed-out one gives True
    (available). *)
Theorem check_port_availability_decides_by_connection (w : World)
  (host : string) (port : Z) (s : pstate) (rc : Z) :
  w_socket w = None ->
  w_connect_ex w host port = inr rc ->
  w_sock_close w = None ->
  trace (check_port_availability w host port) s =
    [EvSocket; EvConnectEx host port; EvSockClose] /\
  outcome (call (check_port_availability w host port)) s =
    Norm (PBool (negb (rc =? 0))) /\
  (rc = 0 ->
   outcome (call (check_port_availability w host port)) s = Norm (PBool false)) /\
  (rc = ECONNREFUSED \/ rc = ETIMEDOUT ->
   outcome (call (check_port_availability w host port)) s = Norm (PBool true)).
Proof.
  intros Hsock Hconn Hclose.
  assert (Hobs : observed_available w host port = negb (rc =? 0)).
  { unfold observed_available. now rewrite Hsock, Hconn, Hclose. }
  assert (Hev : probe_events w host port =
                [EvSocket; EvConnectEx host port; EvSockClose]).
  { unfold probe_events. now rewrite Hsock, Hconn. }
  pose proof (check_port_availability_run w host port s) as Hrun.
  pose proof (check_port_availability_call w host port s) as Hcall.
  rewrite Hobs, Hev in Hrun, Hcall.
  apply trace_of_run in Hrun. apply trace_of_run in Hcall.
  destruct Hrun as [Htr _]. destruct Hcall as [_ Hout].
  repeat split; try assumption.
  - intros ->. exact Hout.
  - intros [-> | ->]; exact Hout.
Qed.

Lemma check_port_availability_decides_by_connection_witness :
  trace (check_port_availability healthy_world "localhost" 7070) state0 =
    [EvSocket; EvConnectEx "localhost" 7070; EvSockClose] /\
  outcome (call (check_port_availability healthy_world "localhost" 7070)) state0 =
    Norm (PBool true).
Proof.
  destruct (check_port_availability_decides_by_connection
              healthy_world "localhost" 7070 state0 ECONNREFUSED
              eq_refl eq_refl eq_refl) as [Htr [Hout _]].
  split; [exact Htr | exact Hout].
Defined.


(** ** The dependency verifier *)

Lemma imports_present_or_missing_cons (w : World) (n : string)
  (names : list string) :
  imports_present_or_missing w (n :: names) = true ->
  match w_import w n with
  | Some e => isinstance e ImportError = true
  | None => True
  end /\ imports_present_or_missing w names = true.
Proof.
  unfold imports_present_or_missing; cbn.
  intros H. apply andb_true_iff in H. destruct H as [H1 H2]. split; [|exact H2].
  destruct (w_import w n); [exact H1 | exact I].
Qed.

(** The [for] statement of the verifier on any list of names: the names
    whose import raises are appended to the accumulator in input order, and
    the loop completes. *)
Lemma check_loop_run (w : World) (names : list string) :
  imports_present_or_missing w names = true ->
  forall (acc : list string) (s : pstate),
    for_each names (check_one w) acc s =
      (Norm (acc ++ unresolved w names), add_log s (map EvImport names)).
Proof.
  induction names as [|n names IH]; intros Hok acc s.
  - cbn. unfold ret. now rewrite app_nil_r, add_log_nil.
  - apply imports_present_or_missing_cons in Hok. destruct Hok as [Hn Hrest].
    cbn [for_each map unresolved filter]. unfold bind at 1.
    unfold check_one, try_except, bind, py_import, emit, lift, unit_result,
      raise, ret.
    destruct (w_import w n) as [e|]; cbn -[isinstance].
    + rewrite Hn. rewrite (IH Hrest). rewrite add_log_app.
      now rewrite <- app_assoc.
    + rewrite (IH Hrest). now rewrite add_log_app.
Qed.


(** The interactions of the verifier when every import succeeds or raises
    [ImportError]. *)
Lemma check_dependencies_run (w : World) (s : pstate) :
  imports_present_or_missing w required_packages = true ->
  check_dependencies w s =
    (Retn (PBool (match unresolved w required_packages with
                  | [] => true
                  | _ => false
                  end)),
     add_log s
       (map EvImport required_packages ++
        match unresolved w required_packages with
        | [] => [EvPrint ("✅ 所有依赖已安装" ++ nl)%string]
        | missing_packages =>
            [EvPrint ("❌ 缺少依赖: " ++ join ", " missing_packages ++ nl)%string;
             EvPrint ("请运行: pip install -r requirements.txt" ++ nl)%string]
        end)).
Proof.
  intros Hok. unfold check_dependencies. unfold bind at 1.
  rewrite (check_loop_run w required_packages Hok [] s).
  cbn [app]. destruct (unresolved w required_packages) as [|m ms].
  - cbn. unfold print, print_end, emit, bind, return_.
    now rewrite !add_log_app.
  - cbn [truthy]. unfold print, print_end, emit, bind, return_.
    rewrite !add_log_app. reflexivity.
Qed.



(** ** The dependency installer *)

(** C4: when [requirements.txt] next to the launcher does not exist, the
    installer returns False at once after printing that the file was not
    found; [subprocess.check_call] is never invoked. *)
Theorem install_dependencies_manifest_absent (w : World) (s : pstate) :
  w_exists w (path_div (parent (w_file w)) "requirements.txt") = false ->
  outcome (call (install_dependencies w)) s = Norm (PBool false) /\
  trace (install_dependencies w) s =
    [EvPrint ("正在安装依赖..." ++ nl)%string;
     EvExists (path_div (parent (w_file w)) "requirements.txt");
     EvPrint ("❌ 未找到 requirements.txt" ++ nl)%string] /\
  (forall ev, In ev (trace (install_dependencies w) s) ->
              is_check_call ev = false).
Proof.
  intros Habsent.
  assert (Hrun : install_dependencies w s =
    (Retn (PBool false),
     add_log s [EvPrint ("正在安装依赖..." ++ nl)%string;
                EvExists (path_div (parent (w_file w)) "requirements.txt");
                EvPrint ("❌ 未找到 requirements.txt" ++ nl)%string])).
  { unfold install_dependencies, try_except, bind, path_exists, print,
      print_end, emit, ret, return_, requirements_path.
    rewrite Habsent. cbn. now rewrite !add_log_app. }
  destruct (trace_of_run _ _ _ _ Hrun) as [Htr _].
  destruct (trace_of_run _ _ _ _ (call_run _ _ _ _ Hrun)) as [_ Hout].
  split; [exact Hout|]. split; [exact Htr|].
  rewrite Htr. intros ev [<- | [<- | [<- | []]]]; reflexivity.
Qed.

Lemma install_dependencies_manifest_absent_witness :
  w_exists world_without_manifest
    (path_div (parent (w_file world_without_manifest)) "requirements.txt")
    = false /\
  outcome (call (install_dependencies world_without_manifest)) state0 =
    Norm (PBool false).
Proof.
  split; [reflexivity|].
  exact (proj1 (install_dependencies_manifest_absent
                  world_without_manifest state0 eq_refl)).
Defined.

(** ** The entry-point locator *)

Lemma find_app_file_run (w : World) (s : pstate) :
  find_app_file w s =
    (Retn (match find (w_exists w) (possible_paths w) with
           | Some p => PStr (path_str p)
           | None => PNone
           end),
     add_log s (map EvExists (consulted (w_exists w) (possible_paths w)))).
Proof.
  unfold find_app_file, possible_paths, path_exists, bind, emit, ret, return_.
  cbn.
  destruct (w_exists w (path_div (parent (w_file w)) "app.py")); cbn;
    [reflexivity|].
  destruct (w_exists w (path_div (parent (w_file w)) "application.py")); cbn;
    [now rewrite !add_log_app|].
  destruct (w_exists w (path_div (parent (w_file w)) "main.py")); cbn;
    now rewrite !add_log_app.
Qed.



(** ** Rules for specifications of runs *)

Section Rules.

Context {A B : Type}.

Lemma runs_trace (m : M A) (P : res A -> list event -> Prop) :
  runs m P -> forall s, P (outcome m s) (trace m s).
Proof.
  intros H s. destruct (H s) as [evs [Hlog HP]].
  now rewrite (trace_of_log m s evs Hlog).
Qed.

Lemma runs_weaken (m : M A) (P Q : res A -> list event -> Prop) :
  runs m P -> (forall r evs, P r evs -> Q r evs) -> runs m Q.
Proof.
  intros H HPQ s. destruct (H s) as [evs [Hlog HP]].
  exists evs. split; [exact Hlog | now apply HPQ].
Qed.

Lemma runs_ret (a : A) (P : res A -> list event -> Prop) :
  P (Norm a) [] -> runs (ret a) P.
Proof. intros H s. exists []. cbn. now rewrite app_nil_r. Qed.

Lemma runs_return (v : pyval) (P : res A -> list event -> Prop) :
  P (Retn v) [] -> runs (return_ v) P.
Proof. intros H s. exists []. cbn. now rewrite app_nil_r. Qed.

Lemma runs_raise (e : exn) (P : res A -> list event -> Prop) :
  P (Exn e) [] -> runs (raise e) P.
Proof. intros H s. exists []. cbn. now rewrite app_nil_r. Qed.

Lemma runs_bind (m : M A) (k : A -> M B)
  (P : res A -> list event -> Prop) (R : res B -> list event -> Prop) :
  runs m P ->
  (forall a evs, P (Norm a) evs -> runs (k a) (fun r evs' => R r (evs ++ evs'))) ->
  (forall v evs, P (Retn v) evs -> R (Retn v) evs) ->
  (forall e evs, P (Exn e) evs -> R (Exn e) evs) ->
  runs (bind m k) R.
Proof.
  intros Hm Hk Hv He s. destruct (Hm s) as [evs [Hlog HP]].
  unfold bind. destruct (m s) as [[a|v|e] s1]; cbn in *.
  - destruct (Hk a evs HP s1) as [evs' [Hlog' HR]].
    exists (evs ++ evs'). split; [|exact HR].
    now rewrite Hlog', Hlog, app_assoc.
  - exists evs. split; [exact Hlog | now apply Hv].
  - exists evs. split; [exact Hlog | now apply He].
Qed.

End Rules.

Lemma runs_emit (ev : event) (P : res unit -> list event -> Prop) :
  P (Norm tt) [ev] -> runs (emit ev) P.
Proof. intros H s. exists [ev]. split; [reflexivity | exact H]. Qed.

Lemma runs_call (body : M unit) (P : res pyval -> list event -> Prop) :
  runs body (fun r evs => P (returned r) evs) -> runs (call body) P.
Proof.
  intros H s. destruct (H s) as [evs [Hlog HP]]. exists evs.
  unfold call. destruct (body s) as [[a|v|e] s1]; cbn in *; now split.
Qed.

(** *** Rules for [emits] *)

Section EmitsRules.

Context {A B : Type} (Q : event -> bool).

Lemma emits_ret (a : A) : emits Q (ret a).
Proof. now apply runs_ret. Qed.

Lemma emits_return (v : pyval) : emits Q (@return_ A v).
Proof. now apply runs_return. Qed.

Lemma emits_raise (e : exn) : emits Q (@raise A e).
Proof. now apply runs_raise. Qed.

Lemma emits_lift (r : exn + A) : emits Q (lift r).
Proof. destruct r; [apply emits_raise | apply emits_ret]. Qed.

Lemma emits_bind (m : M A) (k : A -> M B) :
  emits Q m -> (forall a, emits Q (k a)) -> emits Q (bind m k).
Proof.
  intros Hm Hk. apply (runs_bind m k _ _ Hm); cbn; try (intros; assumption).
  intros a evs Hevs. apply (runs_weaken _ _ _ (Hk a)).
  intros r evs' Hevs'. rewrite forallb_app, Hevs, Hevs'. reflexivity.
Qed.

Lemma emits_try (m : M A) (hs : list (exn_class * (exn -> M A))) :
  emits Q m ->
  Forall (fun ch => forall e, emits Q (snd ch e)) hs ->
  emits Q (try_except m hs).
Proof.
  intros Hm Hhs s. destruct (Hm s) as [evs [Hlog Hevs]].
  unfold try_except. destruct (m s) as [[a|v|e] s1]; cbn in *;
    try (exists evs; now split).
  assert (Hsel : match select_handler hs e with
                 | Some h => emits Q h
                 | None => True
                 end).
  { clear -Hhs. induction Hhs as [|[c h] hs Hh _ IH]; cbn [select_handler];
      [exact I|].
    destruct (isinstance e c); [apply Hh | exact IH]. }
  destruct (select_handler hs e) as [h|].
  - destruct (Hsel s1) as [evs' [Hlog' Hevs']].
    exists (evs ++ evs'). split.
    + now rewrite Hlog', Hlog, app_assoc.
    + now rewrite forallb_app, Hevs, Hevs'.
  - exists evs. now split.
Qed.

End EmitsRules.

Lemma emits_emit (Q : event -> bool) (ev : event) :
  Q ev = true -> emits Q (emit ev).
Proof. intros H. apply runs_emit. cbn. now rewrite H. Qed.

Lemma emits_call (Q : event -> bool) (body : M unit) :
  emits Q body -> emits Q (call body).
Proof. intros H. apply runs_call. exact H. Qed.

Lemma emits_for_each {X L} (Q : event -> bool) (body : X -> L -> M L) :
  (forall x l, emits Q (body x l)) ->
  forall xs l, emits Q (for_each xs body l).
Proof.
  intros Hbody xs. induction xs as [|x xs IH]; intros l; cbn.
  - apply emits_ret.
  - apply emits_bind; [apply Hbody | exact IH].
Qed.

Lemma emits_for_else {X L} (Q : event -> bool) (body : X -> L -> M (ctl * L))
  (orelse : L -> M L) :
  (forall x l, emits Q (body x l)) ->
  (forall l, emits Q (orelse l)) ->
  forall xs l, emits Q (for_else xs body orelse l).
Proof.
  intros Hbody Helse xs. induction xs as [|x xs IH]; intros l; cbn.
  - apply Helse.
  - apply emits_bind; [apply Hbody|].
    intros [[|] l']; [apply IH | apply emits_ret].
Qed.

Lemma emits_weaken {A} (Q Q' : event -> bool) (m : M A) :
  (forall ev, Q ev = true -> Q' ev = true) -> emits Q m -> emits Q' m.
Proof.
  intros HQ Hm. apply (runs_weaken _ _ _ Hm). intros _ evs Hevs.
  rewrite forallb_forall in *. intros ev Hin. now apply HQ, Hevs.
Qed.

Lemma emits_sys_path_insert (Q : event -> bool) (dir : string) :
  Q (EvSysPathInsert dir) = true -> emits Q (sys_path_insert dir).
Proof. intros H s. exists [EvSysPathInsert dir]. cbn. now rewrite H. Qed.

Lemma emits_setenv (Q : event -> bool) (key value : string) :
  Q (EvSetEnv key value) = true -> emits Q (setenv key value).
Proof. intros H s. exists [EvSetEnv key value]. cbn. now rewrite H. Qed.

Lemma emits_chdir (Q : event -> bool) (w : World) (dir : Path) :
  Q (EvChdir dir) = true -> emits Q (chdir w dir).
Proof.
  intros H s. exists [EvChdir dir]. unfold chdir.
  destruct (w_chdir w dir); cbn; now rewrite H.
Qed.

Lemma emits_exec_module (Q : event -> bool) (w : World) (file : string) :
  (forall c, Q (EvExecModule file c) = true) -> emits Q (exec_module w file).
Proof.
  intros H s. exists [EvExecModule file (cwd s)]. unfold exec_module, bind, emit.
  destruct (w_exec_module w file (cwd s)); cbn; now rewrite H.
Qed.

(** Decompose a launcher computation along its statements; what is left are
    the conditions on the single interactions, decided by evaluation. *)
Ltac emits_step :=
  first
    [ apply emits_ret | apply emits_return | apply emits_raise
    | apply emits_lift
    | apply emits_emit; reflexivity
    | apply emits_sys_path_insert; reflexivity
    | apply emits_setenv; reflexivity
    | apply emits_chdir; reflexivity
    | apply emits_exec_module; intros ?; reflexivity
    | apply emits_bind; [| intros ?]
    | apply emits_call
    | apply emits_try
    | apply Forall_nil
    | apply Forall_cons; [intros ?; cbn [snd] |]
    | apply emits_for_each; intros ? ?
    | apply emits_for_else; [intros ? ? | intros ?]
    | match goal with
      | |- emits _ (if ?c then _ else _) => destruct c
      | |- emits _ (match ?c with _ => _ end) => destruct c
      end ].

Ltac unfold_launcher :=
  unfold main_dependencies, main_model, main_app_file, main_port, try_alt_port,
    check_dependencies, check_one, install_dependencies, find_app_file,
    check_port_availability, print, print_end, py_import, py_input,
    path_exists, check_call, import_model, socket_socket, connect_ex,
    sock_close, spec_from_file_location, module_from_spec, getattr_app,
    thread_start_open_browser, run_app.

Ltac prove_emits := unfold_launcher; repeat emits_step.

(** ** What each phase of [main] can do *)

Lemma main_dependencies_emits (w : World) :
  emits is_dependency_event (main_dependencies w).
Proof. prove_emits. Qed.

Lemma main_model_emits (w : World) (current_dir : Path) :
  emits is_preparation_event (main_model w current_dir).
Proof. prove_emits. Qed.

Lemma main_app_file_emits (w : World) :
  emits is_preparation_event (main_app_file w).
Proof. prove_emits. Qed.

Lemma main_port_emits (w : World) :
  emits is_negotiation_event (main_port w).
Proof. prove_emits. Qed.

(** ** Port negotiation *)

Lemma bind_run_norm {A B} (m : M A) (k : A -> M B) (s s1 : pstate) (a : A) :
  m s = (Norm a, s1) -> bind m k s = k a s1.
Proof. intros H. unfold bind. now rewrite H. Qed.

Lemma try_alt_port_run (w : World) (alt_port port : Z) (s : pstate) :
  try_alt_port w alt_port port s =
    if observed_available w "localhost" alt_port
    then (Norm (Break, alt_port),
          add_log s (probe_events w "localhost" alt_port ++
                     [negotiation_verdict (Some alt_port)]))
    else (Norm (Continue, port),
          add_log s (probe_events w "localhost" alt_port)).
Proof.
  unfold try_alt_port.
  rewrite (bind_run_norm _ _ _ _ _ (check_port_availability_call w _ _ s)).
  cbn [truthy]. destruct (observed_available w "localhost" alt_port).
  - unfold bind, print, print_end, emit, ret. now rewrite add_log_app.
  - reflexivity.
Qed.

(** The fallback loop over any list of ports. *)
Lemma fallback_loop_run (w : World) (ports : list Z) :
  forall (port : Z) (s : pstate),
    for_else ports (try_alt_port w)
      (fun _ => print "在 7070-7073 范围内未找到可用端口" ;; return_ PNone)
      port s =
    (match find (observed_available w "localhost") ports with
     | Some p => Norm p
     | None => Retn PNone
     end,
     add_log s
       (flat_map (probe_events w "localhost")
                 (consulted (observed_available w "localhost") ports) ++
        [negotiation_verdict (find (observed_available w "localhost") ports)])).
Proof.
  induction ports as [|p ports IH]; intros port s.
  - reflexivity.
  - cbn [for_else find consulted]. unfold bind at 1.
    rewrite try_alt_port_run.
    destruct (observed_available w "localhost" p).
    + cbn. now rewrite app_nil_r.
    + rewrite IH, add_log_app. cbn [flat_map]. now rewrite <- app_assoc.
Qed.

Lemma main_port_run (w : World) (s : pstate) :
  main_port w s =
    if observed_available w "localhost" 7070
    then (Norm 7070, add_log s (probe_events w "localhost" 7070))
    else
      (match find (observed_available w "localhost") [7071; 7072; 7073] with
       | Some p => Norm p
       | None => Retn PNone
       end,
       add_log s
         (probe_events w "localhost" 7070 ++
          [EvPrint ("❌ 端口 7070 已被占用" ++ nl)%string;
           EvPrint ("请停止使用此端口的进程或选择其他端口" ++ nl)%string] ++
          flat_map (probe_events w "localhost")
            (consulted (observed_available w "localhost") [7071; 7072; 7073]) ++
          [negotiation_verdict
             (find (observed_available w "localhost") [7071; 7072; 7073])])).
Proof.
  unfold main_port.
  rewrite (bind_run_norm _ _ _ _ _ (check_port_availability_call w _ _ s)).
  cbn [truthy]. destruct (observed_available w "localhost" 7070); [reflexivity|].
  cbn [negb]. unfold bind at 1. unfold print at 1, print_end, emit.
  unfold bind at 1. unfold print at 1, print_end, emit.
  rewrite fallback_loop_run. rewrite !add_log_app.
  rewrite <- ?app_assoc. reflexivity.
Qed.

(** ** The shape of [main] *)

Lemma main_split_at_port (w : World) (s : pstate) :
  main w s =
    (app_file <- main_preparation w ;;
     port <- main_port w ;;
     main_launch w (parent (w_file w)) app_file port) s.
Proof.
  unfold main, main_preparation, main_until_dependencies.
  unfold bind, print, print_end, emit.
  destruct (main_dependencies w _) as [[r|r|r] s1]; try reflexivity.
  destruct (main_model w _ s1) as [[r1|r1|r1] s2]; try reflexivity.
Qed.

Lemma main_split_at_model (w : World) (s : pstate) :
  main w s =
    (main_until_dependencies w ;;
     model_available <- main_model w (parent (w_file w)) ;;
     app_file <- main_app_file w ;;
     port <- main_port w ;;
     main_launch w (parent (w_file w)) app_file port) s.
Proof.
  unfold main, main_until_dependencies.
  unfold bind, print, print_end, emit.
  destruct (main_dependencies w _) as [[r|r|r] s1]; reflexivity.
Qed.

Lemma main_until_dependencies_emits (w : World) :
  emits is_dependency_event (main_until_dependencies w).
Proof.
  unfold main_until_dependencies.
  repeat (apply emits_bind; [apply emits_emit; reflexivity | intros _]).
  apply main_dependencies_emits.
Qed.

Lemma dependency_event_is_preparation (ev : event) :
  is_dependency_event ev = true -> is_preparation_event ev = true.
Proof. destruct ev; intros H; try discriminate; try reflexivity; exact H. Qed.

Lemma main_preparation_emits (w : World) :
  emits is_preparation_event (main_preparation w).
Proof.
  unfold main_preparation.
  apply emits_bind.
  { eapply emits_weaken; [apply dependency_event_is_preparation|].
    apply main_until_dependencies_emits. }
  intros _. apply emits_bind; [apply main_model_emits|].
  intros _. apply main_app_file_emits.
Qed.

(** ** The launch *)

Lemma append_assoc (a b c : string) :
  ((a ++ b) ++ c)%string = (a ++ b ++ c)%string.
Proof. induction a as [|x a IH]; cbn; [reflexivity | now rewrite IH]. Qed.

Lemma main_launch_run (w : World) (current_dir : Path) (app_file : string)
  (port : Z) (s : pstate) :
  main_launch w current_dir app_file port s =
    (fst (launch_handled (fst (launch_attempt w current_dir app_file port))),
     launched_state w current_dir app_file port s).
Proof.
  unfold main_launch, launched_state, launch_events, launch_attempt,
    launch_handled.
  unfold try_except, bind, chdir, exec_module, spec_from_file_location,
    module_from_spec, getattr_app, thread_start_open_browser, run_app, setenv,
    print, print_end, emit, lift, unit_result, raise, ret, return_, add_log,
    app_missing_line, select_handler.
  cbn -[isinstance str_of_int String.append app].
  destruct (w_chdir w current_dir) as [e|];
    cbn -[isinstance str_of_int String.append app].
  { destruct (isinstance e KeyboardInterrupt);
      [|destruct (isinstance e Exception)];
      cbn -[isinstance str_of_int String.append app];
      rewrite <- ?app_assoc, ?append_assoc; reflexivity. }
  destruct (w_exec_module w app_file current_dir) as [e|];
    cbn -[isinstance str_of_int String.append app].
  { destruct (isinstance e KeyboardInterrupt);
      [|destruct (isinstance e Exception)];
      cbn -[isinstance str_of_int String.append app];
      rewrite <- ?app_assoc, ?append_assoc; reflexivity. }
  destruct (w_module_app w) as [a|];
    cbn -[isinstance str_of_int String.append app].
  2: { rewrite <- ?app_assoc, ?append_assoc; reflexivity. }
  destruct (app_run a true "0.0.0.0" port false) as [e|];
    cbn -[isinstance str_of_int String.append app].
  { destruct (isinstance e KeyboardInterrupt);
      [|destruct (isinstance e Exception)];
      cbn -[isinstance str_of_int String.append app];
      rewrite <- ?app_assoc, ?append_assoc; reflexivity. }
  rewrite <- ?app_assoc, ?append_assoc; reflexivity.
Qed.

Lemma main_port_selected (w : World) (s : pstate) :
  main_port w s =
    (match selected_port w with
     | Some p => Norm p
     | None => Retn PNone
     end,
     add_log s (negotiation_events w)).
Proof.
  rewrite main_port_run. unfold selected_port, negotiation_events.
  destruct (observed_available w "localhost" 7070); reflexivity.
Qed.

(** Every run of [main] has one of three shapes: it stops while preparing,
    it stops because no port is available, or it reaches the launch. *)
Lemma main_run_shape (w : World) (s : pstate) : main_shape w s.
Proof.
  destruct (main_preparation_emits w s) as [evs0 [Hlog0 Hprep]].
  pose proof (main_split_at_port w s) as Hmain.
  unfold bind at 1 in Hmain.
  destruct (main_preparation w s) as [[f|v|e] s1]; cbn [fst snd] in *.
  - unfold bind in Hmain. rewrite main_port_selected in Hmain.
    destruct (selected_port w) as [p|] eqn:Hsel.
    + rewrite main_launch_run in Hmain.
      apply (main_launches w s evs0 f p Hprep Hsel).
      * apply trace_of_log. rewrite Hmain. cbn. rewrite Hlog0.
        now rewrite <- !app_assoc.
      * unfold outcome. now rewrite Hmain.
      * intros Hcd. rewrite Hmain. cbn. now rewrite Hcd.
    + apply (main_stops_negotiating w s evs0 Hprep Hsel).
      * apply trace_of_log. rewrite Hmain. cbn. rewrite Hlog0.
        now rewrite <- !app_assoc.
      * unfold outcome. now rewrite Hmain.
  - apply (main_stops_preparing w s evs0 Hprep).
    + apply trace_of_log. now rewrite Hmain.
    + unfold outcome. rewrite Hmain. discriminate.
  - apply (main_stops_preparing w s evs0 Hprep).
    + apply trace_of_log. now rewrite Hmain.
    + unfold outcome. rewrite Hmain. discriminate.
Qed.

Lemma negotiation_events_kind (w : World) :
  forallb is_negotiation_event (negotiation_events w) = true.
Proof.
  destruct (main_port_emits w (mkState (mkPath "" []) [] [] []))
    as [evs [Hlog Hevs]].
  rewrite main_port_selected in Hlog. cbn in Hlog. now subst evs.
Qed.

Lemma forallb_In {X} (f : X -> bool) (l : list X) (x : X) :
  forallb f l = true -> In x l -> f x = true.
Proof. intros H Hin. rewrite forallb_forall in H. now apply H. Qed.

Lemma preparation_event_facts (evs : list event) (ev : event) :
  forallb is_preparation_event evs = true -> In ev evs ->
  is_launch_event ev = false /\ is_socket_event ev = false.
Proof.
  intros H Hin. pose proof (forallb_In _ _ _ H Hin) as Hev.
  destruct ev; try discriminate; split; reflexivity.
Qed.

Lemma negotiation_event_facts (w : World) (ev : event) :
  In ev (negotiation_events w) -> is_launch_event ev = false.
Proof.
  intros Hin. pose proof (forallb_In _ _ _ (negotiation_events_kind w) Hin) as Hev.
  destruct ev; try discriminate; reflexivity.
Qed.

(** The only server run of a launch is on the port it was given. *)
Lemma launch_events_app_run (w : World) (current_dir : Path)
  (app_file : string) (port : Z) (d : bool) (h : string) (p : Z) (r : bool) :
  In (EvAppRun d h p r) (launch_events w current_dir app_file port) ->
  p = port /\ h = "0.0.0.0" /\ d = true /\ r = false /\
  exists app, w_module_app w = Some app.
Proof.
  unfold launch_events, launch_attempt, launch_handled.
  destruct (w_chdir w current_dir) as [e|].
  { cbn -[isinstance]. destruct (isinstance e KeyboardInterrupt);
      [|destruct (isinstance e Exception)]; cbn; intros H;
      repeat (destruct H as [H|H]; [discriminate|]); contradiction. }
  destruct (w_exec_module w app_file current_dir) as [e|].
  { cbn -[isinstance]. destruct (isinstance e KeyboardInterrupt);
      [|destruct (isinstance e Exception)]; cbn; intros H;
      repeat (destruct H as [H|H]; [discriminate|]); contradiction. }
  destruct (w_module_app w) as [a|].
  2: { cbn. intros H.
       repeat (destruct H as [H|H]; [discriminate|]); contradiction. }
  assert (Hgoal : forall tail,
    (forall x, In x tail -> is_app_run x = false) ->
    In (EvAppRun d h p r)
       ([EvPrint (nl ++ "🌐 正在端口 " ++ str_of_int port ++ " 上启动 Web 服务器..." ++ nl)%string;
         EvSetEnv "FLASK_APP" app_file; EvSetEnv "FLASK_ENV" "development"] ++
        ([EvChdir current_dir; EvSpecFromFile "app" app_file; EvModuleFromSpec;
          EvExecModule app_file current_dir] ++
         [EvGetattrApp; EvPrint ("✅ Web 服务器启动成功!" ++ nl)%string;
          EvPrint ("🌐 访问地址: http://localhost:" ++ str_of_int port ++ nl)%string;
          EvPrint ("💡 提示: 按 Ctrl+C 停止服务器" ++ nl)%string;
          EvThreadStart ("http://localhost:" ++ str_of_int port)%string;
          EvAppRun true "0.0.0.0" port false]) ++ tail) ->
    p = port /\ h = "0.0.0.0" /\ d = true /\ r = false /\
    exists app, Some a = Some app).
  { intros tail Htail H. cbn [app] in H.
    repeat (destruct H as [H|H]; [discriminate|]).
    destruct H as [H|H].
    - inversion H; subst. repeat split; eauto.
    - apply Htail in H. discriminate. }
  cbn [fst snd].
  destruct (app_run a true "0.0.0.0" port false) as [e|]; cbn -[isinstance app].
  - destruct (isinstance e KeyboardInterrupt);
      [|destruct (isinstance e Exception)]; apply Hgoal; cbn; intros x Hx;
      repeat (destruct Hx as [Hx|Hx]; [subst x; reflexivity|]); contradiction.
  - apply Hgoal. intros x [].
Qed.

(** C1: when the preferred port 7070 is observed occupied, port negotiation
    probes 7071, 7072, 7073 in this order, stops at the first one observed
    available and selects it; a server is only ever run on that port. When
    all four are occupied, no port is selected: no run of [main] performs
    any launch step (no server run, no module load, no chdir), and a run
    that gets as far as probing ends by returning after the probes of 7070,
    7071, 7072, 7073 and the line saying no port was found. *)
Theorem port_negotiation_fallback (w : World) (s : pstate) :
  observed_available w "localhost" 7070 = false ->
  outcome (main_port w) s =
    match find (observed_available w "localhost") [7071; 7072; 7073] with
    | Some p => Norm p
    | None => Retn PNone
    end /\
  trace (main_port w) s =
    probe_events w "localhost" 7070 ++
    [EvPrint ("❌ 端口 7070 已被占用" ++ nl)%string;
     EvPrint ("请停止使用此端口的进程或选择其他端口" ++ nl)%string] ++
    flat_map (probe_events w "localhost")
      (consulted (observed_available w "localhost") [7071; 7072; 7073]) ++
    [negotiation_verdict
       (find (observed_available w "localhost") [7071; 7072; 7073])] /\
  (forall d h p r,
     In (EvAppRun d h p r) (trace (main w) s) ->
     find (observed_available w "localhost") [7071; 7072; 7073] = Some p) /\
  (observed_available w "localhost" 7071 = false ->
   observed_available w "localhost" 7072 = false ->
   observed_available w "localhost" 7073 = false ->
   outcome (main_port w) s = Retn PNone /\
   (forall ev, In ev (trace (main w) s) -> is_launch_event ev = false) /\
   (In EvSocket (trace (main w) s) ->
    outcome (main w) s = Retn PNone /\
    exists pre,
      trace (main w) s =
        pre ++
        probe_events w "localhost" 7070 ++
        [EvPrint ("❌ 端口 7070 已被占用" ++ nl)%string;
         EvPrint ("请停止使用此端口的进程或选择其他端口" ++ nl)%string] ++
        probe_events w "localhost" 7071 ++
        probe_events w "localhost" 7072 ++
        probe_events w "localhost" 7073 ++
        [EvPrint ("在 7070-7073 范围内未找到可用端口" ++ nl)%string])).
Proof.
  intros H7070.
  pose proof (main_port_run w s) as Hport. rewrite H7070 in Hport.
  destruct (trace_of_run _ _ _ _ Hport) as [Htr Hout].
  assert (Hsel : selected_port w =
                 find (observed_available w "localhost") [7071; 7072; 7073]).
  { unfold selected_port. now rewrite H7070. }
  split; [exact Hout|]. split; [exact Htr|]. split; [|intros H1 H2 H3; split; [|split]].
  - intros d h p r Hin.
    destruct (main_run_shape w s) as [evs0 Hprep Htrace _
                                     |evs0 Hprep _ Htrace _
                                     |evs0 f q Hprep Hq Htrace _ _];
      rewrite Htrace in Hin.
    + now destruct (preparation_event_facts _ _ Hprep Hin).
    + apply in_app_or in Hin. destruct Hin as [Hin|Hin].
      * now destruct (preparation_event_facts _ _ Hprep Hin).
      * now apply negotiation_event_facts in Hin.
    + apply in_app_or in Hin. destruct Hin as [Hin|Hin];
        [now destruct (preparation_event_facts _ _ Hprep Hin)|].
      apply in_app_or in Hin. destruct Hin as [Hin|Hin];
        [now apply negotiation_event_facts in Hin|].
      apply launch_events_app_run in Hin. destruct Hin as [-> _].
      now rewrite <- Hsel.
  - rewrite Hout. cbn. now rewrite H1, H2, H3.
  - assert (Hnone : selected_port w = None).
    { rewrite Hsel. cbn. now rewrite H1, H2, H3. }
    intros ev Hin.
    destruct (main_run_shape w s) as [evs0 Hprep Htrace _
                                     |evs0 Hprep _ Htrace _
                                     |evs0 f q Hprep Hq _ _ _].
    + rewrite Htrace in Hin.
      now destruct (preparation_event_facts _ _ Hprep Hin).
    + rewrite Htrace in Hin. apply in_app_or in Hin. destruct Hin as [Hin|Hin].
      * now destruct (preparation_event_facts _ _ Hprep Hin).
      * now apply negotiation_event_facts in Hin.
    + rewrite Hnone in Hq. discriminate.
  - assert (Hnone : selected_port w = None).
    { rewrite Hsel. cbn. now rewrite H1, H2, H3. }
    intros Hin.
    destruct (main_run_shape w s) as [evs0 Hprep Htrace _
                                     |evs0 Hprep _ Htrace Hres
                                     |evs0 f q Hprep Hq _ _ _].
    + rewrite Htrace in Hin.
      now destruct (preparation_event_facts _ _ Hprep Hin).
    + split; [exact Hres|]. exists evs0. rewrite Htrace.
      unfold negotiation_events. rewrite H7070. cbn [consulted find flat_map].
      rewrite H1, H2, H3. cbn [flat_map negotiation_verdict].
      rewrite app_nil_r, <- !app_assoc. reflexivity.
    + rewrite Hnone in Hq. discriminate.
Qed.

Lemma port_negotiation_fallback_witness :
  observed_available world_two_ports_busy "localhost" 7070 = false /\
  outcome (main_port world_two_ports_busy) state0 = Norm 7072.
Proof.
  split; [reflexivity|].
  exact (proj1 (port_negotiation_fallback world_two_ports_busy state0 eq_refl)).
Defined.

(** ** A loaded module without [app] *)

Lemma in_existsb {X} (f : X -> bool) (l : list X) (x : X) :
  In x l -> f x = true -> existsb f l = true.
Proof. intros Hin Hf. apply existsb_exists. now exists x. Qed.

Lemma app_missing_line_not_preparation (evs : list event) :
  forallb is_preparation_event evs = true ->
  ~ In (EvPrint app_missing_line) evs.
Proof.
  intros H Hin. pose proof (forallb_In _ _ _ H Hin) as Hev.
  unfold is_preparation_event in Hev. now rewrite String.eqb_refl in Hev.
Qed.

Lemma app_missing_line_not_negotiation (w : World) :
  ~ In (EvPrint app_missing_line) (negotiation_events w).
Proof.
  intros Hin.
  pose proof (forallb_In _ _ _ (negotiation_events_kind w) Hin) as Hev.
  unfold is_negotiation_event in Hev. now rewrite String.eqb_refl in Hev.
Qed.

(** Case analysis on everything a launch depends on. *)
Ltac launch_reduce :=
  cbn -[isinstance str_of_int String.append nl app_missing_line].

Ltac launch_handler_cases e :=
  launch_reduce;
  destruct (isinstance e KeyboardInterrupt) eqn:?;
  [|destruct (isinstance e Exception) eqn:?];
  launch_reduce.

Ltac launch_cases w current_dir app_file port :=
  unfold launch_events, launch_attempt, launch_handled;
  let e := fresh "e" in
  let a := fresh "a" in
  destruct (w_chdir w current_dir) as [e|] eqn:?;
  [ launch_handler_cases e
  | destruct (w_exec_module w app_file current_dir) as [e|] eqn:?;
    [ launch_handler_cases e
    | destruct (w_module_app w) as [a|] eqn:?;
      [ destruct (app_run a true "0.0.0.0" port false) as [e|] eqn:?;
        [ launch_handler_cases e | launch_reduce ]
      | launch_reduce ] ] ].

Ltac in_cases H :=
  repeat (destruct H as [H|H]; [try discriminate|]); try contradiction.

(** The app-missing line appears in a launch only when the module was loaded
    and has no [app]. *)
Lemma launch_events_app_missing (w : World) (current_dir : Path)
  (app_file : string) (port : Z) :
  In (EvPrint app_missing_line) (launch_events w current_dir app_file port) ->
  w_module_app w = None /\
  In EvGetattrApp (launch_events w current_dir app_file port).
Proof.
  intros Hin.
  assert (Hex : existsb is_app_missing_line
                  (launch_events w current_dir app_file port) = true).
  { apply (in_existsb _ _ _ Hin). unfold is_app_missing_line.
    apply String.eqb_refl. }
  clear Hin. revert Hex.
  launch_cases w current_dir app_file port; intros Hex;
    try (exfalso; revert Hex; cbn; discriminate).
  split; [reflexivity|]. cbn. tauto.
Qed.

Lemma launch_events_getattr_without_app (w : World) (current_dir : Path)
  (app_file : string) (port : Z) :
  w_module_app w = None ->
  In EvGetattrApp (launch_events w current_dir app_file port) ->
  fst (launch_handled (fst (launch_attempt w current_dir app_file port))) =
    Retn PNone /\
  launch_events w current_dir app_file port =
    [EvPrint (nl ++ "🌐 正在端口 " ++ str_of_int port ++ " 上启动 Web 服务器..." ++ nl)%string;
     EvSetEnv "FLASK_APP" app_file;
     EvSetEnv "FLASK_ENV" "development";
     EvChdir current_dir;
     EvSpecFromFile "app" app_file;
     EvModuleFromSpec;
     EvExecModule app_file current_dir;
     EvGetattrApp;
     EvPrint app_missing_line].
Proof.
  intros Hnone.
  launch_cases w current_dir app_file port; intros Hin;
    try (in_cases Hin; fail); try congruence.
  split; reflexivity.
Qed.

Lemma launch_events_no_run_without_app (w : World) (current_dir : Path)
  (app_file : string) (port : Z) (ev : event) :
  w_module_app w = None ->
  In ev (launch_events w current_dir app_file port) ->
  is_app_run ev = false.
Proof.
  intros Hnone Hin. destruct ev; try reflexivity.
  apply launch_events_app_run in Hin.
  destruct Hin as (_ & _ & _ & _ & [app Happ]). congruence.
Qed.

(** C6: when the loaded entry-point module has no [app] object, the launcher
    prints the line saying that the 'app' object was not found and returns;
    the server's [run] is never invoked, in no run of [main]. That line is
    the last thing such a run prints, it is not printed before, and no run
    prints it in any other situation, which tells this outcome apart from
    every other error. *)
Theorem app_object_missing_is_terminal (w : World) (s : pstate) :
  w_module_app w = None ->
  (forall current_dir app_file port s1,
     w_chdir w current_dir = None ->
     w_exec_module w app_file current_dir = None ->
     outcome (main_launch w current_dir app_file port) s1 = Retn PNone /\
     trace (main_launch w current_dir app_file port) s1 =
       [EvPrint (nl ++ "🌐 正在端口 " ++ str_of_int port ++ " 上启动 Web 服务器..." ++ nl)%string;
        EvSetEnv "FLASK_APP" app_file;
        EvSetEnv "FLASK_ENV" "development";
        EvChdir current_dir;
        EvSpecFromFile "app" app_file;
        EvModuleFromSpec;
        EvExecModule app_file current_dir;
        EvGetattrApp;
        EvPrint ("❌ 在应用文件中找不到 'app' 对象" ++ nl)%string]) /\
  (forall ev, In ev (trace (main w) s) -> is_app_run ev = false) /\
  (In EvGetattrApp (trace (main w) s) ->
   outcome (main w) s = Retn PNone /\
   exists pre,
     trace (main w) s =
       pre ++ [EvGetattrApp;
               EvPrint ("❌ 在应用文件中找不到 'app' 对象" ++ nl)%string] /\
     ~ In (EvPrint ("❌ 在应用文件中找不到 'app' 对象" ++ nl)%string) pre) /\
  (forall w' s',
     In (EvPrint ("❌ 在应用文件中找不到 'app' 对象" ++ nl)%string)
        (trace (main w') s') ->
     w_module_app w' = None /\ In EvGetattrApp (trace (main w') s')).
Proof.
  intros Hnone. change ("❌ 在应用文件中找不到 'app' 对象" ++ nl)%string
    with app_missing_line.
  split; [|split; [|split]].
  - intros current_dir app_file port s1 Hcd Hexec.
    pose proof (main_launch_run w current_dir app_file port s1) as Hrun.
    assert (Hin : In EvGetattrApp (launch_events w current_dir app_file port)).
    { unfold launch_events, launch_attempt. rewrite Hcd, Hexec, Hnone.
      cbn. tauto. }
    destruct (launch_events_getattr_without_app w _ _ _ Hnone Hin)
      as [Hres Hevs].
    split.
    + unfold outcome. now rewrite Hrun.
    + apply trace_of_log. rewrite Hrun. cbn [snd launched_state log].
      now rewrite Hevs.
  - intros ev Hin.
    destruct (main_run_shape w s) as [evs0 Hprep Htrace _
                                     |evs0 Hprep _ Htrace _
                                     |evs0 f q Hprep _ Htrace _ _];
      rewrite Htrace in Hin.
    + pose proof (forallb_In _ _ _ Hprep Hin). now destruct ev.
    + apply in_app_or in Hin. destruct Hin as [Hin|Hin].
      * pose proof (forallb_In _ _ _ Hprep Hin). now destruct ev.
      * pose proof (forallb_In _ _ _ (negotiation_events_kind w) Hin).
        now destruct ev.
    + apply in_app_or in Hin. destruct Hin as [Hin|Hin].
      { pose proof (forallb_In _ _ _ Hprep Hin). now destruct ev. }
      apply in_app_or in Hin. destruct Hin as [Hin|Hin].
      { pose proof (forallb_In _ _ _ (negotiation_events_kind w) Hin).
        now destruct ev. }
      exact (launch_events_no_run_without_app w _ _ _ ev Hnone Hin).
  - intros Hin.
    destruct (main_run_shape w s) as [evs0 Hprep Htrace _
                                     |evs0 Hprep _ Htrace _
                                     |evs0 f q Hprep _ Htrace Hres _];
      rewrite Htrace in Hin.
    + now pose proof (forallb_In _ _ _ Hprep Hin).
    + apply in_app_or in Hin. destruct Hin as [Hin|Hin].
      * now pose proof (forallb_In _ _ _ Hprep Hin).
      * now pose proof (forallb_In _ _ _ (negotiation_events_kind w) Hin).
    + apply in_app_or in Hin. destruct Hin as [Hin|Hin].
      { now pose proof (forallb_In _ _ _ Hprep Hin). }
      apply in_app_or in Hin. destruct Hin as [Hin|Hin].
      { now pose proof (forallb_In _ _ _ (negotiation_events_kind w) Hin). }
      destruct (launch_events_getattr_without_app w _ _ _ Hnone Hin)
        as [Hout Hevs].
      split; [now rewrite Hres|].
      exists (evs0 ++ negotiation_events w ++
              [EvPrint (nl ++ "🌐 正在端口 " ++ str_of_int q ++ " 上启动 Web 服务器..." ++ nl)%string;
               EvSetEnv "FLASK_APP" f;
               EvSetEnv "FLASK_ENV" "development";
               EvChdir (parent (w_file w));
               EvSpecFromFile "app" f;
               EvModuleFromSpec;
               EvExecModule f (parent (w_file w))]).
      split.
      * rewrite Htrace, Hevs, <- !app_assoc. reflexivity.
      * intros Hpre. apply in_app_or in Hpre. destruct Hpre as [Hpre|Hpre].
        { now apply (app_missing_line_not_preparation evs0 Hprep). }
        apply in_app_or in Hpre. destruct Hpre as [Hpre|Hpre].
        { now apply (app_missing_line_not_negotiation w). }
        assert (Hex : existsb is_app_missing_line
                  [EvPrint (nl ++ "🌐 正在端口 " ++ str_of_int q ++ " 上启动 Web 服务器..." ++ nl)%string;
                   EvSetEnv "FLASK_APP" f;
                   EvSetEnv "FLASK_ENV" "development";
                   EvChdir (parent (w_file w));
                   EvSpecFromFile "app" f;
                   EvModuleFromSpec;
                   EvExecModule f (parent (w_file w))] = true).
        { apply (in_existsb _ _ _ Hpre). unfold is_app_missing_line.
          apply String.eqb_refl. }
        revert Hex. cbn. discriminate.
  - intros w' s' Hin.
    destruct (main_run_shape w' s') as [evs0 Hprep Htrace _
                                       |evs0 Hprep _ Htrace _
                                       |evs0 f q Hprep _ Htrace _ _];
      rewrite Htrace in *.
    + now apply app_missing_line_not_preparation in Hin.
    + apply in_app_or in Hin. destruct Hin as [Hin|Hin].
      * now apply app_missing_line_not_preparation in Hin.
      * now apply app_missing_line_not_negotiation in Hin.
    + apply in_app_or in Hin. destruct Hin as [Hin|Hin].
      { now apply app_missing_line_not_preparation in Hin. }
      apply in_app_or in Hin. destruct Hin as [Hin|Hin].
      { now apply app_missing_line_not_negotiation in Hin. }
      apply launch_events_app_missing in Hin. destruct Hin as [Hnone' Hget].
      split; [exact Hnone'|].
      apply in_or_app. right. apply in_or_app. now right.
Qed.

Lemma app_object_missing_is_terminal_witness :
  w_module_app world_without_app_object = None /\
  (forall ev, In ev (trace (main world_without_app_object) state0) ->
              is_app_run ev = false).
Proof.
  split; [reflexivity|].
  exact (proj1 (proj2 (app_object_missing_is_terminal
                         world_without_app_object state0 eq_refl))).
Defined.

(** ** The working directory *)

Lemma launch_events_exec_module (w : World) (current_dir : Path)
  (app_file : string) (port : Z) (file : string) (c : Path) :
  In (EvExecModule file c) (launch_events w current_dir app_file port) ->
  file = app_file /\ c = current_dir /\ w_chdir w current_dir = None /\
  exists post,
    launch_events w current_dir app_file port =
      [EvPrint (nl ++ "🌐 正在端口 " ++ str_of_int port ++ " 上启动 Web 服务器..." ++ nl)%string;
       EvSetEnv "FLASK_APP" app_file;
       EvSetEnv "FLASK_ENV" "development";
       EvChdir current_dir;
       EvSpecFromFile "app" app_file;
       EvModuleFromSpec;
       EvExecModule app_file current_dir] ++ post /\
    forallb (fun ev => negb (is_chdir ev)) post = true.
Proof.
  launch_cases w current_dir app_file port; intros Hin;
    try (in_cases Hin; fail);
    (assert (Heq : EvExecModule app_file current_dir = EvExecModule file c)
       by (in_cases Hin; exact Hin));
    inversion Heq; subst; repeat split;
    eexists; (split; [reflexivity | reflexivity]).
Qed.

(** C10: in every run of [main] that loads the entry-point file, the
    launcher has first changed the working directory to its own directory:
    the chdir comes right before the load, the module executes with that
    directory as working directory, the launcher performs no later chdir,
    and the process is still in that directory when [main] ends. *)
Theorem chdir_precedes_module_load (w : World) (s : pstate) (file : string)
  (c : Path) :
  In (EvExecModule file c) (trace (main w) s) ->
  c = parent (w_file w) /\
  (exists pre post,
     trace (main w) s =
       pre ++
       [EvChdir (parent (w_file w));
        EvSpecFromFile "app" file;
        EvModuleFromSpec;
        EvExecModule file (parent (w_file w))] ++ post /\
     (forall ev, In ev post -> is_chdir ev = false)) /\
  cwd (snd (main w s)) = parent (w_file w).
Proof.
  intros Hin.
  destruct (main_run_shape w s) as [evs0 Hprep Htrace _
                                   |evs0 Hprep _ Htrace _
                                   |evs0 f q Hprep _ Htrace _ Hcwd];
    rewrite Htrace in Hin.
  - discriminate (forallb_In _ _ _ Hprep Hin).
  - apply in_app_or in Hin. destruct Hin as [Hin|Hin].
    + discriminate (forallb_In _ _ _ Hprep Hin).
    + discriminate (forallb_In _ _ _ (negotiation_events_kind w) Hin).
  - apply in_app_or in Hin. destruct Hin as [Hin|Hin].
    { discriminate (forallb_In _ _ _ Hprep Hin). }
    apply in_app_or in Hin. destruct Hin as [Hin|Hin].
    { discriminate (forallb_In _ _ _ (negotiation_events_kind w) Hin). }
    apply launch_events_exec_module in Hin.
    destruct Hin as (-> & -> & Hcd & post & Hevs & Hpost).
    split; [reflexivity|]. split; [|exact (Hcwd Hcd)].
    exists (evs0 ++ negotiation_events w ++
            [EvPrint (nl ++ "🌐 正在端口 " ++ str_of_int q ++ " 上启动 Web 服务器..." ++ nl)%string;
             EvSetEnv "FLASK_APP" f;
             EvSetEnv "FLASK_ENV" "development"]), post.
    split.
    + rewrite Htrace, Hevs, <- !app_assoc. reflexivity.
    + intros ev Hev. pose proof (forallb_In _ _ _ Hpost Hev) as H.
      cbn beta in H. now destruct (is_chdir ev).
Qed.

Lemma chdir_precedes_module_load_witness :
  In (EvExecModule "/srv/kronos/webui/app.py" (mkPath "/" ["srv"; "kronos"; "webui"]))
     (trace (main healthy_world) state0) /\
  cwd state0 = mkPath "/" ["home"; "operator"] /\
  cwd (snd (main healthy_world state0)) = mkPath "/" ["srv"; "kronos"; "webui"].
Proof.
  assert (Hin : In (EvExecModule "/srv/kronos/webui/app.py"
                      (mkPath "/" ["srv"; "kronos"; "webui"]))
                   (trace (main healthy_world) state0)).
  { vm_compute. tauto. }
  split; [exact Hin|]. split; [reflexivity|].
  exact (proj2 (proj2 (chdir_precedes_module_load healthy_world state0 _ _ Hin))).
Defined.

(** ** Declining the installation *)

Lemma main_dependencies_declined (w : World) (s : pstate) (answer : string) :
  imports_present_or_missing w required_packages = true ->
  unresolved w required_packages <> [] ->
  w_input w = inr answer ->
  String.eqb (lower answer) "y" = false ->
  main_dependencies w s =
    (Retn PNone,
     add_log s
       (map EvImport required_packages ++
        [EvPrint ("❌ 缺少依赖: " ++ join ", " (unresolved w required_packages) ++ nl)%string;
         EvPrint ("请运行: pip install -r requirements.txt" ++ nl)%string;
         EvPrint (nl ++ "自动安装依赖? (y/n): ")%string;
         EvInput;
         EvPrint ("请手动安装依赖后重试" ++ nl)%string])).
Proof.
  intros Hok Hmissing Hinput Hdecline.
  unfold main_dependencies.
  rewrite (bind_run_norm _ _ _ _ _
             (call_run _ _ _ _ (check_dependencies_run w s Hok))).
  destruct (unresolved w required_packages) as [|m ms]; [congruence|].
  cbn [truthy negb].
  unfold bind, print, print_end, py_input, emit, lift, ret, return_.
  rewrite Hinput. cbn -[required_packages join lower String.eqb].
  rewrite Hdecline. rewrite !add_log_app, <- !app_assoc. reflexivity.
Qed.

(** C8: when required dependencies are missing and the operator's answer is
    not "y", [main] prints the instruction to install them by hand and
    returns: the run consists of the banner, the imports, the report of what
    is missing, the question, the answer and that instruction. No port is
    ever probed, and pip is not started. *)
Theorem declined_install_aborts_before_ports (w : World) (s : pstate)
  (answer : string) :
  imports_present_or_missing w required_packages = true ->
  unresolved w required_packages <> [] ->
  w_input w = inr answer ->
  String.eqb (lower answer) "y" = false ->
  outcome (main w) s = Retn PNone /\
  trace (main w) s =
    [EvPrint ("🚀 正在启动 Kronos Web UI..." ++ nl)%string;
     EvPrint (str_repeat "=" 50 ++ nl)%string;
     EvPrint ("工作目录: " ++ path_str (parent (w_file w)) ++ nl)%string] ++
    map EvImport required_packages ++
    [EvPrint ("❌ 缺少依赖: " ++ join ", " (unresolved w required_packages) ++ nl)%string;
     EvPrint ("请运行: pip install -r requirements.txt" ++ nl)%string;
     EvPrint (nl ++ "自动安装依赖? (y/n): ")%string;
     EvInput;
     EvPrint ("请手动安装依赖后重试" ++ nl)%string] /\
  (forall ev, In ev (trace (main w) s) ->
              is_socket_event ev = false /\ is_check_call ev = false /\
              is_launch_event ev = false).
Proof.
  intros Hok Hmissing Hinput Hdecline.
  assert (Hrun : main w s =
    (Retn PNone,
     add_log s
       ([EvPrint ("🚀 正在启动 Kronos Web UI..." ++ nl)%string;
         EvPrint (str_repeat "=" 50 ++ nl)%string;
         EvPrint ("工作目录: " ++ path_str (parent (w_file w)) ++ nl)%string] ++
        map EvImport required_packages ++
        [EvPrint ("❌ 缺少依赖: " ++ join ", " (unresolved w required_packages) ++ nl)%string;
         EvPrint ("请运行: pip install -r requirements.txt" ++ nl)%string;
         EvPrint (nl ++ "自动安装依赖? (y/n): ")%string;
         EvInput;
         EvPrint ("请手动安装依赖后重试" ++ nl)%string]))).
  { rewrite main_split_at_model. unfold main_until_dependencies.
    unfold bind at 1. unfold bind at 1. unfold print at 1, print_end, emit.
    unfold bind at 1. unfold print at 1, print_end, emit.
    unfold bind at 1. unfold print at 1, print_end, emit.
    rewrite (main_dependencies_declined w _ answer Hok Hmissing Hinput Hdecline).
    rewrite !add_log_app. reflexivity. }
  destruct (trace_of_run _ _ _ _ Hrun) as [Htr Hout].
  split; [exact Hout|]. split; [exact Htr|].
  rewrite Htr. intros ev Hin.
  apply in_app_or in Hin. destruct Hin as [Hin|Hin].
  { in_cases Hin; subst ev; repeat split. }
  apply in_app_or in Hin. destruct Hin as [Hin|Hin].
  { apply in_map_iff in Hin. destruct Hin as [n [<- _]]. repeat split. }
  in_cases Hin; subst ev; repeat split.
Qed.

Lemma declined_install_aborts_before_ports_witness :
  unresolved world_declined_install required_packages = ["flask"; "pandas"] /\
  w_input world_declined_install = inr "n" /\
  outcome (main world_declined_install) state0 = Retn PNone.
Proof.
  split; [reflexivity|]. split; [reflexivity|].
  refine (proj1 (declined_install_aborts_before_ports
                   world_declined_install state0 "n" eq_refl _ eq_refl eq_refl)).
  vm_compute. discriminate.
Defined.

(** ** The capability probe *)

Lemma ImportError_is_Exception (e : exn) :
  isinstance e ImportError = true -> isinstance e Exception = true.
Proof. destruct e as [c m]. destruct c; cbn; intros H; congruence. Qed.

Lemma main_model_import_error (w : World) (current_dir : Path) (s : pstate)
  (e : exn) :
  w_import_model w = Some e ->
  isinstance e ImportError = true ->
  main_model w current_dir s =
    (Norm false,
     add_log (mkState (cwd s) (environ s)
                      (path_str (parent current_dir) :: sys_path s) (log s))
       [EvSysPathInsert (path_str (parent current_dir));
        EvImportModel;
        EvPrint ("⚠️  Kronos 模型库不可用: " ++ exn_str e ++ nl)%string;
        EvPrint ("将使用模拟预测模式" ++ nl)%string]).
Proof.
  intros Himp Hcls.
  unfold main_model, try_except, bind, sys_path_insert, import_model, print,
    print_end, emit, lift, unit_result, raise, ret.
  rewrite Himp. cbn -[isinstance String.append]. rewrite Hcls.
  cbn -[String.append]. rewrite ?append_assoc, !add_log_app. reflexivity.
Qed.

(** Entry-point resolution starts by asking for app.py and ends without an
    exception. *)
Lemma main_app_file_run (w : World) (s : pstate) :
  exists r tail,
    main_app_file w s =
      (r, add_log s (EvExists (path_div (parent (w_file w)) "app.py") :: tail)) /\
    forall e, r <> Exn e.
Proof.
  unfold main_app_file.
  rewrite (bind_run_norm _ _ _ _ _ (call_run _ _ _ _ (find_app_file_run w s))).
  unfold possible_paths. cbn [find consulted map].
  destruct (w_exists w (path_div (parent (w_file w)) "app.py"));
    [|destruct (w_exists w (path_div (parent (w_file w)) "application.py"));
      [|destruct (w_exists w (path_div (parent (w_file w)) "main.py"))]];
    cbn [map];
    match goal with
    | |- context [truthy ?v] => destruct (truthy v)
    end;
    cbn [negb]; unfold bind, print, print_end, emit, ret, return_;
    cbn -[String.append path_str path_div parent add_log];
    rewrite ?add_log_app; cbn [app];
    do 2 eexists; (split; [reflexivity | intros e H; discriminate H]).
Qed.

Lemma launch_handled_not_exception (r : res unit) (e : exn) :
  fst (launch_handled r) = Exn e -> isinstance e Exception = false.
Proof.
  unfold launch_handled. destruct r as [a|v|e0]; try discriminate.
  destruct (isinstance e0 KeyboardInterrupt); [discriminate|].
  destruct (isinstance e0 Exception) eqn:Hcls; [discriminate|].
  cbn [fst]. intros H. inversion H; subst. exact Hcls.
Qed.

(** C2, as stated, fails: an import of the model library that fails with an
    exception other than [ImportError] leaves [main] as that exception,
    right after the import; the entry point is never looked for. *)
Lemma capability_probe_other_failure_propagates :
  w_import_model world_model_load_fails =
    Some (mkExn OSError
            "libcudart.so.12: cannot open shared object file: No such file or directory") /\
  outcome (call (main world_model_load_fails)) state0 =
    Exn (mkExn OSError
           "libcudart.so.12: cannot open shared object file: No such file or directory") /\
  filter (fun ev => negb (is_print ev))
         (trace (main world_model_load_fails) state0) =
    [EvImport "flask"; EvImport "flask_cors"; EvImport "pandas";
     EvImport "numpy"; EvImport "plotly";
     EvSysPathInsert "/srv/kronos"; EvImportModel].
Proof. repeat split; vm_compute; reflexivity. Qed.

(** C2, amended: when the import of the model library fails with an
    [ImportError] (of which [ModuleNotFoundError] is a kind), the probe
    catches it, prints that the library is unavailable and that simulated
    predictions are used, and yields [model_available = False]. In every
    run of [main] that performs the import, the next step after these two
    lines is the look-up of app.py, and that exception does not come out of
    [main]. *)
Theorem capability_probe_import_error_degrades (w : World) (e : exn) :
  w_import_model w = Some e ->
  isinstance e ImportError = true ->
  (forall current_dir s,
     outcome (main_model w current_dir) s = Norm false /\
     trace (main_model w current_dir) s =
       [EvSysPathInsert (path_str (parent current_dir));
        EvImportModel;
        EvPrint ("⚠️  Kronos 模型库不可用: " ++ exn_str e ++ nl)%string;
        EvPrint ("将使用模拟预测模式" ++ nl)%string]) /\
  (forall s,
     In EvImportModel (trace (main w) s) ->
     outcome (main w) s <> Exn e /\
     exists pre post,
       trace (main w) s =
         pre ++
         [EvSysPathInsert (path_str (parent (parent (w_file w))));
          EvImportModel;
          EvPrint ("⚠️  Kronos 模型库不可用: " ++ exn_str e ++ nl)%string;
          EvPrint ("将使用模拟预测模式" ++ nl)%string;
          EvExists (path_div (parent (w_file w)) "app.py")] ++ post).
Proof.
  intros Himp Hcls. split.
  - intros current_dir s.
    pose proof (main_model_import_error w current_dir s e Himp Hcls) as Hrun.
    split.
    + unfold outcome. now rewrite Hrun.
    + apply trace_of_log. now rewrite Hrun.
  - intros s Hin.
    destruct (main_until_dependencies_emits w s) as [evs0 [Hlog0 Hdeps]].
    pose proof (main_split_at_model w s) as Hmain.
    unfold bind at 1 in Hmain.
    destruct (main_until_dependencies w s) as [[[]|v|e0] s1]; cbn [fst snd] in *.
    2,3: exfalso;
         assert (Htr : trace (main w) s = evs0)
           by (apply trace_of_log; now rewrite Hmain);
         rewrite Htr in Hin;
         discriminate (forallb_In _ _ _ Hdeps Hin).
    unfold bind at 1 in Hmain.
    rewrite (main_model_import_error w _ s1 e Himp Hcls) in Hmain.
    unfold bind at 1 in Hmain.
    match type of Hmain with
    | context [main_app_file w ?s2] =>
        destruct (main_app_file_run w s2) as (r & tail & Happ & Hr)
    end.
    rewrite Happ in Hmain. rewrite add_log_app in Hmain.
    assert (Hlog : exists post,
      log (snd (main w s)) =
        log s ++ evs0 ++
        [EvSysPathInsert (path_str (parent (parent (w_file w))));
         EvImportModel;
         EvPrint ("⚠️  Kronos 模型库不可用: " ++ exn_str e ++ nl)%string;
         EvPrint ("将使用模拟预测模式" ++ nl)%string;
         EvExists (path_div (parent (w_file w)) "app.py")] ++ post /\
      outcome (main w) s <> Exn e).
    { unfold outcome. destruct r as [f|v|e1].
      - unfold bind in Hmain. rewrite main_port_selected in Hmain.
        destruct (selected_port w) as [p|].
        + rewrite main_launch_run in Hmain. rewrite Hmain.
          eexists. split.
          * cbn [snd launched_state log add_log]. rewrite Hlog0.
            rewrite <- !app_assoc. cbn [app]. reflexivity.
          * cbn [fst]. intros Hexn.
            apply launch_handled_not_exception in Hexn.
            rewrite (ImportError_is_Exception e Hcls) in Hexn. discriminate.
        + rewrite Hmain. eexists. split.
          * cbn [snd log add_log]. rewrite Hlog0.
            rewrite <- !app_assoc. cbn [app]. reflexivity.
          * discriminate.
      - rewrite Hmain. eexists. split.
        + cbn [snd log add_log]. rewrite Hlog0.
          rewrite <- !app_assoc. cbn [app]. reflexivity.
        + discriminate.
      - now destruct (Hr e1). }
    destruct Hlog as [post [Hlog Hout]].
    split; [exact Hout|].
    exists evs0, post. apply trace_of_log. exact Hlog.
Qed.

Lemma capability_probe_import_error_degrades_witness :
  w_import_model world_without_model =
    Some (mkExn ModuleNotFoundError "No module named 'model'") /\
  outcome (main_model world_without_model (mkPath "/" ["srv"; "kronos"; "webui"]))
          state0 = Norm false /\
  outcome (main world_without_model) state0 <>
    Exn (mkExn ModuleNotFoundError "No module named 'model'").
Proof.
  split; [reflexivity|].
  destruct (capability_probe_import_error_degrades
              world_without_model _ eq_refl eq_refl) as [Hprobe Hmain].
  split.
  - exact (proj1 (Hprobe (mkPath "/" ["srv"; "kronos"; "webui"]) state0)).
  - refine (proj1 (Hmain state0 _)). vm_compute. tauto.
Defined.

(** ** Sample runs *)

(** Everything in place, model library absent, 7070 and 7071 in use: the
    server is run on 0.0.0.0:7072 and the browser is pointed at
    http://localhost:7072; the operator's Ctrl+C ends [main] normally. *)
Example run_degraded_on_7072 :
  outcome (main world_degraded_two_ports_busy) state0 = Norm tt /\
  filter (fun ev => negb (is_print ev))
         (trace (main world_degraded_two_ports_busy) state0) =
    [EvImport "flask"; EvImport "flask_cors"; EvImport "pandas";
     EvImport "numpy"; EvImport "plotly";
     EvSysPathInsert "/srv/kronos"; EvImportModel;
     EvExists (mkPath "/" ["srv"; "kronos"; "webui"; "app.py"]);
     EvSocket; EvConnectEx "localhost" 7070; EvSockClose;
     EvSocket; EvConnectEx "localhost" 7071; EvSockClose;
     EvSocket; EvConnectEx "localhost" 7072; EvSockClose;
     EvSetEnv "FLASK_APP" "/srv/kronos/webui/app.py";
     EvSetEnv "FLASK_ENV" "development";
     EvChdir (mkPath "/" ["srv"; "kronos"; "webui"]);
     EvSpecFromFile "app" "/srv/kronos/webui/app.py";
     EvModuleFromSpec;
     EvExecModule "/srv/kronos/webui/app.py" (mkPath "/" ["srv"; "kronos"; "webui"]);
     EvGetattrApp;
     EvThreadStart "http://localhost:7072";
     EvAppRun true "0.0.0.0" 7072 false].
Proof. split; vm_compute; reflexivity. Qed.

(** All of 7070 to 7073 in use: [main] returns after the fourth probe. *)
Example run_all_ports_busy :
  outcome (main world_all_ports_busy) state0 = Retn PNone /\
  filter is_socket_event (trace (main world_all_ports_busy) state0) =
    [EvSocket; EvConnectEx "localhost" 7070; EvSockClose;
     EvSocket; EvConnectEx "localhost" 7071; EvSockClose;
     EvSocket; EvConnectEx "localhost" 7072; EvSockClose;
     EvSocket; EvConnectEx "localhost" 7073; EvSockClose] /\
  last (trace (main world_all_ports_busy) state0) EvInput =
    EvPrint ("在 7070-7073 范围内未找到可用端口" ++ nl)%string /\
  existsb is_launch_event (trace (main world_all_ports_busy) state0) = false.
Proof. repeat split; vm_compute; reflexivity. Qed.

(** * Further properties of run.py *)

(** ** The installer on every path *)

Lemma install_dependencies_run (w : World) (s : pstate) :
  install_dependencies w s =
    (fst (install_result w), add_log s (snd (install_result w))).
Proof.
  unfold install_dependencies, install_result, pip_argv.
  unfold try_except, bind, path_exists, check_call, print, print_end, emit,
    lift, unit_result, raise, ret, return_, select_handler.
  cbn -[isinstance String.append requirements_path path_str app].
  destruct (w_exists w (requirements_path w));
    cbn -[isinstance String.append requirements_path path_str app].
  2: { now rewrite !add_log_app. }
  destruct (w_check_call w _) as [e|];
    cbn -[isinstance String.append requirements_path path_str app].
  2: { now rewrite !add_log_app. }
  destruct (isinstance e CalledProcessError);
    [|destruct (isinstance e Exception)];
    cbn -[isinstance String.append requirements_path path_str app];
    rewrite !add_log_app, ?append_assoc; reflexivity.
Qed.

Lemma install_dependencies_observed (w : World) (s : pstate) :
  outcome (call (install_dependencies w)) s = returned (fst (install_result w)) /\
  trace (install_dependencies w) s = snd (install_result w).
Proof.
  pose proof (install_dependencies_run w s) as Hrun. split.
  - unfold outcome, call. rewrite Hrun.
    destruct (fst (install_result w)); reflexivity.
  - apply trace_of_log. now rewrite Hrun.
Qed.

(** X1: with the manifest in place and pip exiting with status 0, the
    installer runs [sys.executable -m pip install -r <manifest>] once,
    prints that the installation is complete and returns True. *)
Theorem install_dependencies_success (w : World) (s : pstate) :
  w_exists w (path_div (parent (w_file w)) "requirements.txt") = true ->
  w_check_call w [w_executable w; "-m"; "pip"; "install"; "-r";
                  path_str (path_div (parent (w_file w)) "requirements.txt")]
    = None ->
  outcome (call (install_dependencies w)) s = Norm (PBool true) /\
  trace (install_dependencies w) s =
    [EvPrint ("正在安装依赖..." ++ nl)%string;
     EvExists (path_div (parent (w_file w)) "requirements.txt");
     EvCheckCall [w_executable w; "-m"; "pip"; "install"; "-r";
                  path_str (path_div (parent (w_file w)) "requirements.txt")];
     EvPrint ("✅ 依赖安装完成" ++ nl)%string].
Proof.
  intros Hex Hpip.
  destruct (install_dependencies_observed w s) as [Hout Htr].
  rewrite Hout, Htr. unfold install_result, pip_argv, requirements_path.
  rewrite Hex, Hpip. split; reflexivity.
Qed.

Lemma install_dependencies_success_witness :
  outcome (call (install_dependencies healthy_world)) state0 =
    Norm (PBool true).
Proof.
  exact (proj1 (install_dependencies_success healthy_world state0
                  eq_refl eq_refl)).
Defined.

(** X2: when pip fails, the installer returns False after one console line
    that depends on the kind of failure: "依赖安装失败" for a
    [CalledProcessError] (nonzero exit status), "安装错误" for any other
    [Exception] (for instance the interpreter could not be started); the
    exception does not leave the installer. *)
Theorem install_dependencies_pip_failure (w : World) (s : pstate) (e : exn) :
  w_exists w (path_div (parent (w_file w)) "requirements.txt") = true ->
  w_check_call w [w_executable w; "-m"; "pip"; "install"; "-r";
                  path_str (path_div (parent (w_file w)) "requirements.txt")]
    = Some e ->
  isinstance e Exception = true ->
  outcome (call (install_dependencies w)) s = Norm (PBool false) /\
  trace (install_dependencies w) s =
    [EvPrint ("正在安装依赖..." ++ nl)%string;
     EvExists (path_div (parent (w_file w)) "requirements.txt");
     EvCheckCall [w_executable w; "-m"; "pip"; "install"; "-r";
                  path_str (path_div (parent (w_file w)) "requirements.txt")];
     EvPrint ((if isinstance e CalledProcessError
               then "❌ 依赖安装失败: " else "❌ 安装错误: ")
              ++ exn_str e ++ nl)%string].
Proof.
  intros Hex Hpip Hcls.
  destruct (install_dependencies_observed w s) as [Hout Htr].
  rewrite Hout, Htr. unfold install_result, pip_argv, requirements_path.
  rewrite Hex, Hpip. cbn [negb].
  destruct (isinstance e CalledProcessError); [split; reflexivity|].
  rewrite Hcls. split; reflexivity.
Qed.

Lemma install_dependencies_pip_failure_witness :
  outcome (call (install_dependencies world_pip_fails)) state0 =
    Norm (PBool false).
Proof.
  exact (proj1 (install_dependencies_pip_failure world_pip_fails state0 _
                  eq_refl eq_refl eq_refl)).
Defined.

(** X3: on every path, the installer returns True exactly when the manifest
    exists and pip exited normally; an exception leaves it only if it is not
    an [Exception] (such as KeyboardInterrupt while pip runs); and pip is
    started at most once, never without the manifest. *)
Theorem install_dependencies_result (w : World) (s : pstate) :
  (outcome (call (install_dependencies w)) s = Norm (PBool true) <->
   w_exists w (requirements_path w) = true /\
   w_check_call w (pip_argv w) = None) /\
  (forall e, outcome (call (install_dependencies w)) s = Exn e ->
             isinstance e Exception = false /\
             w_check_call w (pip_argv w) = Some e) /\
  filter is_check_call (trace (install_dependencies w) s) =
    if w_exists w (requirements_path w) then [EvCheckCall (pip_argv w)] else [].
Proof.
  destruct (install_dependencies_observed w s) as [Hout Htr].
  rewrite Hout, Htr. unfold install_result.
  destruct (w_exists w (requirements_path w)); cbn [negb].
  2: { repeat split; try discriminate. intros [H _]. discriminate. }
  destruct (w_check_call w (pip_argv w)) as [e|].
  2: { repeat split; try discriminate. }
  destruct (isinstance e CalledProcessError) eqn:Hcp.
  { repeat split; try discriminate. intros [_ H]. discriminate. }
  destruct (isinstance e Exception) eqn:Hex.
  { repeat split; try discriminate. intros [_ H]. discriminate. }
  repeat split; try discriminate.
  - intros [_ H]. discriminate.
  - cbn in H. now inversion H; subst.
  - cbn in H. now inversion H; subst.
Qed.

(** ** Imports that fail with something else than ImportError *)

Lemma check_loop_propagates (w : World) (pre : list string) (p : string)
  (post : list string) (e : exn) :
  imports_present_or_missing w pre = true ->
  w_import w p = Some e ->
  isinstance e ImportError = false ->
  forall (acc : list string) (s : pstate),
    for_each (pre ++ p :: post) (check_one w) acc s =
      (Exn e, add_log s (map EvImport (pre ++ [p]))).
Proof.
  intros Hpre Hp Hcls. induction pre as [|n pre IH]; intros acc s.
  - cbn [app for_each map]. unfold bind at 1.
    unfold check_one, try_except, bind, py_import, emit, lift, unit_result,
      raise, ret.
    rewrite Hp. cbn -[isinstance]. now rewrite Hcls.
  - apply imports_present_or_missing_cons in Hpre. destruct Hpre as [Hn Hrest].
    cbn [app for_each map]. unfold bind at 1.
    unfold check_one, try_except, bind, py_import, emit, lift, unit_result,
      raise, ret.
    destruct (w_import w n) as [e'|]; cbn -[isinstance].
    + rewrite Hn. rewrite (IH Hrest). now rewrite add_log_app.
    + rewrite (IH Hrest). now rewrite add_log_app.
Qed.

(** X4: the verifier only treats [ImportError] as "missing". When importing
    one of the required packages raises anything else (a package that is
    installed but broken), the verifier lets that exception through at once:
    the packages after it are not imported and nothing is printed. *)
Theorem check_dependencies_propagates_other_errors (w : World) (s : pstate)
  (pre : list string) (p : string) (post : list string) (e : exn) :
  required_packages = pre ++ p :: post ->
  imports_present_or_missing w pre = true ->
  w_import w p = Some e ->
  isinstance e ImportError = false ->
  outcome (call (check_dependencies w)) s = Exn e /\
  trace (check_dependencies w) s = map EvImport (pre ++ [p]).
Proof.
  intros Hsplit Hpre Hp Hcls.
  assert (Hrun : check_dependencies w s =
                 (Exn e, add_log s (map EvImport (pre ++ [p])))).
  { unfold check_dependencies. unfold bind at 1. rewrite Hsplit.
    now rewrite (check_loop_propagates w pre p post e Hpre Hp Hcls [] s). }
  split.
  - unfold outcome, call. now rewrite Hrun.
  - apply trace_of_log. now rewrite Hrun.
Qed.

Lemma check_dependencies_propagates_other_errors_witness :
  outcome (call (check_dependencies world_pandas_broken)) state0 =
    Exn (mkExn ValueError
           "numpy.dtype size changed, may indicate binary incompatibility") /\
  trace (check_dependencies world_pandas_broken) state0 =
    [EvImport "flask"; EvImport "flask_cors"; EvImport "pandas"].
Proof.
  exact (check_dependencies_propagates_other_errors world_pandas_broken state0
           ["flask"; "flask_cors"] "pandas" ["numpy"; "plotly"] _
           eq_refl eq_refl eq_refl eq_refl).
Defined.

(** ** The probe when the connection attempt raises *)

(** X5: when [connect_ex] itself raises (for instance the host name cannot
    be resolved), the probe reports the port as unavailable, and the socket
    it created is not closed: the probe's interactions end with the
    connection attempt. *)
Theorem check_port_availability_connect_raises (w : World) (host : string)
  (port : Z) (s : pstate) (e : sock_error) :
  w_socket w = None ->
  w_connect_ex w host port = inl e ->
  outcome (call (check_port_availability w host port)) s = Norm (PBool false) /\
  trace (check_port_availability w host port) s =
    [EvSocket; EvConnectEx host port].
Proof.
  intros Hsock Hconn.
  pose proof (check_port_availability_run w host port s) as Hrun.
  unfold observed_available, probe_events in Hrun.
  rewrite Hsock, Hconn in Hrun. split.
  - exact (proj2 (trace_of_run _ _ _ _ (call_run _ _ _ _ Hrun))).
  - exact (proj1 (trace_of_run _ _ _ _ Hrun)).
Qed.

Lemma check_port_availability_connect_raises_witness :
  outcome (call (check_port_availability world_unresolvable_host "localhost" 7070))
          state0 = Norm (PBool false).
Proof.
  exact (proj1 (check_port_availability_connect_raises
                  world_unresolvable_host "localhost" 7070 state0 _
                  eq_refl eq_refl)).
Defined.

(** ** The operator's answer *)

Lemma lower_ascii_y (c : ascii) :
  lower_ascii c = "y"%char -> c = "y"%char \/ c = "Y"%char.
Proof.
  destruct c as [[] [] [] [] [] [] [] []]; cbn; intros H;
    try discriminate H; auto.
Qed.

(** The comparison [input().lower() == 'y'] of line 92 holds for exactly
    two answers. *)
Lemma lower_is_y (answer : string) :
  String.eqb (lower answer) "y" = true <-> answer = "y" \/ answer = "Y".
Proof.
  split.
  - intros H. apply String.eqb_eq in H.
    destruct answer as [|c [|c' rest]]; cbn in H; try discriminate H.
    inversion H as [Hc]. destruct (lower_ascii_y c Hc) as [-> | ->]; auto.
  - intros [-> | ->]; reflexivity.
Qed.

(** ** Accepting the installation *)

Lemma install_result_returns (w : World) :
  (exists b, fst (install_result w) = Retn (PBool b)) \/
  (exists e, fst (install_result w) = Exn e).
Proof.
  unfold install_result. cbv zeta.
  destruct (negb (w_exists w (requirements_path w)));
    [left; eexists; reflexivity|].
  destruct (w_check_call w (pip_argv w)) as [e|];
    [|left; eexists; reflexivity].
  destruct (isinstance e CalledProcessError); [left; eexists; reflexivity|].
  destruct (isinstance e Exception);
    [left; eexists; reflexivity | right; eexists; reflexivity].
Qed.

Lemma main_dependencies_accepted (w : World) (s : pstate) (answer : string) :
  imports_present_or_missing w required_packages = true ->
  unresolved w required_packages <> [] ->
  w_input w = inr answer ->
  String.eqb (lower answer) "y" = true ->
  main_dependencies w s =
    (after_install (fst (install_result w)),
     add_log s
       (map EvImport required_packages ++
        [EvPrint ("❌ 缺少依赖: " ++ join ", " (unresolved w required_packages) ++ nl)%string;
         EvPrint ("请运行: pip install -r requirements.txt" ++ nl)%string;
         EvPrint (nl ++ "自动安装依赖? (y/n): ")%string;
         EvInput] ++
        snd (install_result w))).
Proof.
  intros Hok Hmissing Hinput Haccept.
  unfold main_dependencies.
  rewrite (bind_run_norm _ _ _ _ _
             (call_run _ _ _ _ (check_dependencies_run w s Hok))).
  destruct (unresolved w required_packages) as [|m ms]; [congruence|].
  cbn [truthy negb].
  unfold bind at 1. unfold print_end at 1, emit.
  unfold bind at 1. unfold py_input, bind at 1, emit, lift, ret.
  rewrite Hinput. rewrite Haccept.
  unfold bind, call. rewrite install_dependencies_run.
  rewrite !add_log_app, <- !app_assoc.
  destruct (install_result_returns w) as [[b Hb] | [e He]].
  - rewrite Hb. destruct b; reflexivity.
  - rewrite He. reflexivity.
Qed.

Lemma main_banner_run (w : World) (s : pstate) (r : res unit)
  (evs : list event) :
  (forall s1, main_dependencies w s1 = (r, add_log s1 evs)) ->
  main_until_dependencies w s =
    (r, add_log s
          ([EvPrint ("🚀 正在启动 Kronos Web UI..." ++ nl)%string;
            EvPrint (str_repeat "=" 50 ++ nl)%string;
            EvPrint ("工作目录: " ++ path_str (parent (w_file w)) ++ nl)%string] ++
           evs)).
Proof.
  intros Hdeps. unfold main_until_dependencies.
  unfold bind at 1. unfold print at 1, print_end, emit.
  unfold bind at 1. unfold print at 1, print_end, emit.
  unfold bind at 1. unfold print at 1, print_end, emit.
  rewrite Hdeps. rewrite !add_log_app. reflexivity.
Qed.

Lemma main_stops_with_dependencies (w : World) (s s1 : pstate) (r : res unit) :
  main_until_dependencies w s = (r, s1) ->
  (forall a, r <> Norm a) ->
  main w s = (r, s1).
Proof.
  intros Hrun Hr. rewrite main_split_at_model. unfold bind at 1.
  rewrite Hrun. destruct r as [a|v|e]; [now destruct (Hr a) | | ]; reflexivity.
Qed.

(** X6: when dependencies are missing, the operator answers "y" or "Y" and
    the installer reports failure (no manifest, or pip failed), [main]
    returns right after the installer: its run is the banner, the imports,
    the report, the question, the answer and the installer's own
    interactions. The model library is not probed, no port is probed and
    nothing is launched. *)
Theorem failed_install_aborts (w : World) (s : pstate) (answer : string) :
  imports_present_or_missing w required_packages = true ->
  unresolved w required_packages <> [] ->
  w_input w = inr answer ->
  answer = "y" \/ answer = "Y" ->
  outcome (call (install_dependencies w)) s = Norm (PBool false) ->
  outcome (main w) s = Retn PNone /\
  trace (main w) s =
    [EvPrint ("🚀 正在启动 Kronos Web UI..." ++ nl)%string;
     EvPrint (str_repeat "=" 50 ++ nl)%string;
     EvPrint ("工作目录: " ++ path_str (parent (w_file w)) ++ nl)%string] ++
    map EvImport required_packages ++
    [EvPrint ("❌ 缺少依赖: " ++ join ", " (unresolved w required_packages) ++ nl)%string;
     EvPrint ("请运行: pip install -r requirements.txt" ++ nl)%string;
     EvPrint (nl ++ "自动安装依赖? (y/n): ")%string;
     EvInput] ++
    trace (install_dependencies w) s /\
  (forall ev, In ev (trace (main w) s) ->
              ev <> EvImportModel /\ is_socket_event ev = false /\
              is_launch_event ev = false).
Proof.
  intros Hok Hmissing Hinput Hanswer Hfail.
  apply lower_is_y in Hanswer.
  destruct (install_dependencies_observed w s) as [Hout Htr].
  rewrite Hout in Hfail.
  assert (Hres : after_install (fst (install_result w)) = Retn PNone).
  { destruct (fst (install_result w)) as [a|v|e]; cbn in Hfail;
      inversion Hfail; subst; reflexivity. }
  pose proof (main_banner_run w s _ _
                (fun s1 => main_dependencies_accepted w s1 answer
                             Hok Hmissing Hinput Hanswer)) as Hrun.
  rewrite Hres in Hrun.
  apply main_stops_with_dependencies in Hrun; [|intros a H; discriminate H].
  destruct (trace_of_run _ _ _ _ Hrun) as [Htrace Hmain].
  split; [exact Hmain|]. rewrite Htr.
  split; [rewrite Htrace, <- ?app_assoc; reflexivity|].
  intros ev Hin. rewrite Htrace in Hin.
  assert (Hdep : is_dependency_event ev = true \/ is_print ev = true).
  { apply in_app_or in Hin. destruct Hin as [Hin|Hin].
    { in_cases Hin; subst ev; right; reflexivity. }
    apply in_app_or in Hin. destruct Hin as [Hin|Hin].
    { apply in_map_iff in Hin. destruct Hin as [n [<- _]]. left; reflexivity. }
    apply in_app_or in Hin. destruct Hin as [Hin|Hin].
    { in_cases Hin; subst ev; (left; reflexivity) || (right; reflexivity). }
    revert Hin. unfold install_result.
    destruct (negb (w_exists w (requirements_path w))).
    { cbn. intros Hin. in_cases Hin; subst ev;
        (left; reflexivity) || (right; reflexivity). }
    destruct (w_check_call w (pip_argv w)) as [e|];
      [destruct (isinstance e CalledProcessError);
       [|destruct (isinstance e Exception)]|];
      cbn; intros Hin; in_cases Hin; subst ev;
      (left; reflexivity) || (right; reflexivity). }
  destruct ev; destruct Hdep as [H|H]; try discriminate H;
    repeat split; discriminate.
Qed.

Lemma failed_install_aborts_witness :
  unresolved world_pip_fails required_packages = ["plotly"] /\
  w_input world_pip_fails = inr "Y" /\
  outcome (main world_pip_fails) state0 = Retn PNone.
Proof.
  split; [reflexivity|]. split; [reflexivity|].
  refine (proj1 (failed_install_aborts world_pip_fails state0 "Y"
                   eq_refl _ eq_refl (or_intror eq_refl) eq_refl)).
  vm_compute. discriminate.
Defined.

Lemma main_split_from_model (w : World) (s : pstate) :
  main w s = (main_until_dependencies w ;; main_from_model w) s.
Proof. apply main_split_at_model. Qed.

Lemma main_from_model_emits (w : World) :
  emits (fun ev => negb (is_dependency_only ev)) (main_from_model w).
Proof. unfold main_from_model, main_launch. prove_emits. Qed.

(** The capability probe always begins by putting the project root on
    [sys.path] and attempting the import. *)
Lemma main_model_starts (w : World) (current_dir : Path) (s : pstate) :
  exists tail,
    log (snd (main_model w current_dir s)) =
      log s ++ EvSysPathInsert (path_str (parent current_dir))
            :: EvImportModel :: tail.
Proof.
  unfold main_model, try_except, bind, sys_path_insert, import_model, print,
    print_end, emit, lift, unit_result, raise, ret, select_handler.
  cbn -[isinstance String.append].
  destruct (w_import_model w) as [e|]; cbn -[isinstance String.append].
  - destruct (isinstance e ImportError); cbn -[isinstance String.append];
      rewrite <- ?app_assoc; eexists; reflexivity.
  - rewrite <- ?app_assoc; eexists; reflexivity.
Qed.

Lemma main_from_model_starts (w : World) (s : pstate) :
  exists post,
    log (snd (main_from_model w s)) =
      log s ++ EvSysPathInsert (path_str (parent (parent (w_file w))))
            :: EvImportModel :: post.
Proof.
  destruct (main_model_starts w (parent (w_file w)) s) as [tail Htail].
  unfold main_from_model. unfold bind at 1.
  destruct (main_model w (parent (w_file w)) s) as [[m|v|e] s1];
    cbn [snd] in *; try (now exists tail).
  assert (Hrest : emits (fun _ => true)
            (app_file <- main_app_file w ;;
             port <- main_port w ;;
             main_launch w (parent (w_file w)) app_file port)).
  { unfold main_launch. prove_emits. }
  destruct (Hrest s1) as [evs [Hlog _]].
  exists (tail ++ evs). rewrite Hlog, Htail, <- app_assoc. reflexivity.
Qed.

Lemma filter_is_import_map (names : list string) :
  filter is_import (map EvImport names) = map EvImport names.
Proof. induction names as [|n names IH]; cbn; [reflexivity | now rewrite IH]. Qed.

Lemma filter_none {X} (f g : X -> bool) (l : list X) :
  forallb g l = true -> (forall x, g x = true -> f x = false) ->
  filter f l = [].
Proof.
  intros Hl Hfg. induction l as [|x l IH]; [reflexivity|].
  cbn in *. apply andb_true_iff in Hl. destruct Hl as [Hx Hl].
  rewrite (Hfg x Hx). now apply IH.
Qed.

(** X7: when dependencies are missing, the operator answers "y" or "Y" and
    the installer returns True, [main] goes on with the capability probe
    without verifying the dependencies again: over the whole run, each
    required package is imported exactly once, before the installation. *)
Theorem successful_install_is_not_reverified (w : World) (s : pstate)
  (answer : string) :
  imports_present_or_missing w required_packages = true ->
  unresolved w required_packages <> [] ->
  w_input w = inr answer ->
  answer = "y" \/ answer = "Y" ->
  outcome (call (install_dependencies w)) s = Norm (PBool true) ->
  filter is_import (trace (main w) s) = map EvImport required_packages /\
  exists post,
    trace (main w) s =
      [EvPrint ("🚀 正在启动 Kronos Web UI..." ++ nl)%string;
       EvPrint (str_repeat "=" 50 ++ nl)%string;
       EvPrint ("工作目录: " ++ path_str (parent (w_file w)) ++ nl)%string] ++
      map EvImport required_packages ++
      [EvPrint ("❌ 缺少依赖: " ++ join ", " (unresolved w required_packages) ++ nl)%string;
       EvPrint ("请运行: pip install -r requirements.txt" ++ nl)%string;
       EvPrint (nl ++ "自动安装依赖? (y/n): ")%string;
       EvInput] ++
      trace (install_dependencies w) s ++
      [EvSysPathInsert (path_str (parent (parent (w_file w))));
       EvImportModel] ++ post /\
    forallb (fun ev => negb (is_dependency_only ev)) post = true.
Proof.
  intros Hok Hmissing Hinput Hanswer Hdone.
  apply lower_is_y in Hanswer.
  destruct (install_dependencies_observed w s) as [Hout Htr].
  rewrite Hout in Hdone.
  assert (Hinst : exists evs, install_result w = (Retn (PBool true), evs) /\
                              filter is_import evs = []).
  { revert Hdone. unfold install_result. cbv zeta.
    destruct (negb (w_exists w (requirements_path w))); [discriminate|].
    destruct (w_check_call w (pip_argv w)) as [e|].
    - destruct (isinstance e CalledProcessError); [discriminate|].
      destruct (isinstance e Exception); discriminate.
    - intros _. eexists. split; reflexivity. }
  destruct Hinst as [ievs [Hinst Hnoimp]].
  pose proof (main_banner_run w s _ _
                (fun s1 => main_dependencies_accepted w s1 answer
                             Hok Hmissing Hinput Hanswer)) as Hrun.
  rewrite Htr. rewrite Hinst in *. cbn [fst snd after_install] in *.
  pose proof (main_split_from_model w s) as Hmain.
  unfold bind at 1 in Hmain. rewrite Hrun in Hmain.
  match type of Hmain with
  | _ = main_from_model w ?s1 =>
      destruct (main_from_model_emits w s1) as [evs [Hlog Hevs]];
      destruct (main_from_model_starts w s1) as [post Hstart]
  end.
  rewrite Hstart in Hlog. apply app_inv_head in Hlog. subst evs.
  assert (Htrace : trace (main w) s =
    ([EvPrint ("🚀 正在启动 Kronos Web UI..." ++ nl)%string;
      EvPrint (str_repeat "=" 50 ++ nl)%string;
      EvPrint ("工作目录: " ++ path_str (parent (w_file w)) ++ nl)%string] ++
     map EvImport required_packages ++
     [EvPrint ("❌ 缺少依赖: " ++ join ", " (unresolved w required_packages) ++ nl)%string;
      EvPrint ("请运行: pip install -r requirements.txt" ++ nl)%string;
      EvPrint (nl ++ "自动安装依赖? (y/n): ")%string;
      EvInput] ++ ievs) ++
    EvSysPathInsert (path_str (parent (parent (w_file w))))
      :: EvImportModel :: post).
  { apply trace_of_log. rewrite Hmain, Hstart. cbn [log add_log].
    now rewrite <- !app_assoc. }
  split.
  - rewrite Htrace. rewrite !filter_app, filter_is_import_map, Hnoimp.
    rewrite (filter_none is_import _ _ Hevs).
    + cbn. rewrite ?app_nil_r. reflexivity.
    + intros ev Hev. destruct ev; try reflexivity; discriminate Hev.
  - exists post. split.
    + rewrite Htrace, <- !app_assoc. reflexivity.
    + cbn in Hevs. exact Hevs.
Qed.

Lemma successful_install_is_not_reverified_witness :
  unresolved world_install_accepted required_packages = ["plotly"] /\
  filter is_import (trace (main world_install_accepted) state0) =
    map EvImport required_packages.
Proof.
  split; [reflexivity|].
  refine (proj1 (successful_install_is_not_reverified
                   world_install_accepted state0 "y"
                   eq_refl _ eq_refl (or_introl eq_refl) eq_refl)).
  vm_compute. discriminate.
Defined.

(** ** The dependency phase on every path *)

Lemma scan_imports_run (w : World) (names : list string) :
  forall (acc : list string) (s : pstate),
    for_each names (check_one w) acc s =
      (fst (scan_imports w names acc), add_log s (snd (scan_imports w names acc))).
Proof.
  induction names as [|n names IH]; intros acc s.
  - cbn. unfold ret. now rewrite add_log_nil.
  - cbn [for_each scan_imports]. unfold bind at 1.
    unfold check_one, try_except, bind, py_import, emit, lift, unit_result,
      raise, ret.
    destruct (w_import w n) as [e|]; cbn -[isinstance scan_imports].
    + destruct (isinstance e ImportError); cbn -[isinstance scan_imports].
      * rewrite IH. now rewrite add_log_app.
      * reflexivity.
    + rewrite IH. now rewrite add_log_app.
Qed.

Lemma check_dependencies_run_general (w : World) (s : pstate) :
  check_dependencies w s =
    (fst (verifier_result w), add_log s (snd (verifier_result w))).
Proof.
  unfold check_dependencies, verifier_result. unfold bind at 1.
  rewrite scan_imports_run.
  destruct (fst (scan_imports w required_packages [])) as [[|m ms]|v|e];
    try reflexivity.
  - cbn [truthy]. unfold bind, print, print_end, emit, return_.
    now rewrite !add_log_app.
  - cbn [truthy]. unfold bind, print, print_end, emit, return_.
    rewrite !add_log_app. reflexivity.
Qed.

Lemma main_dependencies_run (w : World) (s : pstate) :
  main_dependencies w s =
    (fst (dependencies_result w), add_log s (snd (dependencies_result w))).
Proof.
  unfold main_dependencies, dependencies_result.
  unfold bind at 1. unfold call at 1. rewrite check_dependencies_run_general.
  destruct (fst (verifier_result w)) as [a|v|e]; cbn [returned]; try reflexivity.
  - cbn [truthy negb]. unfold bind at 1. unfold print_end at 1, emit.
    unfold bind at 1. unfold py_input, bind at 1, emit, lift, ret, raise.
    destruct (w_input w) as [e|answer]; [now rewrite !add_log_app|].
    destruct (String.eqb (lower answer) "y").
    + unfold bind, call. rewrite install_dependencies_run.
      rewrite !add_log_app, <- !app_assoc.
      destruct (install_result_returns w) as [[b Hb] | [e He]].
      * rewrite Hb. destruct b; reflexivity.
      * rewrite He. reflexivity.
    + unfold bind, print, print_end, emit, return_.
      rewrite !add_log_app, <- !app_assoc. reflexivity.
  - destruct (truthy v); cbn [negb]; [reflexivity|].
    unfold bind at 1. unfold print_end at 1, emit.
    unfold bind at 1. unfold py_input, bind at 1, emit, lift, ret, raise.
    destruct (w_input w) as [e|answer]; [now rewrite !add_log_app|].
    destruct (String.eqb (lower answer) "y").
    + unfold bind, call. rewrite install_dependencies_run.
      rewrite !add_log_app, <- !app_assoc.
      destruct (install_result_returns w) as [[b Hb] | [e He]].
      * rewrite Hb. destruct b; reflexivity.
      * rewrite He. reflexivity.
    + unfold bind, print, print_end, emit, return_.
      rewrite !add_log_app, <- !app_assoc. reflexivity.
Qed.

Lemma scan_imports_events (w : World) (names : list string) :
  forall acc, forallb is_import (snd (scan_imports w names acc)) = true.
Proof.
  induction names as [|n names IH]; intros acc; [reflexivity|].
  cbn [scan_imports]. destruct (w_import w n) as [e|].
  - destruct (isinstance e ImportError); cbn; [apply IH | reflexivity].
  - cbn. apply IH.
Qed.

Lemma scan_imports_collects (w : World) (names : list string) :
  forall acc l,
    fst (scan_imports w names acc) = Norm l ->
    exists l', l = acc ++ l' /\
      forall n, In n l' ->
        In n names /\
        exists e, w_import w n = Some e /\ isinstance e ImportError = true.
Proof.
  induction names as [|n names IH]; intros acc l H.
  - cbn in H. inversion H; subst. exists []. split; [now rewrite app_nil_r|].
    intros n [].
  - cbn [scan_imports] in H. destruct (w_import w n) as [e|] eqn:Hn.
    + destruct (isinstance e ImportError) eqn:Hcls; [|discriminate H].
      cbn [fst] in H. destruct (IH _ _ H) as [l' [-> Hl']].
      exists (n :: l'). split; [now rewrite <- app_assoc|].
      intros m [<- | Hm].
      * split; [now left|]. now exists e.
      * destruct (Hl' m Hm) as [Hin Hex]. split; [now right | exact Hex].
    + cbn [fst] in H. destruct (IH _ _ H) as [l' [-> Hl']].
      exists l'. split; [reflexivity|].
      intros m Hm. destruct (Hl' m Hm) as [Hin Hex].
      split; [now right | exact Hex].
Qed.

(** The verifier reports failure only when some required package is
    missing. *)
Lemma verifier_result_false (w : World) (v : pyval) :
  fst (verifier_result w) = Retn v -> truthy v = false ->
  exists n e, In n required_packages /\ w_import w n = Some e /\
              isinstance e ImportError = true.
Proof.
  unfold verifier_result.
  destruct (fst (scan_imports w required_packages [])) as [[|m ms]|v'|e] eqn:Hscan;
    cbn [fst]; intros Hv Hfalse.
  - inversion Hv; subst. discriminate Hfalse.
  - destruct (scan_imports_collects w _ _ _ Hscan) as [l' [Hl Hl']].
    cbn [app] in Hl. subst l'.
    destruct (Hl' m (or_introl eq_refl)) as [Hin [e [He Hcls]]].
    now exists m, e.
  - exfalso. clear Hv Hfalse. revert Hscan. generalize (@nil string).
    induction required_packages as [|n names IH]; intros acc; [discriminate|].
    cbn [scan_imports]. destruct (w_import w n) as [e|].
    + destruct (isinstance e ImportError); [apply IH | discriminate].
    + apply IH.
  - discriminate Hv.
Qed.

Lemma verifier_result_events (w : World) (ev : event) :
  In ev (snd (verifier_result w)) -> is_import ev = true \/ is_print ev = true.
Proof.
  unfold verifier_result.
  pose proof (scan_imports_events w required_packages []) as Hscan.
  destruct (fst (scan_imports w required_packages [])) as [[|m ms]|v|e];
    cbn [snd]; intros Hin;
    try (left; exact (forallb_In _ _ _ Hscan Hin));
    apply in_app_or in Hin; destruct Hin as [Hin|Hin];
    try (left; exact (forallb_In _ _ _ Hscan Hin));
    in_cases Hin; subst ev; right; reflexivity.
Qed.

(** Where the question to the operator and the pip run can come from. *)
Lemma dependencies_result_consent (w : World) :
  (In EvInput (snd (dependencies_result w)) ->
   exists n e, In n required_packages /\ w_import w n = Some e /\
               isinstance e ImportError = true) /\
  (forall argv, In (EvCheckCall argv) (snd (dependencies_result w)) ->
     In EvInput (snd (dependencies_result w)) /\
     (w_input w = inr "y" \/ w_input w = inr "Y") /\
     w_exists w (requirements_path w) = true /\
     argv = pip_argv w).
Proof.
  assert (Hnot : forall ev, In ev (snd (verifier_result w)) ->
                 ev <> EvInput /\ forall argv, ev <> EvCheckCall argv).
  { intros ev Hin. apply verifier_result_events in Hin.
    destruct ev; destruct Hin as [H|H]; try discriminate H;
      (split; [intros Heq; discriminate Heq
              | intros argv Heq; discriminate Heq]). }
  unfold dependencies_result.
  destruct (fst (verifier_result w)) as [a|v|e] eqn:Hver; cbn [returned].
  { exfalso. revert Hver. unfold verifier_result.
    destruct (fst (scan_imports w required_packages [])) as [[|m ms]|v'|e'];
      discriminate. }
  2: { cbn [snd]. split.
       - intros Hin. now destruct (proj1 (Hnot _ Hin)).
       - intros argv Hin. now destruct (proj2 (Hnot _ Hin) argv). }
  destruct (truthy v) eqn:Htruthy; cbn [negb].
  { cbn [snd]. split.
    - intros Hin. now destruct (proj1 (Hnot _ Hin)).
    - intros argv Hin. now destruct (proj2 (Hnot _ Hin) argv). }
  pose proof (verifier_result_false w v Hver Htruthy) as Hmissing.
  cbv zeta. split; [intros _; exact Hmissing|].
  intros argv Hin.
  destruct (w_input w) as [e|answer] eqn:Hinput; cbn [snd] in *.
  { exfalso. apply in_app_or in Hin. destruct Hin as [Hin|Hin].
    - now destruct (proj2 (Hnot _ Hin) argv).
    - in_cases Hin. }
  destruct (String.eqb (lower answer) "y") eqn:Hans; cbn [snd] in *.
  2: { exfalso. apply in_app_or in Hin. destruct Hin as [Hin|Hin].
       - apply in_app_or in Hin. destruct Hin as [Hin|Hin].
         + now destruct (proj2 (Hnot _ Hin) argv).
         + in_cases Hin.
       - in_cases Hin. }
  apply lower_is_y in Hans.
  split.
  { apply in_or_app. left. apply in_or_app. right. cbn. tauto. }
  split; [destruct Hans as [-> | ->]; auto|].
  apply in_app_or in Hin. destruct Hin as [Hin|Hin].
  { exfalso. apply in_app_or in Hin. destruct Hin as [Hin|Hin].
    - now destruct (proj2 (Hnot _ Hin) argv).
    - in_cases Hin. }
  revert Hin. unfold install_result. cbv zeta.
  destruct (w_exists w (requirements_path w)); cbn [negb].
  2: { cbn. intros Hin. exfalso. in_cases Hin. }
  destruct (w_check_call w (pip_argv w)) as [e|];
    [destruct (isinstance e CalledProcessError);
     [|destruct (isinstance e Exception)]|];
    cbn [snd app]; intros Hin; split; try reflexivity;
    (assert (Heq : EvCheckCall (pip_argv w) = EvCheckCall argv)
       by (in_cases Hin; exact Hin));
    now inversion Heq.
Qed.

(** How a run of [main] is made of the banner, the dependency phase and the
    rest. *)
Lemma main_run_dependencies (w : World) (s : pstate) :
  exists rest,
    trace (main w) s =
      [EvPrint ("🚀 正在启动 Kronos Web UI..." ++ nl)%string;
       EvPrint (str_repeat "=" 50 ++ nl)%string;
       EvPrint ("工作目录: " ++ path_str (parent (w_file w)) ++ nl)%string] ++
      snd (dependencies_result w) ++ rest /\
    forallb (fun ev => negb (is_dependency_only ev)) rest = true /\
    ((forall a, fst (dependencies_result w) <> Norm a) ->
     rest = [] /\ outcome (main w) s = fst (dependencies_result w)).
Proof.
  pose proof (main_banner_run w s _ _ (main_dependencies_run w)) as Hrun.
  pose proof (main_split_from_model w s) as Hmain.
  unfold bind at 1 in Hmain. rewrite Hrun in Hmain.
  destruct (fst (dependencies_result w)) as [[]|v|e] eqn:Hres.
  - match type of Hmain with
    | _ = main_from_model w ?s1 =>
        destruct (main_from_model_emits w s1) as [evs [Hlog Hevs]]
    end.
    exists evs. split; [|split; [exact Hevs|]].
    + apply trace_of_log. rewrite Hmain, Hlog. cbn [log add_log].
      now rewrite <- !app_assoc.
    + intros H. now destruct (H tt).
  - exists []. split; [|split; [reflexivity|]].
    + apply trace_of_log. rewrite Hmain. cbn [snd log add_log].
      now rewrite app_nil_r.
    + intros _. split; [reflexivity|]. unfold outcome. now rewrite Hmain.
  - exists []. split; [|split; [reflexivity|]].
    + apply trace_of_log. rewrite Hmain. cbn [snd log add_log].
      now rewrite app_nil_r.
    + intros _. split; [reflexivity|]. unfold outcome. now rewrite Hmain.
Qed.

(** X8: in no run of [main] is pip started without the operator's consent.
    Whenever [subprocess.check_call] is invoked, a required package was
    missing, the operator was asked and answered exactly "y" or "Y", the
    manifest exists, and the command is
    [sys.executable -m pip install -r <manifest>]. The operator is only ever
    asked when a required package is missing. *)
Theorem pip_only_with_consent (w : World) (s : pstate) :
  (In EvInput (trace (main w) s) ->
   exists n e, In n required_packages /\ w_import w n = Some e /\
               isinstance e ImportError = true) /\
  (forall argv, In (EvCheckCall argv) (trace (main w) s) ->
     In EvInput (trace (main w) s) /\
     (w_input w = inr "y" \/ w_input w = inr "Y") /\
     w_exists w (path_div (parent (w_file w)) "requirements.txt") = true /\
     argv = [w_executable w; "-m"; "pip"; "install"; "-r";
             path_str (path_div (parent (w_file w)) "requirements.txt")]).
Proof.
  destruct (main_run_dependencies w s) as [rest [Htrace [Hrest _]]].
  destruct (dependencies_result_consent w) as [Hask Hpip].
  assert (Hdeps : forall ev, is_dependency_only ev = true ->
                  In ev (trace (main w) s) ->
                  In ev (snd (dependencies_result w))).
  { intros ev Hev Hin. rewrite Htrace in Hin.
    apply in_app_or in Hin. destruct Hin as [Hin|Hin].
    { in_cases Hin; subst ev; discriminate Hev. }
    apply in_app_or in Hin. destruct Hin as [Hin|Hin]; [exact Hin|].
    pose proof (forallb_In _ _ _ Hrest Hin) as H. cbn beta in H.
    rewrite Hev in H. discriminate H. }
  split.
  - intros Hin. apply Hask. now apply Hdeps.
  - intros argv Hin. apply (Hdeps (EvCheckCall argv) eq_refl) in Hin.
    destruct (Hpip argv Hin) as (Hinput & Hans & Hex & Hargv).
    split; [|now repeat split].
    rewrite Htrace. apply in_or_app. right. apply in_or_app. now left.
Qed.

Lemma pip_only_with_consent_witness :
  In (EvCheckCall ["/usr/bin/python3"; "-m"; "pip"; "install"; "-r";
                   "/srv/kronos/webui/requirements.txt"])
     (trace (main world_install_accepted) state0) /\
  w_input world_install_accepted = inr "y".
Proof.
  assert (Hin : In (EvCheckCall ["/usr/bin/python3"; "-m"; "pip"; "install";
                                 "-r"; "/srv/kronos/webui/requirements.txt"])
                   (trace (main world_install_accepted) state0)).
  { vm_compute. tauto. }
  split; [exact Hin|].
  destruct (proj2 (pip_only_with_consent world_install_accepted state0) _ Hin)
    as (_ & [Hy | HY] & _).
  - exact Hy.
  - discriminate HY.
Defined.

(** ** Rules for computations that leave the process alone *)

Lemma same_process_refl (s : pstate) : same_process s s.
Proof. split; reflexivity. Qed.

Lemma same_process_trans (s1 s2 s3 : pstate) :
  same_process s1 s2 -> same_process s2 s3 -> same_process s1 s3.
Proof. intros [H1 H2] [H3 H4]. split; congruence. Qed.

Lemma same_process_add_log (s : pstate) (evs : list event) :
  same_process s (add_log s evs).
Proof. split; reflexivity. Qed.

Section KeepsRules.

Context {A B : Type}.

Lemma keeps_ret (a : A) : keeps_process (ret a).
Proof. intros s. apply same_process_refl. Qed.

Lemma keeps_return (v : pyval) : keeps_process (@return_ A v).
Proof. intros s. apply same_process_refl. Qed.

Lemma keeps_raise (e : exn) : keeps_process (@raise A e).
Proof. intros s. apply same_process_refl. Qed.

Lemma keeps_lift (r : exn + A) : keeps_process (lift r).
Proof. destruct r; [apply keeps_raise | apply keeps_ret]. Qed.

Lemma keeps_bind (m : M A) (k : A -> M B) :
  keeps_process m -> (forall a, keeps_process (k a)) ->
  keeps_process (bind m k).
Proof.
  intros Hm Hk s. specialize (Hm s). unfold bind.
  destruct (m s) as [[a|v|e] s1]; cbn [snd] in *; try exact Hm.
  exact (same_process_trans _ _ _ Hm (Hk a s1)).
Qed.

Lemma keeps_try (m : M A) (hs : list (exn_class * (exn -> M A))) :
  keeps_process m ->
  Forall (fun ch => forall e, keeps_process (snd ch e)) hs ->
  keeps_process (try_except m hs).
Proof.
  intros Hm Hhs s. specialize (Hm s). unfold try_except.
  destruct (m s) as [[a|v|e] s1]; cbn [snd] in *; try exact Hm.
  assert (Hsel : match select_handler hs e with
                 | Some h => keeps_process h
                 | None => True
                 end).
  { clear -Hhs. induction Hhs as [|[c h] hs Hh _ IH]; cbn [select_handler];
      [exact I|].
    destruct (isinstance e c); [apply Hh | exact IH]. }
  destruct (select_handler hs e) as [h|]; [|exact Hm].
  exact (same_process_trans _ _ _ Hm (Hsel s1)).
Qed.

End KeepsRules.

Lemma keeps_emit (ev : event) : keeps_process (emit ev).
Proof. intros s. apply same_process_add_log. Qed.

Lemma keeps_call (body : M unit) :
  keeps_process body -> keeps_process (call body).
Proof.
  intros H s. specialize (H s). unfold call.
  destruct (body s) as [[a|v|e] s1]; exact H.
Qed.

Lemma keeps_sys_path_insert (dir : string) :
  keeps_process (sys_path_insert dir).
Proof. intros s. split; reflexivity. Qed.

Lemma keeps_for_each {X L} (body : X -> L -> M L) :
  (forall x l, keeps_process (body x l)) ->
  forall xs l, keeps_process (for_each xs body l).
Proof.
  intros Hbody xs. induction xs as [|x xs IH]; intros l; cbn.
  - apply keeps_ret.
  - apply keeps_bind; [apply Hbody | exact IH].
Qed.

Lemma keeps_for_else {X L} (body : X -> L -> M (ctl * L)) (orelse : L -> M L) :
  (forall x l, keeps_process (body x l)) ->
  (forall l, keeps_process (orelse l)) ->
  forall xs l, keeps_process (for_else xs body orelse l).
Proof.
  intros Hbody Helse xs. induction xs as [|x xs IH]; intros l; cbn.
  - apply Helse.
  - apply keeps_bind; [apply Hbody|].
    intros [[|] l']; [apply IH | apply keeps_ret].
Qed.

Ltac keeps_step :=
  first
    [ apply keeps_ret | apply keeps_return | apply keeps_raise
    | apply keeps_lift | apply keeps_emit | apply keeps_sys_path_insert
    | apply keeps_bind; [| intros ?]
    | apply keeps_call
    | apply keeps_try
    | apply Forall_nil
    | apply Forall_cons; [intros ?; cbn [snd] |]
    | apply keeps_for_each; intros ? ?
    | apply keeps_for_else; [intros ? ? | intros ?]
    | match goal with
      | |- keeps_process (if ?c then _ else _) => destruct c
      | |- keeps_process (match ?c with _ => _ end) => destruct c
      end ].

Ltac prove_keeps := unfold_launcher; repeat keeps_step.

(** Everything before the launch leaves the working directory and the
    environment untouched. *)
Lemma main_preparation_keeps (w : World) : keeps_process (main_preparation w).
Proof. unfold main_preparation, main_until_dependencies. prove_keeps. Qed.

Lemma main_port_keeps (w : World) : keeps_process (main_port w).
Proof. prove_keeps. Qed.

(** ** The located entry point *)

Lemma append_nonempty_r (a b : string) : b <> "" -> (a ++ b)%string <> "".
Proof.
  intros Hb H. destruct a; cbn in H; [now apply Hb | discriminate H].
Qed.

Lemma join_snoc_nonempty (ps : list string) (n : string) :
  n <> "" -> join "/" (ps ++ [n]) <> "".
Proof.
  intros Hn. induction ps as [|x ps IH]; [exact Hn|].
  cbn [app join]. destruct (ps ++ [n]) as [|y rest] eqn:Hrest.
  - now destruct ps.
  - apply append_nonempty_r. discriminate.
Qed.

(** The text of a path that ends in a nonempty component is not empty, so
    [if not app_file] never mistakes a located file for a missing one. *)
Lemma path_str_div_nonempty (d : Path) (n : string) :
  n <> "" -> path_str (path_div d n) <> "".
Proof.
  intros Hn. unfold path_str, path_div. cbn [anchor parts].
  pose proof (join_snoc_nonempty (parts d) n Hn) as Hjoin.
  destruct (parts d ++ [n]) as [|y rest] eqn:Hparts.
  - now destruct (parts d).
  - destruct (anchor d); [exact Hjoin | discriminate].
Qed.

Lemma possible_path_truthy (w : World) (p : Path) :
  In p (possible_paths w) -> truthy (PStr (path_str p)) = true.
Proof.
  intros Hin. cbn [truthy]. apply negb_true_iff, String.eqb_neq.
  destruct Hin as [<- | [<- | [<- | []]]];
    apply path_str_div_nonempty; discriminate.
Qed.

Lemma main_app_file_located (w : World) (s : pstate) :
  main_app_file w s =
    match find (w_exists w) (possible_paths w) with
    | Some p =>
        (Norm (path_str p),
         add_log s (map EvExists (consulted (w_exists w) (possible_paths w)) ++
                    [EvPrint ("找到应用文件: " ++ path_str p ++ nl)%string]))
    | None =>
        (Retn PNone,
         add_log s (map EvExists (consulted (w_exists w) (possible_paths w)) ++
                    [EvPrint ("❌ 无法找到 Flask 应用文件 (app.py, application.py, 或 main.py)" ++ nl)%string]))
    end.
Proof.
  unfold main_app_file.
  rewrite (bind_run_norm _ _ _ _ _ (call_run _ _ _ _ (find_app_file_run w s))).
  destruct (find (w_exists w) (possible_paths w)) as [p|] eqn:Hfind.
  - apply find_some in Hfind. destruct Hfind as [Hin _].
    rewrite (possible_path_truthy w p Hin). cbn [negb as_str].
    unfold bind, print, print_end, emit, ret.
    now rewrite !add_log_app, ?append_assoc.
  - cbn [truthy negb]. unfold bind, print, print_end, emit, return_.
    now rewrite !add_log_app.
Qed.

(** When the preparation completes, its value is the text of the first
    existing candidate. *)
Lemma main_preparation_located (w : World) (s s1 : pstate) (f : string) :
  main_preparation w s = (Norm f, s1) ->
  exists p, find (w_exists w) (possible_paths w) = Some p /\ f = path_str p.
Proof.
  unfold main_preparation. unfold bind at 1.
  destruct (main_until_dependencies w s) as [[a|v|e] s2]; try discriminate.
  unfold bind at 1.
  destruct (main_model w (parent (w_file w)) s2) as [[m|v|e] s3];
    try discriminate.
  rewrite main_app_file_located.
  destruct (find (w_exists w) (possible_paths w)) as [p|]; [|discriminate].
  intros H. inversion H; subst. now exists p.
Qed.

(** Every run of [main], with the entry point and the final process state:
    it stops while preparing or negotiating and leaves the process as it
    was, or it launches the located file. *)
Lemma main_run_located (w : World) (s : pstate) :
  exists evs0,
    forallb is_preparation_event evs0 = true /\
    ((trace (main w) s = evs0 /\
      (forall a, outcome (main w) s <> Norm a) /\
      same_process s (snd (main w s))) \/
     (exists p,
        find (w_exists w) (possible_paths w) = Some p /\
        ((selected_port w = None /\
          trace (main w) s = evs0 ++ negotiation_events w /\
          outcome (main w) s = Retn PNone /\
          same_process s (snd (main w s))) \/
         (exists port,
            selected_port w = Some port /\
            trace (main w) s =
              evs0 ++ negotiation_events w ++
              launch_events w (parent (w_file w)) (path_str p) port /\
            outcome (main w) s =
              fst (launch_handled
                     (fst (launch_attempt w (parent (w_file w))
                             (path_str p) port))) /\
            cwd (snd (main w s)) =
              match w_chdir w (parent (w_file w)) with
              | Some _ => cwd s
              | None => parent (w_file w)
              end /\
            environ (snd (main w s)) =
              ("FLASK_ENV", "development") :: ("FLASK_APP", path_str p)
              :: environ s)))).
Proof.
  destruct (main_preparation_emits w s) as [evs0 [Hlog0 Hprep]].
  pose proof (main_preparation_keeps w s) as Hkeep0.
  pose proof (main_preparation_located w s) as Hloc.
  pose proof (main_split_at_port w s) as Hmain.
  unfold bind at 1 in Hmain.
  exists evs0. split; [exact Hprep|].
  destruct (main_preparation w s) as [[f|v|e] s1]; cbn [fst snd] in *.
  - right. destruct (Hloc s1 f eq_refl) as [p [Hfind ->]]. exists p.
    split; [exact Hfind|].
    unfold bind in Hmain. rewrite main_port_selected in Hmain.
    destruct (selected_port w) as [q|].
    + right. exists q. split; [reflexivity|].
      rewrite main_launch_run in Hmain. rewrite Hmain.
      destruct Hkeep0 as [Hcwd Henv]. repeat split.
      * apply trace_of_log. rewrite Hmain.
        cbn [snd launched_state log add_log].
        rewrite Hlog0. now rewrite <- !app_assoc.
      * unfold outcome. now rewrite Hmain.
      * cbn [snd launched_state cwd add_log]. now rewrite Hcwd.
      * cbn [snd launched_state environ add_log]. now rewrite Henv.
    + left. split; [reflexivity|]. rewrite Hmain. repeat split.
      * apply trace_of_log. rewrite Hmain. cbn [snd log add_log].
        rewrite Hlog0. now rewrite <- !app_assoc.
      * unfold outcome. now rewrite Hmain.
      * apply Hkeep0.
      * apply Hkeep0.
  - left. rewrite Hmain. repeat split; try apply Hkeep0.
    + apply trace_of_log. now rewrite Hmain.
    + intros a H. unfold outcome in H. rewrite Hmain in H. discriminate H.
  - left. rewrite Hmain. repeat split; try apply Hkeep0.
    + apply trace_of_log. now rewrite Hmain.
    + intros a H. unfold outcome in H. rewrite Hmain in H. discriminate H.
Qed.

Lemma preparation_not_launch (evs : list event) (ev : event) :
  forallb is_preparation_event evs = true -> In ev evs ->
  is_socket_event ev = false /\ is_launch_event ev = false.
Proof.
  intros H Hin. destruct (preparation_event_facts _ _ H Hin). now split.
Qed.

(** X9: when none of app.py, application.py and main.py exists, the locator
    step asks for the three in order, prints that no Flask application file
    was found and returns. No run of [main] then probes a port or performs
    a launch step, none ends normally, and the working directory and the
    environment are left as they were. *)
Theorem entry_point_missing_aborts (w : World) (s : pstate) :
  w_exists w (path_div (parent (w_file w)) "app.py") = false ->
  w_exists w (path_div (parent (w_file w)) "application.py") = false ->
  w_exists w (path_div (parent (w_file w)) "main.py") = false ->
  (forall s1,
     outcome (main_app_file w) s1 = Retn PNone /\
     trace (main_app_file w) s1 =
       [EvExists (path_div (parent (w_file w)) "app.py");
        EvExists (path_div (parent (w_file w)) "application.py");
        EvExists (path_div (parent (w_file w)) "main.py");
        EvPrint ("❌ 无法找到 Flask 应用文件 (app.py, application.py, 或 main.py)" ++ nl)%string]) /\
  (forall ev, In ev (trace (main w) s) ->
              is_socket_event ev = false /\ is_launch_event ev = false) /\
  (forall a, outcome (main w) s <> Norm a) /\
  same_process s (snd (main w s)).
Proof.
  intros H1 H2 H3.
  assert (Hfind : find (w_exists w) (possible_paths w) = None).
  { unfold possible_paths. cbn. now rewrite H1, H2, H3. }
  split.
  - intros s1. pose proof (main_app_file_located w s1) as Hrun.
    rewrite Hfind in Hrun. unfold possible_paths in Hrun.
    cbn [consulted map] in Hrun. rewrite H1, H2, H3 in Hrun.
    destruct (trace_of_run _ _ _ _ Hrun) as [Htr Hout]. now split.
  - destruct (main_run_located w s)
      as [evs0 [Hprep [(Htrace & Hout & Hsame) | (p & Hp & _)]]].
    + rewrite Htrace. split; [|split; assumption].
      intros ev Hin. exact (preparation_not_launch _ _ Hprep Hin).
    + rewrite Hfind in Hp. discriminate Hp.
Qed.

Lemma entry_point_missing_aborts_witness :
  outcome (main world_without_entry_point) state0 = Retn PNone /\
  same_process state0 (snd (main world_without_entry_point state0)).
Proof.
  split; [reflexivity|].
  exact (proj2 (proj2 (proj2 (entry_point_missing_aborts
                                world_without_entry_point state0
                                eq_refl eq_refl eq_refl)))).
Defined.

Lemma launch_events_files (w : World) (current_dir : Path) (app_file : string)
  (port : Z) :
  In (EvSetEnv "FLASK_APP" app_file)
     (launch_events w current_dir app_file port) /\
  (forall k v, In (EvSetEnv k v) (launch_events w current_dir app_file port) ->
     (k = "FLASK_APP" /\ v = app_file) \/
     (k = "FLASK_ENV" /\ v = "development")) /\
  (forall name file,
     In (EvSpecFromFile name file) (launch_events w current_dir app_file port) ->
     name = "app" /\ file = app_file).
Proof.
  split; [unfold launch_events; cbn; tauto|]. split.
  - intros k v.
    launch_cases w current_dir app_file port; intros Hin;
      repeat (destruct Hin as [Hin|Hin];
              [try discriminate Hin; inversion Hin; subst; auto|]);
      contradiction.
  - intros name file.
    launch_cases w current_dir app_file port; intros Hin;
      repeat (destruct Hin as [Hin|Hin];
              [try discriminate Hin; inversion Hin; subst; auto|]);
      contradiction.
Qed.

(** X10: the file that is loaded is the located entry point. In every run
    of [main] that executes a module, the file executed is the first of
    app.py, application.py, main.py that exists; it is also the file given
    to [spec_from_file_location] (under the module name "app") and the
    value [FLASK_APP] has in the environment when [main] ends. *)
Theorem launch_loads_located_file (w : World) (s : pstate) (file : string)
  (c : Path) :
  In (EvExecModule file c) (trace (main w) s) ->
  exists p,
    find (w_exists w)
         [path_div (parent (w_file w)) "app.py";
          path_div (parent (w_file w)) "application.py";
          path_div (parent (w_file w)) "main.py"] = Some p /\
    file = path_str p /\
    (forall name f, In (EvSpecFromFile name f) (trace (main w) s) ->
                    name = "app" /\ f = file) /\
    getenv "FLASK_APP" (environ (snd (main w s))) = Some file /\
    getenv "FLASK_ENV" (environ (snd (main w s))) = Some "development".
Proof.
  intros Hin.
  destruct (main_run_located w s)
    as [evs0 [Hprep [(Htrace & _) | (p & Hp & [(_ & Htrace & _)
                                              | (q & _ & Htrace & _ & _ & Henv)])]]];
    rewrite Htrace in *.
  - discriminate (forallb_In _ _ _ Hprep Hin).
  - apply in_app_or in Hin. destruct Hin as [Hin|Hin].
    + discriminate (forallb_In _ _ _ Hprep Hin).
    + discriminate (forallb_In _ _ _ (negotiation_events_kind w) Hin).
  - apply in_app_or in Hin. destruct Hin as [Hin|Hin].
    { discriminate (forallb_In _ _ _ Hprep Hin). }
    apply in_app_or in Hin. destruct Hin as [Hin|Hin].
    { discriminate (forallb_In _ _ _ (negotiation_events_kind w) Hin). }
    apply launch_events_exec_module in Hin. destruct Hin as (-> & _).
    exists p. split; [exact Hp|]. split; [reflexivity|].
    split; [|rewrite Henv; split; reflexivity].
    intros name f Hspec.
    apply in_app_or in Hspec. destruct Hspec as [Hspec|Hspec].
    { discriminate (forallb_In _ _ _ Hprep Hspec). }
    apply in_app_or in Hspec. destruct Hspec as [Hspec|Hspec].
    { discriminate (forallb_In _ _ _ (negotiation_events_kind w) Hspec). }
    now apply (proj2 (proj2 (launch_events_files w _ _ _))) in Hspec.
Qed.

Lemma launch_loads_located_file_witness :
  In (EvExecModule "/srv/kronos/webui/main.py"
        (mkPath "/" ["srv"; "kronos"; "webui"]))
     (trace (main world_main_py_only) state0) /\
  getenv "FLASK_APP" (environ (snd (main world_main_py_only state0))) =
    Some "/srv/kronos/webui/main.py".
Proof.
  assert (Hin : In (EvExecModule "/srv/kronos/webui/main.py"
                      (mkPath "/" ["srv"; "kronos"; "webui"]))
                   (trace (main world_main_py_only) state0)).
  { vm_compute. tauto. }
  split; [exact Hin|].
  destruct (launch_loads_located_file world_main_py_only state0 _ _ Hin)
    as (p & _ & _ & _ & Henv & _).
  exact Henv.
Defined.

(** ** Failures during the launch *)

Lemma Exception_not_KeyboardInterrupt (e : exn) :
  isinstance e Exception = true -> isinstance e KeyboardInterrupt = false.
Proof. destruct e as [c m]. destruct c; cbn; intros H; congruence. Qed.

Lemma main_launch_observed (w : World) (current_dir : Path)
  (app_file : string) (port : Z) (s : pstate) :
  outcome (main_launch w current_dir app_file port) s =
    fst (launch_handled (fst (launch_attempt w current_dir app_file port))) /\
  trace (main_launch w current_dir app_file port) s =
    launch_events w current_dir app_file port /\
  snd (main_launch w current_dir app_file port s) =
    launched_state w current_dir app_file port s.
Proof.
  pose proof (main_launch_run w current_dir app_file port s) as Hrun.
  split; [unfold outcome; now rewrite Hrun|].
  split; [apply trace_of_log; now rewrite Hrun | now rewrite Hrun].
Qed.

(** X11: whatever [Exception] is raised while entering the launcher's
    directory, executing the module or running the server, the launch
    catches it, prints the generic failure report (the line with the
    exception's text and five troubleshooting lines) and completes
    normally; [FLASK_APP] and [FLASK_ENV] stay set. *)
Theorem launch_failure_is_reported (w : World) (current_dir : Path)
  (app_file : string) (port : Z) (s : pstate) (e : exn) :
  isinstance e Exception = true ->
  w_chdir w current_dir = Some e \/
  (w_chdir w current_dir = None /\
   w_exec_module w app_file current_dir = Some e) \/
  (w_chdir w current_dir = None /\
   w_exec_module w app_file current_dir = None /\
   exists server, w_module_app w = Some server /\
                  app_run server true "0.0.0.0" port false = Some e) ->
  outcome (main_launch w current_dir app_file port) s = Norm tt /\
  (exists pre,
     trace (main_launch w current_dir app_file port) s =
       pre ++
       [EvPrint ("❌ 启动失败: " ++ exn_str e ++ nl)%string;
        EvPrint ("故障排除提示:" ++ nl)%string;
        EvPrint ("1. 检查端口是否被其他进程占用" ++ nl)%string;
        EvPrint ("2. 验证所有依赖是否已安装" ++ nl)%string;
        EvPrint ("3. 确保应用文件存在且有效" ++ nl)%string;
        EvPrint ("4. 检查控制台输出以获取更详细的错误信息" ++ nl)%string]) /\
  environ (snd (main_launch w current_dir app_file port s)) =
    ("FLASK_ENV", "development") :: ("FLASK_APP", app_file) :: environ s.
Proof.
  intros Hcls Hwhere.
  pose proof (Exception_not_KeyboardInterrupt e Hcls) as Hki.
  destruct (main_launch_observed w current_dir app_file port s)
    as (Hout & Htr & Hst).
  rewrite Hout, Htr, Hst. split; [|split; [|reflexivity]].
  - unfold launch_attempt, launch_handled.
    destruct Hwhere as [Hcd | [[Hcd Hex] | (Hcd & Hex & srv & Happ & Hrun)]].
    + rewrite Hcd. cbn [fst]. now rewrite Hki, Hcls.
    + rewrite Hcd, Hex. cbn [fst]. now rewrite Hki, Hcls.
    + rewrite Hcd, Hex, Happ, Hrun. cbn [fst]. now rewrite Hki, Hcls.
  - unfold launch_events, launch_attempt, launch_handled.
    destruct Hwhere as [Hcd | [[Hcd Hex] | (Hcd & Hex & srv & Happ & Hrun)]].
    + rewrite Hcd. cbn [fst snd]. rewrite Hki, Hcls. cbn [snd].
      eexists. rewrite app_assoc. reflexivity.
    + rewrite Hcd, Hex. cbn [fst snd]. rewrite Hki, Hcls. cbn [snd].
      eexists. rewrite app_assoc. reflexivity.
    + rewrite Hcd, Hex, Happ, Hrun. cbn [fst snd]. rewrite Hki, Hcls.
      cbn [snd]. eexists. rewrite app_assoc. reflexivity.
Qed.

Lemma launch_failure_is_reported_witness :
  outcome (main_launch world_bind_fails (mkPath "/" ["srv"; "kronos"; "webui"])
             "/srv/kronos/webui/app.py" 7070) state0 = Norm tt.
Proof.
  refine (proj1 (launch_failure_is_reported world_bind_fails
                   (mkPath "/" ["srv"; "kronos"; "webui"])
                   "/srv/kronos/webui/app.py" 7070 state0
                   (mkExn OSError "[Errno 98] Address already in use")
                   eq_refl _)).
  right. right. split; [reflexivity|]. split; [reflexivity|].
  eexists. split; reflexivity.
Defined.

(** X12: a [KeyboardInterrupt] while the server runs is a clean stop: after
    the server's [run] the launch prints only the line saying that the user
    stopped the server (no failure report) and completes normally. *)
Theorem interrupt_stops_cleanly (w : World) (current_dir : Path)
  (app_file : string) (port : Z) (s : pstate) (server : App) (e : exn) :
  w_chdir w current_dir = None ->
  w_exec_module w app_file current_dir = None ->
  w_module_app w = Some server ->
  app_run server true "0.0.0.0" port false = Some e ->
  isinstance e KeyboardInterrupt = true ->
  outcome (main_launch w current_dir app_file port) s = Norm tt /\
  trace (main_launch w current_dir app_file port) s =
    [EvPrint (nl ++ "🌐 正在端口 " ++ str_of_int port ++ " 上启动 Web 服务器..." ++ nl)%string;
     EvSetEnv "FLASK_APP" app_file;
     EvSetEnv "FLASK_ENV" "development";
     EvChdir current_dir;
     EvSpecFromFile "app" app_file;
     EvModuleFromSpec;
     EvExecModule app_file current_dir;
     EvGetattrApp;
     EvPrint ("✅ Web 服务器启动成功!" ++ nl)%string;
     EvPrint ("🌐 访问地址: http://localhost:" ++ str_of_int port ++ nl)%string;
     EvPrint ("💡 提示: 按 Ctrl+C 停止服务器" ++ nl)%string;
     EvThreadStart ("http://localhost:" ++ str_of_int port)%string;
     EvAppRun true "0.0.0.0" port false;
     EvPrint (nl ++ "🛑 服务器已被用户停止" ++ nl)%string].
Proof.
  intros Hcd Hex Happ Hrun Hki.
  destruct (main_launch_observed w current_dir app_file port s)
    as (Hout & Htr & _).
  rewrite Hout, Htr. unfold launch_events, launch_attempt, launch_handled.
  rewrite Hcd, Hex, Happ, Hrun. cbn [fst snd]. rewrite Hki. cbn [fst snd].
  split; reflexivity.
Qed.

Lemma interrupt_stops_cleanly_witness :
  outcome (main_launch healthy_world (mkPath "/" ["srv"; "kronos"; "webui"])
             "/srv/kronos/webui/app.py" 7070) state0 = Norm tt.
Proof.
  exact (proj1 (interrupt_stops_cleanly healthy_world
                  (mkPath "/" ["srv"; "kronos"; "webui"])
                  "/srv/kronos/webui/app.py" 7070 state0 flask_app
                  (mkExn KeyboardInterrupt "")
                  eq_refl eq_refl eq_refl eq_refl eq_refl)).
Defined.



(** X14: when the launcher's own directory cannot be entered, no run of
    [main] loads or runs the application, and the working directory stays
    what it was. *)
Theorem chdir_failure_skips_loading (w : World) (s : pstate) (e : exn) :
  w_chdir w (parent (w_file w)) = Some e ->
  (forall ev, In ev (trace (main w) s) -> is_load_or_run ev = false) /\
  cwd (snd (main w s)) = cwd s.
Proof.
  intros Hcd.
  assert (Hprep : forall evs ev, forallb is_preparation_event evs = true ->
                                 In ev evs -> is_load_or_run ev = false).
  { intros evs ev H Hin. pose proof (forallb_In _ _ _ H Hin) as Hev.
    destruct ev; try discriminate Hev; reflexivity. }
  assert (Hneg : forall ev, In ev (negotiation_events w) ->
                            is_load_or_run ev = false).
  { intros ev Hin.
    pose proof (forallb_In _ _ _ (negotiation_events_kind w) Hin) as Hev.
    destruct ev; try discriminate Hev; reflexivity. }
  destruct (main_run_located w s)
    as [evs0 [Hp0 [(Htrace & _ & Hsame)
                  | (p & _ & [(_ & Htrace & _ & Hsame)
                             | (q & _ & Htrace & _ & Hcwd & _)])]]];
    rewrite Htrace.
  - split; [intros ev Hin; exact (Hprep _ _ Hp0 Hin) | apply Hsame].
  - split; [|apply Hsame]. intros ev Hin.
    apply in_app_or in Hin. destruct Hin as [Hin|Hin];
      [exact (Hprep _ _ Hp0 Hin) | exact (Hneg _ Hin)].
  - rewrite Hcd in Hcwd. split; [|exact Hcwd]. intros ev Hin.
    apply in_app_or in Hin. destruct Hin as [Hin|Hin];
      [exact (Hprep _ _ Hp0 Hin)|].
    apply in_app_or in Hin. destruct Hin as [Hin|Hin]; [exact (Hneg _ Hin)|].
    revert Hin. unfold launch_events, launch_attempt, launch_handled.
    rewrite Hcd. cbn [fst snd].
    destruct (isinstance e KeyboardInterrupt);
      [|destruct (isinstance e Exception)];
      cbn; intros Hin; in_cases Hin; subst ev; reflexivity.
Qed.

Lemma chdir_failure_skips_loading_witness :
  cwd (snd (main world_chdir_denied state0)) = mkPath "/" ["home"; "operator"].
Proof.
  exact (proj2 (chdir_failure_skips_loading world_chdir_denied state0 _ eq_refl)).
Defined.

(** X15: what a run of [main] can do to the process. The working directory
    ends as it was or as the launcher's directory; the environment ends as
    it was or with [FLASK_ENV] and [FLASK_APP] added in front; and a run
    without any launch step changes neither. *)
Theorem main_process_effects (w : World) (s : pstate) :
  (cwd (snd (main w s)) = cwd s \/
   cwd (snd (main w s)) = parent (w_file w)) /\
  (environ (snd (main w s)) = environ s \/
   exists app_file,
     environ (snd (main w s)) =
       ("FLASK_ENV", "development") :: ("FLASK_APP", app_file) :: environ s) /\
  ((forall ev, In ev (trace (main w) s) -> is_launch_event ev = false) ->
   same_process s (snd (main w s))).
Proof.
  destruct (main_run_located w s)
    as [evs0 [Hp0 [(Htrace & _ & Hsame)
                  | (p & _ & [(_ & Htrace & _ & Hsame)
                             | (q & _ & Htrace & _ & Hcwd & Henv)])]]].
  - destruct Hsame as [Hc He]. repeat split; auto.
  - destruct Hsame as [Hc He]. repeat split; auto.
  - split; [|split].
    + rewrite Hcwd. destruct (w_chdir w (parent (w_file w))); auto.
    + right. now exists (path_str p).
    + intros Hno. exfalso.
      assert (Hin : In (EvSetEnv "FLASK_APP" (path_str p)) (trace (main w) s)).
      { rewrite Htrace. apply in_or_app. right. apply in_or_app. right.
        apply launch_events_files. }
      discriminate (Hno _ Hin).
Qed.

(** ** The capability probe on every path *)

(** X16: whatever the import of the model library does, the probe has put
    the parent of the launcher's directory at the front of [sys.path], and
    it stays there; the working directory and the environment are not
    touched. When the import succeeds the probe prints that the library is
    available and yields [model_available = True]; when it raises something
    that is not an [ImportError], that exception leaves the probe right
    after the import. *)
Theorem capability_probe_effects (w : World) (current_dir : Path) (s : pstate) :
  sys_path (snd (main_model w current_dir s)) =
    path_str (parent current_dir) :: sys_path s /\
  same_process s (snd (main_model w current_dir s)) /\
  (w_import_model w = None ->
   outcome (main_model w current_dir) s = Norm true /\
   trace (main_model w current_dir) s =
     [EvSysPathInsert (path_str (parent current_dir));
      EvImportModel;
      EvPrint ("✅ Kronos 模型库可用" ++ nl)%string]) /\
  (forall e, w_import_model w = Some e ->
             isinstance e ImportError = false ->
             outcome (main_model w current_dir) s = Exn e /\
             trace (main_model w current_dir) s =
               [EvSysPathInsert (path_str (parent current_dir));
                EvImportModel]).
Proof.
  unfold outcome, trace, same_process.
  unfold main_model, try_except, bind, sys_path_insert, import_model, print,
    print_end, emit, lift, unit_result, raise, ret, select_handler.
  cbn -[isinstance String.append skipn length].
  destruct (w_import_model w) as [e|];
    cbn -[isinstance String.append skipn length].
  - destruct (isinstance e ImportError) eqn:Hcls;
      cbn -[isinstance String.append skipn length].
    + split; [reflexivity|]. split; [now split|].
      split; [intros H; discriminate H|].
      intros e' He' Hcls'. inversion He'; subst. congruence.
    + split; [reflexivity|]. split; [now split|].
      split; [intros H; discriminate H|].
      intros e' He' _. inversion He'; subst. split; [reflexivity|].
      rewrite <- app_assoc. apply skipn_length_app.
  - split; [reflexivity|]. split; [now split|].
    split; [|intros e H; discriminate H].
    intros _. split; [reflexivity|].
    rewrite <- !app_assoc. apply skipn_length_app.
Qed.

(** X17: a located entry point is always used. When some candidate exists,
    the locator step of [main] yields the text of the first existing one
    and prints it; the not-found branch is never taken for it, because the
    text of such a path is never empty. *)
Theorem located_entry_point_is_used (w : World) (s : pstate) (p : Path) :
  find (w_exists w)
       [path_div (parent (w_file w)) "app.py";
        path_div (parent (w_file w)) "application.py";
        path_div (parent (w_file w)) "main.py"] = Some p ->
  path_str p <> "" /\
  outcome (main_app_file w) s = Norm (path_str p) /\
  trace (main_app_file w) s =
    map EvExists
      (consulted (w_exists w)
         [path_div (parent (w_file w)) "app.py";
          path_div (parent (w_file w)) "application.py";
          path_div (parent (w_file w)) "main.py"]) ++
    [EvPrint ("找到应用文件: " ++ path_str p ++ nl)%string].
Proof.
  intros Hfind. change (find (w_exists w) (possible_paths w) = Some p) in Hfind.
  pose proof (main_app_file_located w s) as Hrun. rewrite Hfind in Hrun.
  destruct (trace_of_run _ _ _ _ Hrun) as [Htr Hout].
  split; [|split; [exact Hout | exact Htr]].
  apply find_some in Hfind. destruct Hfind as [Hin _].
  pose proof (possible_path_truthy w p Hin) as Ht. cbn [truthy] in Ht.
  now apply negb_true_iff, String.eqb_neq in Ht.
Qed.

Lemma located_entry_point_is_used_witness :
  outcome (main_app_file world_main_py_only) state0 =
    Norm "/srv/kronos/webui/main.py".
Proof.
  exact (proj1 (proj2 (located_entry_point_is_used world_main_py_only state0
                         (mkPath "/" ["srv"; "kronos"; "webui"; "main.py"])
                         eq_refl))).
Defined.

(** ** The server run *)

Lemma selected_port_first_available (w : World) :
  selected_port w =
    find (observed_available w "localhost") [7070; 7071; 7072; 7073].
Proof. reflexivity. Qed.

Lemma launch_events_run_position (w : World) (current_dir : Path)
  (app_file : string) (port : Z) (d : bool) (h : string) (q : Z) (r : bool) :
  In (EvAppRun d h q r) (launch_events w current_dir app_file port) ->
  exists pre post,
    launch_events w current_dir app_file port =
      pre ++ [EvThreadStart ("http://localhost:" ++ str_of_int port)%string;
              EvAppRun true "0.0.0.0" port false] ++ post /\
    forallb (fun ev => negb (is_app_run ev)) pre = true /\
    forallb (fun ev => negb (is_app_run ev)) post = true.
Proof.
  launch_cases w current_dir app_file port; intros Hin;
    try (in_cases Hin; fail);
    exists
      [EvPrint (nl ++ "🌐 正在端口 " ++ str_of_int port ++ " 上启动 Web 服务器..." ++ nl)%string;
       EvSetEnv "FLASK_APP" app_file;
       EvSetEnv "FLASK_ENV" "development";
       EvChdir current_dir;
       EvSpecFromFile "app" app_file;
       EvModuleFromSpec;
       EvExecModule app_file current_dir;
       EvGetattrApp;
       EvPrint ("✅ Web 服务器启动成功!" ++ nl)%string;
       EvPrint ("🌐 访问地址: http://localhost:" ++ str_of_int port ++ nl)%string;
       EvPrint ("💡 提示: 按 Ctrl+C 停止服务器" ++ nl)%string];
    eexists; (split; [reflexivity | split; reflexivity]).
Qed.

(** X18: in every run of [main], the server's [run] is invoked at most
    once, with debug on, host 0.0.0.0, the reloader off and, as port, the
    first of 7070, 7071, 7072, 7073 observed available; the step right
    before it starts the browser thread for http://localhost:<that port>. *)
Theorem server_run_arguments (w : World) (s : pstate) (d : bool) (h : string)
  (q : Z) (r : bool) :
  In (EvAppRun d h q r) (trace (main w) s) ->
  d = true /\ h = "0.0.0.0" /\ r = false /\
  find (observed_available w "localhost") [7070; 7071; 7072; 7073] = Some q /\
  exists pre post,
    trace (main w) s =
      pre ++ [EvThreadStart ("http://localhost:" ++ str_of_int q)%string;
              EvAppRun true "0.0.0.0" q false] ++ post /\
    forallb (fun ev => negb (is_app_run ev)) pre = true /\
    forallb (fun ev => negb (is_app_run ev)) post = true.
Proof.
  intros Hin.
  assert (Hprep : forall evs, forallb is_preparation_event evs = true ->
                  forallb (fun ev => negb (is_app_run ev)) evs = true).
  { intros evs H. apply forallb_forall. intros ev Hev.
    pose proof (forallb_In _ _ _ H Hev) as Hk.
    destruct ev; try discriminate Hk; reflexivity. }
  assert (Hneg : forallb (fun ev => negb (is_app_run ev))
                         (negotiation_events w) = true).
  { apply forallb_forall. intros ev Hev.
    pose proof (forallb_In _ _ _ (negotiation_events_kind w) Hev) as Hk.
    destruct ev; try discriminate Hk; reflexivity. }
  destruct (main_run_located w s)
    as [evs0 [Hp0 [(Htrace & _)
                  | (p & _ & [(_ & Htrace & _)
                             | (port & Hsel & Htrace & _)])]]];
    rewrite Htrace in *.
  - discriminate (forallb_In _ _ _ Hp0 Hin).
  - apply in_app_or in Hin. destruct Hin as [Hin|Hin].
    + discriminate (forallb_In _ _ _ Hp0 Hin).
    + discriminate (forallb_In _ _ _ (negotiation_events_kind w) Hin).
  - apply in_app_or in Hin. destruct Hin as [Hin|Hin].
    { discriminate (forallb_In _ _ _ Hp0 Hin). }
    apply in_app_or in Hin. destruct Hin as [Hin|Hin].
    { discriminate (forallb_In _ _ _ (negotiation_events_kind w) Hin). }
    destruct (launch_events_app_run _ _ _ _ _ _ _ _ Hin)
      as (-> & -> & -> & -> & _).
    destruct (launch_events_run_position _ _ _ _ _ _ _ _ Hin)
      as (pre & post & Hevs & Hpre & Hpost).
    repeat split; try reflexivity.
    + now rewrite <- selected_port_first_available.
    + exists (evs0 ++ negotiation_events w ++ pre), post.
      split; [rewrite Hevs, <- !app_assoc; reflexivity|].
      split; [|exact Hpost].
      now rewrite !forallb_app, (Hprep _ Hp0), Hneg, Hpre.
Qed.

Lemma server_run_arguments_witness :
  In (EvAppRun true "0.0.0.0" 7072 false)
     (trace (main world_two_ports_busy) state0) /\
  find (observed_available world_two_ports_busy "localhost")
       [7070; 7071; 7072; 7073] = Some 7072.
Proof.
  assert (Hin : In (EvAppRun true "0.0.0.0" 7072 false)
                   (trace (main world_two_ports_busy) state0)).
  { vm_compute. tauto. }
  split; [exact Hin|].
  exact (proj1 (proj2 (proj2 (proj2
           (server_run_arguments world_two_ports_busy state0 _ _ _ _ Hin))))).
Defined.

(** ** Which ports are contacted *)








(** ** The order of the phases *)

Lemma launch_events_kind (w : World) (current_dir : Path) (app_file : string)
  (port : Z) :
  forallb is_launch_phase_event (launch_events w current_dir app_file port)
    = true.
Proof.
  launch_cases w current_dir app_file port; reflexivity.
Qed.

(** X20: every run of [main] goes through its phases in order and never
    back: first interactions of the preparation only (console, imports, the
    question, pip, the model import, file checks), then those of port
    negotiation only (socket operations and console), then those of the
    launch only (environment, chdir, module load, browser thread, server
    run, console). In particular nothing is imported or installed once a
    port has been probed, and no port is probed once the launch began. *)
Theorem main_phases_in_order (w : World) (s : pstate) :
  exists preparing negotiating launching,
    trace (main w) s = preparing ++ negotiating ++ launching /\
    forallb is_preparation_event preparing = true /\
    forallb is_negotiation_event negotiating = true /\
    forallb is_launch_phase_event launching = true /\
    (launching <> [] -> negotiating <> []).
Proof.
  destruct (main_run_located w s)
    as [evs0 [Hp0 [(Htrace & _)
                  | (p & _ & [(_ & Htrace & _)
                             | (port & Hsel & Htrace & _)])]]].
  - exists evs0, [], []. rewrite Htrace, !app_nil_r. repeat split; auto.
  - exists evs0, (negotiation_events w), []. rewrite Htrace, !app_nil_r.
    repeat split; auto. apply negotiation_events_kind.
  - exists evs0, (negotiation_events w),
      (launch_events w (parent (w_file w)) (path_str p) port).
    repeat split; auto.
    + apply negotiation_events_kind.
    + apply launch_events_kind.
    + intros _ Hnil. unfold negotiation_events, probe_events in Hnil.
      destruct (observed_available w "localhost" 7070);
        destruct (w_socket w); try discriminate Hnil;
        destruct (w_connect_ex w "localhost" 7070); discriminate Hnil.
Qed.

(** ** The script as a whole *)

Lemma run_py_run (w : World) (s : pstate) :
  run_py w s =
    call (main w)
      (add_log (mkState (cwd s)
                        (("HF_ENDPOINT", "https://hf-mirror.com") :: environ s)
                        (sys_path s) (log s))
               [EvSetEnv "HF_ENDPOINT" "https://hf-mirror.com"]).
Proof. reflexivity. Qed.

Lemma snd_call (body : M unit) (s : pstate) : snd (call body s) = snd (body s).
Proof. unfold call. destruct (body s) as [[a|v|e] s1]; reflexivity. Qed.

Lemma main_log_extends (w : World) (s : pstate) :
  log (snd (main w s)) = log s ++ trace (main w) s.
Proof.
  assert (H : emits (fun _ => true) (main w)).
  { unfold main, main_launch. prove_emits. }
  destruct (H s) as [evs [Hlog _]].
  now rewrite (trace_of_log _ _ _ Hlog).
Qed.

(** X21: running the script sets [HF_ENDPOINT] to the mirror before
    anything else happens, and it is still set to the mirror when [main] is
    over, however [main] ends: the only other variables the run ever
    assigns are [FLASK_APP] and [FLASK_ENV]. *)
Theorem script_sets_download_mirror (w : World) (s : pstate) :
  exists rest,
    trace (run_py w) s =
      EvSetEnv "HF_ENDPOINT" "https://hf-mirror.com" :: rest /\
    (forall k v, In (EvSetEnv k v) rest -> k = "FLASK_APP" \/ k = "FLASK_ENV") /\
    getenv "HF_ENDPOINT" (environ (snd (run_py w s))) =
      Some "https://hf-mirror.com".
Proof.
  pose proof (run_py_run w s) as Hrun.
  set (s1 := add_log (mkState (cwd s)
                        (("HF_ENDPOINT", "https://hf-mirror.com") :: environ s)
                        (sys_path s) (log s))
               [EvSetEnv "HF_ENDPOINT" "https://hf-mirror.com"]) in Hrun.
  exists (trace (main w) s1). rewrite Hrun.
  split; [|split].
  - unfold trace at 1. rewrite Hrun, snd_call, main_log_extends.
    subst s1. cbn [log add_log]. rewrite <- app_assoc.
    apply skipn_length_app.
  - intros k v Hin.
    destruct (main_run_located w s1)
      as [evs0 [Hp0 [(Htrace & _)
                    | (p & _ & [(_ & Htrace & _)
                               | (port & _ & Htrace & _)])]]];
      rewrite Htrace in Hin.
    + discriminate (forallb_In _ _ _ Hp0 Hin).
    + apply in_app_or in Hin. destruct Hin as [Hin|Hin].
      * discriminate (forallb_In _ _ _ Hp0 Hin).
      * discriminate (forallb_In _ _ _ (negotiation_events_kind w) Hin).
    + apply in_app_or in Hin. destruct Hin as [Hin|Hin].
      { discriminate (forallb_In _ _ _ Hp0 Hin). }
      apply in_app_or in Hin. destruct Hin as [Hin|Hin].
      { discriminate (forallb_In _ _ _ (negotiation_events_kind w) Hin). }
      apply (proj1 (proj2 (launch_events_files w _ _ _))) in Hin.
      destruct Hin as [[-> _] | [-> _]]; auto.
  - rewrite snd_call.
    destruct (main_run_located w s1)
      as [evs0 [_ [(_ & _ & [_ Henv])
                  | (p & _ & [(_ & _ & _ & [_ Henv])
                             | (port & _ & _ & _ & _ & Henv)])]]];
      rewrite Henv; reflexivity.
Qed.

(** ** Edge cases of the question and of the probes *)

(** X22: when dependencies are missing and [input()] raises (for instance
    [EOFError] because there is no terminal), that exception leaves [main]
    right after the question: nothing is installed, probed or launched. *)
Theorem input_failure_propagates (w : World) (s : pstate) (e : exn) :
  imports_present_or_missing w required_packages = true ->
  unresolved w required_packages <> [] ->
  w_input w = inl e ->
  outcome (main w) s = Exn e /\
  trace (main w) s =
    [EvPrint ("🚀 正在启动 Kronos Web UI..." ++ nl)%string;
     EvPrint (str_repeat "=" 50 ++ nl)%string;
     EvPrint ("工作目录: " ++ path_str (parent (w_file w)) ++ nl)%string] ++
    map EvImport required_packages ++
    [EvPrint ("❌ 缺少依赖: " ++ join ", " (unresolved w required_packages) ++ nl)%string;
     EvPrint ("请运行: pip install -r requirements.txt" ++ nl)%string;
     EvPrint (nl ++ "自动安装依赖? (y/n): ")%string;
     EvInput].
Proof.
  intros Hok Hmissing Hinput.
  assert (Hdeps : forall s1, main_dependencies w s1 =
    (Exn e,
     add_log s1
       (map EvImport required_packages ++
        [EvPrint ("❌ 缺少依赖: " ++ join ", " (unresolved w required_packages) ++ nl)%string;
         EvPrint ("请运行: pip install -r requirements.txt" ++ nl)%string;
         EvPrint (nl ++ "自动安装依赖? (y/n): ")%string;
         EvInput]))).
  { intros s1. unfold main_dependencies.
    rewrite (bind_run_norm _ _ _ _ _
               (call_run _ _ _ _ (check_dependencies_run w s1 Hok))).
    destruct (unresolved w required_packages) as [|m ms]; [congruence|].
    cbn [truthy negb].
    unfold bind, print_end, py_input, emit, lift, raise.
    rewrite Hinput. cbn -[required_packages join].
    rewrite !add_log_app, <- !app_assoc. reflexivity. }
  pose proof (main_banner_run w s _ _ Hdeps) as Hrun.
  apply main_stops_with_dependencies in Hrun; [|intros a H; discriminate H].
  destruct (trace_of_run _ _ _ _ Hrun) as [Htr Hout].
  split; [exact Hout | exact Htr].
Qed.

Lemma input_failure_propagates_witness :
  outcome (main world_no_terminal) state0 =
    Exn (mkExn EOFError "EOF when reading a line").
Proof.
  refine (proj1 (input_failure_propagates world_no_terminal state0 _
                   eq_refl _ eq_refl)).
  vm_compute. discriminate.
Defined.

(** X23: when no socket can be created at all, every probe reports its port
    as unavailable without any connection attempt: port negotiation goes
    through the four ports, prints that 7070 is occupied and that no port
    was found in 7070-7073, and makes [main] return, although nothing was
    ever found listening. *)
Theorem negotiation_without_sockets (w : World) (s : pstate) (e : sock_error) :
  w_socket w = Some e ->
  outcome (main_port w) s = Retn PNone /\
  trace (main_port w) s =
    [EvSocket;
     EvPrint ("❌ 端口 7070 已被占用" ++ nl)%string;
     EvPrint ("请停止使用此端口的进程或选择其他端口" ++ nl)%string;
     EvSocket; EvSocket; EvSocket;
     EvPrint ("在 7070-7073 范围内未找到可用端口" ++ nl)%string] /\
  (forall ev, In ev (trace (main w) s) -> is_launch_event ev = false).
Proof.
  intros Hsock.
  assert (Hobs : forall p, observed_available w "localhost" p = false).
  { intros p. unfold observed_available. now rewrite Hsock. }
  assert (Hprobe : forall p, probe_events w "localhost" p = [EvSocket]).
  { intros p. unfold probe_events. now rewrite Hsock. }
  pose proof (main_port_run w s) as Hrun.
  rewrite Hobs in Hrun. cbn [find consulted flat_map] in Hrun.
  rewrite !Hobs, !Hprobe in Hrun. cbn [flat_map app negotiation_verdict] in Hrun.
  rewrite !Hprobe in Hrun. cbn [app] in Hrun.
  destruct (trace_of_run _ _ _ _ Hrun) as [Htr Hout].
  split; [exact Hout|]. split; [exact Htr|].
  assert (Hnone : selected_port w = None).
  { unfold selected_port. cbn [find]. now rewrite !Hobs. }
  intros ev Hin.
  destruct (main_run_located w s)
    as [evs0 [Hp0 [(Htrace & _)
                  | (p & _ & [(_ & Htrace & _)
                             | (port & Hsel & _)])]]].
  - rewrite Htrace in Hin. now destruct (preparation_event_facts _ _ Hp0 Hin).
  - rewrite Htrace in Hin. apply in_app_or in Hin. destruct Hin as [Hin|Hin].
    + now destruct (preparation_event_facts _ _ Hp0 Hin).
    + now apply negotiation_event_facts in Hin.
  - rewrite Hnone in Hsel. discriminate Hsel.
Qed.

Lemma negotiation_without_sockets_witness :
  outcome (main_port world_no_sockets) state0 = Retn PNone.
Proof.
  exact (proj1 (negotiation_without_sockets world_no_sockets state0 _ eq_refl)).
Defined.
